(** * osm_fieldwork/update_xlsform.py: merging mandatory fields into an XLSForm

    A shallow embedding of [update_xlsform.py] and the properties of its
    merge and normalisation pipeline.

    Scope of the embedding.
    - A pandas [DataFrame] is a list of column labels and a list of rows; a
      row maps a column label to its cell, and a missing entry is pandas'
      NaN/None.  The row index is the position in the list (every frame the
      program builds or reads has a unique index).  The embedding follows
      pandas on frames whose column labels are distinct; the list of labels
      itself is exact also when labels repeat.
    - A Python [str] is the [string] of its UTF-8 bytes; [str.lower] and the
      regular expression class [\w] are the Unicode ones, by the tables of
      CPython 3.11, capital sigma and dotted capital I included.
    - A missing cell of a column of strings is one value, as [numpy.nan] is
      one object: [set] and [isin] treat it like any other name.
    - The template frames ([survey_df], [choices_df], ...) live in modules
      outside this file of the program; they are objects of the store and
      every statement quantifies over their contents.
    - [uuid4()] and [datetime.now()] are read from an environment record. *)

From Stdlib Require Import ZArith Ascii.
From stdpp Require Import base option list gmap strings fin_maps.

Local Open Scope Z_scope.
Local Open Scope nat_scope.

(** ** Python strings *)

Module PyStr.

(** A [str] is held as the bytes of its UTF-8 encoding: comparison,
    [startswith], concatenation and slicing at an ASCII character are then
    those of the bytes.  [str.lower] and the class [\w] work on the code
    points, with the tables of CPython 3.11 (Unicode 14.0.0). *)

Definition byte (a : ascii) : Z := Z.of_nat (nat_of_ascii a).
Definition chr (b : Z) : ascii := ascii_of_nat (Z.to_nat b).

(** The code points of a string.  [need] continuation bytes are still to
    come for the code point that [acc] holds the upper bits of.  A byte that
    starts no sequence stands for itself, above the code points. *)
Fixpoint decode_from (need : nat) (acc : Z) (s : string) : list Z :=
  match s with
  | EmptyString => []
  | String a s' =>
      let b := byte a in
      match need with
      | O =>
          if (b <? 128)%Z then b :: decode_from 0 0 s'
          else if (b <? 192)%Z then (1114112 + b)%Z :: decode_from 0 0 s'
          else if (b <? 224)%Z then decode_from 1 (b - 192) s'
          else if (b <? 240)%Z then decode_from 2 (b - 224) s'
          else if (b <? 248)%Z then decode_from 3 (b - 240) s'
          else (1114112 + b)%Z :: decode_from 0 0 s'
      | S need' =>
          let acc := (acc * 64 + b mod 64)%Z in
          match need' with
          | O => acc :: decode_from 0 0 s'
          | S _ => decode_from need' acc s'
          end
      end
  end.

Definition decode (s : string) : list Z := decode_from 0 0 s.

Definition encode_point (c : Z) : string :=
  if (c <? 128)%Z then String (chr c) ""
  else if (c <? 2048)%Z then
    String (chr (192 + c / 64)) (String (chr (128 + c mod 64)) "")
  else if (c <? 65536)%Z then
    String (chr (224 + c / 4096))
      (String (chr (128 + c / 64 mod 64)) (String (chr (128 + c mod 64)) ""))
  else if (c <? 1114112)%Z then
    String (chr (240 + c / 262144))
      (String (chr (128 + c / 4096 mod 64))
         (String (chr (128 + c / 64 mod 64)) (String (chr (128 + c mod 64)) "")))
  else String (chr (c - 1114112)) "".

Fixpoint encode (l : list Z) : string :=
  match l with
  | [] => ""
  | c :: l' => encode_point c +:+ encode l'
  end.

Fixpoint in_ranges (t : list (Z * Z)) (c : Z) : bool :=
  match t with
  | [] => false
  | (first, last) :: t' =>
      if (c <? first)%Z then false
      else if (c <=? last)%Z then true
      else in_ranges t' c
  end.

(** The code points [\w] matches in a [str] pattern: the alphanumeric ones and the underscore (Unicode 14.0.0), as ranges in increasing order. *)
Definition word_ranges : list (Z * Z) :=
  [(48, 57); (65, 90); (95, 95); (97, 122); (170, 170); (178, 179); (181, 181); (185, 186);
   (188, 190); (192, 214); (216, 246); (248, 705); (710, 721); (736, 740); (748, 748);
   (750, 750); (880, 884); (886, 887); (890, 893); (895, 895); (902, 902); (904, 906);
   (908, 908); (910, 929); (931, 1013); (1015, 1153); (1162, 1327); (1329, 1366); (1369, 1369);
   (1376, 1416); (1488, 1514); (1519, 1522); (1568, 1610); (1632, 1641); (1646, 1647);
   (1649, 1747); (1749, 1749); (1765, 1766); (1774, 1788); (1791, 1791); (1808, 1808);
   (1810, 1839); (1869, 1957); (1969, 1969); (1984, 2026); (2036, 2037); (2042, 2042);
   (2048, 2069); (2074, 2074); (2084, 2084); (2088, 2088); (2112, 2136); (2144, 2154);
   (2160, 2183); (2185, 2190); (2208, 2249); (2308, 2361); (2365, 2365); (2384, 2384);
   (2392, 2401); (2406, 2415); (2417, 2432); (2437, 2444); (2447, 2448); (2451, 2472);
   (2474, 2480); (2482, 2482); (2486, 2489); (2493, 2493); (2510, 2510); (2524, 2525);
   (2527, 2529); (2534, 2545); (2548, 2553); (2556, 2556); (2565, 2570); (2575, 2576);
   (2579, 2600); (2602, 2608); (2610, 2611); (2613, 2614); (2616, 2617); (2649, 2652);
   (2654, 2654); (2662, 2671); (2674, 2676); (2693, 2701); (2703, 2705); (2707, 2728);
   (2730, 2736); (2738, 2739); (2741, 2745); (2749, 2749); (2768, 2768); (2784, 2785);
   (2790, 2799); (2809, 2809); (2821, 2828); (2831, 2832); (2835, 2856); (2858, 2864);
   (2866, 2867); (2869, 2873); (2877, 2877); (2908, 2909); (2911, 2913); (2918, 2927);
   (2929, 2935); (2947, 2947); (2949, 2954); (2958, 2960); (2962, 2965); (2969, 2970);
   (2972, 2972); (2974, 2975); (2979, 2980); (2984, 2986); (2990, 3001); (3024, 3024);
   (3046, 3058); (3077, 3084); (3086, 3088); (3090, 3112); (3114, 3129); (3133, 3133);
   (3160, 3162); (3165, 3165); (3168, 3169); (3174, 3183); (3192, 3198); (3200, 3200);
   (3205, 3212); (3214, 3216); (3218, 3240); (3242, 3251); (3253, 3257); (3261, 3261);
   (3293, 3294); (3296, 3297); (3302, 3311); (3313, 3314); (3332, 3340); (3342, 3344);
   (3346, 3386); (3389, 3389); (3406, 3406); (3412, 3414); (3416, 3425); (3430, 3448);
   (3450, 3455); (3461, 3478); (3482, 3505); (3507, 3515); (3517, 3517); (3520, 3526);
   (3558, 3567); (3585, 3632); (3634, 3635); (3648, 3654); (3664, 3673); (3713, 3714);
   (3716, 3716); (3718, 3722); (3724, 3747); (3749, 3749); (3751, 3760); (3762, 3763);
   (3773, 3773); (3776, 3780); (3782, 3782); (3792, 3801); (3804, 3807); (3840, 3840);
   (3872, 3891); (3904, 3911); (3913, 3948); (3976, 3980); (4096, 4138); (4159, 4169);
   (4176, 4181); (4186, 4189); (4193, 4193); (4197, 4198); (4206, 4208); (4213, 4225);
   (4238, 4238); (4240, 4249); (4256, 4293); (4295, 4295); (4301, 4301); (4304, 4346);
   (4348, 4680); (4682, 4685); (4688, 4694); (4696, 4696); (4698, 4701); (4704, 4744);
   (4746, 4749); (4752, 4784); (4786, 4789); (4792, 4798); (4800, 4800); (4802, 4805);
   (4808, 4822); (4824, 4880); (4882, 4885); (4888, 4954); (4969, 4988); (4992, 5007);
   (5024, 5109); (5112, 5117); (5121, 5740); (5743, 5759); (5761, 5786); (5792, 5866);
   (5870, 5880); (5888, 5905); (5919, 5937); (5952, 5969); (5984, 5996); (5998, 6000);
   (6016, 6067); (6103, 6103); (6108, 6108); (6112, 6121); (6128, 6137); (6160, 6169);
   (6176, 6264); (6272, 6276); (6279, 6312); (6314, 6314); (6320, 6389); (6400, 6430);
   (6470, 6509); (6512, 6516); (6528, 6571); (6576, 6601); (6608, 6618); (6656, 6678);
   (6688, 6740); (6784, 6793); (6800, 6809); (6823, 6823); (6917, 6963); (6981, 6988);
   (6992, 7001); (7043, 7072); (7086, 7141); (7168, 7203); (7232, 7241); (7245, 7293);
   (7296, 7304); (7312, 7354); (7357, 7359); (7401, 7404); (7406, 7411); (7413, 7414);
   (7418, 7418); (7424, 7615); (7680, 7957); (7960, 7965); (7968, 8005); (8008, 8013);
   (8016, 8023); (8025, 8025); (8027, 8027); (8029, 8029); (8031, 8061); (8064, 8116);
   (8118, 8124); (8126, 8126); (8130, 8132); (8134, 8140); (8144, 8147); (8150, 8155);
   (8160, 8172); (8178, 8180); (8182, 8188); (8304, 8305); (8308, 8313); (8319, 8329);
   (8336, 8348); (8450, 8450); (8455, 8455); (8458, 8467); (8469, 8469); (8473, 8477);
   (8484, 8484); (8486, 8486); (8488, 8488); (8490, 8493); (8495, 8505); (8508, 8511);
   (8517, 8521); (8526, 8526); (8528, 8585); (9312, 9371); (9450, 9471); (10102, 10131);
   (11264, 11492); (11499, 11502); (11506, 11507); (11517, 11517); (11520, 11557);
   (11559, 11559); (11565, 11565); (11568, 11623); (11631, 11631); (11648, 11670);
   (11680, 11686); (11688, 11694); (11696, 11702); (11704, 11710); (11712, 11718);
   (11720, 11726); (11728, 11734); (11736, 11742); (11823, 11823); (12293, 12295);
   (12321, 12329); (12337, 12341); (12344, 12348); (12353, 12438); (12445, 12447);
   (12449, 12538); (12540, 12543); (12549, 12591); (12593, 12686); (12690, 12693);
   (12704, 12735); (12784, 12799); (12832, 12841); (12872, 12879); (12881, 12895);
   (12928, 12937); (12977, 12991); (13312, 19903); (19968, 42124); (42192, 42237);
   (42240, 42508); (42512, 42539); (42560, 42606); (42623, 42653); (42656, 42735);
   (42775, 42783); (42786, 42888); (42891, 42954); (42960, 42961); (42963, 42963);
   (42965, 42969); (42994, 43009); (43011, 43013); (43015, 43018); (43020, 43042);
   (43056, 43061); (43072, 43123); (43138, 43187); (43216, 43225); (43250, 43255);
   (43259, 43259); (43261, 43262); (43264, 43301); (43312, 43334); (43360, 43388);
   (43396, 43442); (43471, 43481); (43488, 43492); (43494, 43518); (43520, 43560);
   (43584, 43586); (43588, 43595); (43600, 43609); (43616, 43638); (43642, 43642);
   (43646, 43695); (43697, 43697); (43701, 43702); (43705, 43709); (43712, 43712);
   (43714, 43714); (43739, 43741); (43744, 43754); (43762, 43764); (43777, 43782);
   (43785, 43790); (43793, 43798); (43808, 43814); (43816, 43822); (43824, 43866);
   (43868, 43881); (43888, 44002); (44016, 44025); (44032, 55203); (55216, 55238);
   (55243, 55291); (63744, 64109); (64112, 64217); (64256, 64262); (64275, 64279);
   (64285, 64285); (64287, 64296); (64298, 64310); (64312, 64316); (64318, 64318);
   (64320, 64321); (64323, 64324); (64326, 64433); (64467, 64829); (64848, 64911);
   (64914, 64967); (65008, 65019); (65136, 65140); (65142, 65276); (65296, 65305);
   (65313, 65338); (65345, 65370); (65382, 65470); (65474, 65479); (65482, 65487);
   (65490, 65495); (65498, 65500); (65536, 65547); (65549, 65574); (65576, 65594);
   (65596, 65597); (65599, 65613); (65616, 65629); (65664, 65786); (65799, 65843);
   (65856, 65912); (65930, 65931); (66176, 66204); (66208, 66256); (66273, 66299);
   (66304, 66339); (66349, 66378); (66384, 66421); (66432, 66461); (66464, 66499);
   (66504, 66511); (66513, 66517); (66560, 66717); (66720, 66729); (66736, 66771);
   (66776, 66811); (66816, 66855); (66864, 66915); (66928, 66938); (66940, 66954);
   (66956, 66962); (66964, 66965); (66967, 66977); (66979, 66993); (66995, 67001);
   (67003, 67004); (67072, 67382); (67392, 67413); (67424, 67431); (67456, 67461);
   (67463, 67504); (67506, 67514); (67584, 67589); (67592, 67592); (67594, 67637);
   (67639, 67640); (67644, 67644); (67647, 67669); (67672, 67702); (67705, 67742);
   (67751, 67759); (67808, 67826); (67828, 67829); (67835, 67867); (67872, 67897);
   (67968, 68023); (68028, 68047); (68050, 68096); (68112, 68115); (68117, 68119);
   (68121, 68149); (68160, 68168); (68192, 68222); (68224, 68255); (68288, 68295);
   (68297, 68324); (68331, 68335); (68352, 68405); (68416, 68437); (68440, 68466);
   (68472, 68497); (68521, 68527); (68608, 68680); (68736, 68786); (68800, 68850);
   (68858, 68899); (68912, 68921); (69216, 69246); (69248, 69289); (69296, 69297);
   (69376, 69415); (69424, 69445); (69457, 69460); (69488, 69505); (69552, 69579);
   (69600, 69622); (69635, 69687); (69714, 69743); (69745, 69746); (69749, 69749);
   (69763, 69807); (69840, 69864); (69872, 69881); (69891, 69926); (69942, 69951);
   (69956, 69956); (69959, 69959); (69968, 70002); (70006, 70006); (70019, 70066);
   (70081, 70084); (70096, 70106); (70108, 70108); (70113, 70132); (70144, 70161);
   (70163, 70187); (70272, 70278); (70280, 70280); (70282, 70285); (70287, 70301);
   (70303, 70312); (70320, 70366); (70384, 70393); (70405, 70412); (70415, 70416);
   (70419, 70440); (70442, 70448); (70450, 70451); (70453, 70457); (70461, 70461);
   (70480, 70480); (70493, 70497); (70656, 70708); (70727, 70730); (70736, 70745);
   (70751, 70753); (70784, 70831); (70852, 70853); (70855, 70855); (70864, 70873);
   (71040, 71086); (71128, 71131); (71168, 71215); (71236, 71236); (71248, 71257);
   (71296, 71338); (71352, 71352); (71360, 71369); (71424, 71450); (71472, 71483);
   (71488, 71494); (71680, 71723); (71840, 71922); (71935, 71942); (71945, 71945);
   (71948, 71955); (71957, 71958); (71960, 71983); (71999, 71999); (72001, 72001);
   (72016, 72025); (72096, 72103); (72106, 72144); (72161, 72161); (72163, 72163);
   (72192, 72192); (72203, 72242); (72250, 72250); (72272, 72272); (72284, 72329);
   (72349, 72349); (72368, 72440); (72704, 72712); (72714, 72750); (72768, 72768);
   (72784, 72812); (72818, 72847); (72960, 72966); (72968, 72969); (72971, 73008);
   (73030, 73030); (73040, 73049); (73056, 73061); (73063, 73064); (73066, 73097);
   (73112, 73112); (73120, 73129); (73440, 73458); (73648, 73648); (73664, 73684);
   (73728, 74649); (74752, 74862); (74880, 75075); (77712, 77808); (77824, 78894);
   (82944, 83526); (92160, 92728); (92736, 92766); (92768, 92777); (92784, 92862);
   (92864, 92873); (92880, 92909); (92928, 92975); (92992, 92995); (93008, 93017);
   (93019, 93025); (93027, 93047); (93053, 93071); (93760, 93846); (93952, 94026);
   (94032, 94032); (94099, 94111); (94176, 94177); (94179, 94179); (94208, 100343);
   (100352, 101589); (101632, 101640); (110576, 110579); (110581, 110587); (110589, 110590);
   (110592, 110882); (110928, 110930); (110948, 110951); (110960, 111355); (113664, 113770);
   (113776, 113788); (113792, 113800); (113808, 113817); (119520, 119539); (119648, 119672);
   (119808, 119892); (119894, 119964); (119966, 119967); (119970, 119970); (119973, 119974);
   (119977, 119980); (119982, 119993); (119995, 119995); (119997, 120003); (120005, 120069);
   (120071, 120074); (120077, 120084); (120086, 120092); (120094, 120121); (120123, 120126);
   (120128, 120132); (120134, 120134); (120138, 120144); (120146, 120485); (120488, 120512);
   (120514, 120538); (120540, 120570); (120572, 120596); (120598, 120628); (120630, 120654);
   (120656, 120686); (120688, 120712); (120714, 120744); (120746, 120770); (120772, 120779);
   (120782, 120831); (122624, 122654); (123136, 123180); (123191, 123197); (123200, 123209);
   (123214, 123214); (123536, 123565); (123584, 123627); (123632, 123641); (124896, 124902);
   (124904, 124907); (124909, 124910); (124912, 124926); (124928, 125124); (125127, 125135);
   (125184, 125251); (125259, 125259); (125264, 125273); (126065, 126123); (126125, 126127);
   (126129, 126132); (126209, 126253); (126255, 126269); (126464, 126467); (126469, 126495);
   (126497, 126498); (126500, 126500); (126503, 126503); (126505, 126514); (126516, 126519);
   (126521, 126521); (126523, 126523); (126530, 126530); (126535, 126535); (126537, 126537);
   (126539, 126539); (126541, 126543); (126545, 126546); (126548, 126548); (126551, 126551);
   (126553, 126553); (126555, 126555); (126557, 126557); (126559, 126559); (126561, 126562);
   (126564, 126564); (126567, 126570); (126572, 126578); (126580, 126583); (126585, 126588);
   (126590, 126590); (126592, 126601); (126603, 126619); (126625, 126627); (126629, 126633);
   (126635, 126651); (127232, 127244); (130032, 130041); (131072, 173791); (173824, 177976);
   (177984, 178205); (178208, 183969); (183984, 191456); (194560, 195101); (196608, 201546)]%Z.

(** The code points [str.lower] changes into one other code point, as runs [(first, last, offset)] in increasing order. *)
Definition lower_runs : list (Z * Z * Z) :=
  [(65, 90, 32); (192, 214, 32); (216, 222, 32); (256, 256, 1); (258, 258, 1); (260, 260, 1);
   (262, 262, 1); (264, 264, 1); (266, 266, 1); (268, 268, 1); (270, 270, 1); (272, 272, 1);
   (274, 274, 1); (276, 276, 1); (278, 278, 1); (280, 280, 1); (282, 282, 1); (284, 284, 1);
   (286, 286, 1); (288, 288, 1); (290, 290, 1); (292, 292, 1); (294, 294, 1); (296, 296, 1);
   (298, 298, 1); (300, 300, 1); (302, 302, 1); (306, 306, 1); (308, 308, 1); (310, 310, 1);
   (313, 313, 1); (315, 315, 1); (317, 317, 1); (319, 319, 1); (321, 321, 1); (323, 323, 1);
   (325, 325, 1); (327, 327, 1); (330, 330, 1); (332, 332, 1); (334, 334, 1); (336, 336, 1);
   (338, 338, 1); (340, 340, 1); (342, 342, 1); (344, 344, 1); (346, 346, 1); (348, 348, 1);
   (350, 350, 1); (352, 352, 1); (354, 354, 1); (356, 356, 1); (358, 358, 1); (360, 360, 1);
   (362, 362, 1); (364, 364, 1); (366, 366, 1); (368, 368, 1); (370, 370, 1); (372, 372, 1);
   (374, 374, 1); (376, 376, -121); (377, 377, 1); (379, 379, 1); (381, 381, 1);
   (385, 385, 210); (386, 386, 1); (388, 388, 1); (390, 390, 206); (391, 391, 1);
   (393, 394, 205); (395, 395, 1); (398, 398, 79); (399, 399, 202); (400, 400, 203);
   (401, 401, 1); (403, 403, 205); (404, 404, 207); (406, 406, 211); (407, 407, 209);
   (408, 408, 1); (412, 412, 211); (413, 413, 213); (415, 415, 214); (416, 416, 1);
   (418, 418, 1); (420, 420, 1); (422, 422, 218); (423, 423, 1); (425, 425, 218);
   (428, 428, 1); (430, 430, 218); (431, 431, 1); (433, 434, 217); (435, 435, 1);
   (437, 437, 1); (439, 439, 219); (440, 440, 1); (444, 444, 1); (452, 452, 2); (453, 453, 1);
   (455, 455, 2); (456, 456, 1); (458, 458, 2); (459, 459, 1); (461, 461, 1); (463, 463, 1);
   (465, 465, 1); (467, 467, 1); (469, 469, 1); (471, 471, 1); (473, 473, 1); (475, 475, 1);
   (478, 478, 1); (480, 480, 1); (482, 482, 1); (484, 484, 1); (486, 486, 1); (488, 488, 1);
   (490, 490, 1); (492, 492, 1); (494, 494, 1); (497, 497, 2); (498, 498, 1); (500, 500, 1);
   (502, 502, -97); (503, 503, -56); (504, 504, 1); (506, 506, 1); (508, 508, 1);
   (510, 510, 1); (512, 512, 1); (514, 514, 1); (516, 516, 1); (518, 518, 1); (520, 520, 1);
   (522, 522, 1); (524, 524, 1); (526, 526, 1); (528, 528, 1); (530, 530, 1); (532, 532, 1);
   (534, 534, 1); (536, 536, 1); (538, 538, 1); (540, 540, 1); (542, 542, 1); (544, 544, -130);
   (546, 546, 1); (548, 548, 1); (550, 550, 1); (552, 552, 1); (554, 554, 1); (556, 556, 1);
   (558, 558, 1); (560, 560, 1); (562, 562, 1); (570, 570, 10795); (571, 571, 1);
   (573, 573, -163); (574, 574, 10792); (577, 577, 1); (579, 579, -195); (580, 580, 69);
   (581, 581, 71); (582, 582, 1); (584, 584, 1); (586, 586, 1); (588, 588, 1); (590, 590, 1);
   (880, 880, 1); (882, 882, 1); (886, 886, 1); (895, 895, 116); (902, 902, 38);
   (904, 906, 37); (908, 908, 64); (910, 911, 63); (913, 929, 32); (931, 939, 32);
   (975, 975, 8); (984, 984, 1); (986, 986, 1); (988, 988, 1); (990, 990, 1); (992, 992, 1);
   (994, 994, 1); (996, 996, 1); (998, 998, 1); (1000, 1000, 1); (1002, 1002, 1);
   (1004, 1004, 1); (1006, 1006, 1); (1012, 1012, -60); (1015, 1015, 1); (1017, 1017, -7);
   (1018, 1018, 1); (1021, 1023, -130); (1024, 1039, 80); (1040, 1071, 32); (1120, 1120, 1);
   (1122, 1122, 1); (1124, 1124, 1); (1126, 1126, 1); (1128, 1128, 1); (1130, 1130, 1);
   (1132, 1132, 1); (1134, 1134, 1); (1136, 1136, 1); (1138, 1138, 1); (1140, 1140, 1);
   (1142, 1142, 1); (1144, 1144, 1); (1146, 1146, 1); (1148, 1148, 1); (1150, 1150, 1);
   (1152, 1152, 1); (1162, 1162, 1); (1164, 1164, 1); (1166, 1166, 1); (1168, 1168, 1);
   (1170, 1170, 1); (1172, 1172, 1); (1174, 1174, 1); (1176, 1176, 1); (1178, 1178, 1);
   (1180, 1180, 1); (1182, 1182, 1); (1184, 1184, 1); (1186, 1186, 1); (1188, 1188, 1);
   (1190, 1190, 1); (1192, 1192, 1); (1194, 1194, 1); (1196, 1196, 1); (1198, 1198, 1);
   (1200, 1200, 1); (1202, 1202, 1); (1204, 1204, 1); (1206, 1206, 1); (1208, 1208, 1);
   (1210, 1210, 1); (1212, 1212, 1); (1214, 1214, 1); (1216, 1216, 15); (1217, 1217, 1);
   (1219, 1219, 1); (1221, 1221, 1); (1223, 1223, 1); (1225, 1225, 1); (1227, 1227, 1);
   (1229, 1229, 1); (1232, 1232, 1); (1234, 1234, 1); (1236, 1236, 1); (1238, 1238, 1);
   (1240, 1240, 1); (1242, 1242, 1); (1244, 1244, 1); (1246, 1246, 1); (1248, 1248, 1);
   (1250, 1250, 1); (1252, 1252, 1); (1254, 1254, 1); (1256, 1256, 1); (1258, 1258, 1);
   (1260, 1260, 1); (1262, 1262, 1); (1264, 1264, 1); (1266, 1266, 1); (1268, 1268, 1);
   (1270, 1270, 1); (1272, 1272, 1); (1274, 1274, 1); (1276, 1276, 1); (1278, 1278, 1);
   (1280, 1280, 1); (1282, 1282, 1); (1284, 1284, 1); (1286, 1286, 1); (1288, 1288, 1);
   (1290, 1290, 1); (1292, 1292, 1); (1294, 1294, 1); (1296, 1296, 1); (1298, 1298, 1);
   (1300, 1300, 1); (1302, 1302, 1); (1304, 1304, 1); (1306, 1306, 1); (1308, 1308, 1);
   (1310, 1310, 1); (1312, 1312, 1); (1314, 1314, 1); (1316, 1316, 1); (1318, 1318, 1);
   (1320, 1320, 1); (1322, 1322, 1); (1324, 1324, 1); (1326, 1326, 1); (1329, 1366, 48);
   (4256, 4293, 7264); (4295, 4295, 7264); (4301, 4301, 7264); (5024, 5103, 38864);
   (5104, 5109, 8); (7312, 7354, -3008); (7357, 7359, -3008); (7680, 7680, 1); (7682, 7682, 1);
   (7684, 7684, 1); (7686, 7686, 1); (7688, 7688, 1); (7690, 7690, 1); (7692, 7692, 1);
   (7694, 7694, 1); (7696, 7696, 1); (7698, 7698, 1); (7700, 7700, 1); (7702, 7702, 1);
   (7704, 7704, 1); (7706, 7706, 1); (7708, 7708, 1); (7710, 7710, 1); (7712, 7712, 1);
   (7714, 7714, 1); (7716, 7716, 1); (7718, 7718, 1); (7720, 7720, 1); (7722, 7722, 1);
   (7724, 7724, 1); (7726, 7726, 1); (7728, 7728, 1); (7730, 7730, 1); (7732, 7732, 1);
   (7734, 7734, 1); (7736, 7736, 1); (7738, 7738, 1); (7740, 7740, 1); (7742, 7742, 1);
   (7744, 7744, 1); (7746, 7746, 1); (7748, 7748, 1); (7750, 7750, 1); (7752, 7752, 1);
   (7754, 7754, 1); (7756, 7756, 1); (7758, 7758, 1); (7760, 7760, 1); (7762, 7762, 1);
   (7764, 7764, 1); (7766, 7766, 1); (7768, 7768, 1); (7770, 7770, 1); (7772, 7772, 1);
   (7774, 7774, 1); (7776, 7776, 1); (7778, 7778, 1); (7780, 7780, 1); (7782, 7782, 1);
   (7784, 7784, 1); (7786, 7786, 1); (7788, 7788, 1); (7790, 7790, 1); (7792, 7792, 1);
   (7794, 7794, 1); (7796, 7796, 1); (7798, 7798, 1); (7800, 7800, 1); (7802, 7802, 1);
   (7804, 7804, 1); (7806, 7806, 1); (7808, 7808, 1); (7810, 7810, 1); (7812, 7812, 1);
   (7814, 7814, 1); (7816, 7816, 1); (7818, 7818, 1); (7820, 7820, 1); (7822, 7822, 1);
   (7824, 7824, 1); (7826, 7826, 1); (7828, 7828, 1); (7838, 7838, -7615); (7840, 7840, 1);
   (7842, 7842, 1); (7844, 7844, 1); (7846, 7846, 1); (7848, 7848, 1); (7850, 7850, 1);
   (7852, 7852, 1); (7854, 7854, 1); (7856, 7856, 1); (7858, 7858, 1); (7860, 7860, 1);
   (7862, 7862, 1); (7864, 7864, 1); (7866, 7866, 1); (7868, 7868, 1); (7870, 7870, 1);
   (7872, 7872, 1); (7874, 7874, 1); (7876, 7876, 1); (7878, 7878, 1); (7880, 7880, 1);
   (7882, 7882, 1); (7884, 7884, 1); (7886, 7886, 1); (7888, 7888, 1); (7890, 7890, 1);
   (7892, 7892, 1); (7894, 7894, 1); (7896, 7896, 1); (7898, 7898, 1); (7900, 7900, 1);
   (7902, 7902, 1); (7904, 7904, 1); (7906, 7906, 1); (7908, 7908, 1); (7910, 7910, 1);
   (7912, 7912, 1); (7914, 7914, 1); (7916, 7916, 1); (7918, 7918, 1); (7920, 7920, 1);
   (7922, 7922, 1); (7924, 7924, 1); (7926, 7926, 1); (7928, 7928, 1); (7930, 7930, 1);
   (7932, 7932, 1); (7934, 7934, 1); (7944, 7951, -8); (7960, 7965, -8); (7976, 7983, -8);
   (7992, 7999, -8); (8008, 8013, -8); (8025, 8025, -8); (8027, 8027, -8); (8029, 8029, -8);
   (8031, 8031, -8); (8040, 8047, -8); (8072, 8079, -8); (8088, 8095, -8); (8104, 8111, -8);
   (8120, 8121, -8); (8122, 8123, -74); (8124, 8124, -9); (8136, 8139, -86); (8140, 8140, -9);
   (8152, 8153, -8); (8154, 8155, -100); (8168, 8169, -8); (8170, 8171, -112);
   (8172, 8172, -7); (8184, 8185, -128); (8186, 8187, -126); (8188, 8188, -9);
   (8486, 8486, -7517); (8490, 8490, -8383); (8491, 8491, -8262); (8498, 8498, 28);
   (8544, 8559, 16); (8579, 8579, 1); (9398, 9423, 26); (11264, 11311, 48); (11360, 11360, 1);
   (11362, 11362, -10743); (11363, 11363, -3814); (11364, 11364, -10727); (11367, 11367, 1);
   (11369, 11369, 1); (11371, 11371, 1); (11373, 11373, -10780); (11374, 11374, -10749);
   (11375, 11375, -10783); (11376, 11376, -10782); (11378, 11378, 1); (11381, 11381, 1);
   (11390, 11391, -10815); (11392, 11392, 1); (11394, 11394, 1); (11396, 11396, 1);
   (11398, 11398, 1); (11400, 11400, 1); (11402, 11402, 1); (11404, 11404, 1);
   (11406, 11406, 1); (11408, 11408, 1); (11410, 11410, 1); (11412, 11412, 1);
   (11414, 11414, 1); (11416, 11416, 1); (11418, 11418, 1); (11420, 11420, 1);
   (11422, 11422, 1); (11424, 11424, 1); (11426, 11426, 1); (11428, 11428, 1);
   (11430, 11430, 1); (11432, 11432, 1); (11434, 11434, 1); (11436, 11436, 1);
   (11438, 11438, 1); (11440, 11440, 1); (11442, 11442, 1); (11444, 11444, 1);
   (11446, 11446, 1); (11448, 11448, 1); (11450, 11450, 1); (11452, 11452, 1);
   (11454, 11454, 1); (11456, 11456, 1); (11458, 11458, 1); (11460, 11460, 1);
   (11462, 11462, 1); (11464, 11464, 1); (11466, 11466, 1); (11468, 11468, 1);
   (11470, 11470, 1); (11472, 11472, 1); (11474, 11474, 1); (11476, 11476, 1);
   (11478, 11478, 1); (11480, 11480, 1); (11482, 11482, 1); (11484, 11484, 1);
   (11486, 11486, 1); (11488, 11488, 1); (11490, 11490, 1); (11499, 11499, 1);
   (11501, 11501, 1); (11506, 11506, 1); (42560, 42560, 1); (42562, 42562, 1);
   (42564, 42564, 1); (42566, 42566, 1); (42568, 42568, 1); (42570, 42570, 1);
   (42572, 42572, 1); (42574, 42574, 1); (42576, 42576, 1); (42578, 42578, 1);
   (42580, 42580, 1); (42582, 42582, 1); (42584, 42584, 1); (42586, 42586, 1);
   (42588, 42588, 1); (42590, 42590, 1); (42592, 42592, 1); (42594, 42594, 1);
   (42596, 42596, 1); (42598, 42598, 1); (42600, 42600, 1); (42602, 42602, 1);
   (42604, 42604, 1); (42624, 42624, 1); (42626, 42626, 1); (42628, 42628, 1);
   (42630, 42630, 1); (42632, 42632, 1); (42634, 42634, 1); (42636, 42636, 1);
   (42638, 42638, 1); (42640, 42640, 1); (42642, 42642, 1); (42644, 42644, 1);
   (42646, 42646, 1); (42648, 42648, 1); (42650, 42650, 1); (42786, 42786, 1);
   (42788, 42788, 1); (42790, 42790, 1); (42792, 42792, 1); (42794, 42794, 1);
   (42796, 42796, 1); (42798, 42798, 1); (42802, 42802, 1); (42804, 42804, 1);
   (42806, 42806, 1); (42808, 42808, 1); (42810, 42810, 1); (42812, 42812, 1);
   (42814, 42814, 1); (42816, 42816, 1); (42818, 42818, 1); (42820, 42820, 1);
   (42822, 42822, 1); (42824, 42824, 1); (42826, 42826, 1); (42828, 42828, 1);
   (42830, 42830, 1); (42832, 42832, 1); (42834, 42834, 1); (42836, 42836, 1);
   (42838, 42838, 1); (42840, 42840, 1); (42842, 42842, 1); (42844, 42844, 1);
   (42846, 42846, 1); (42848, 42848, 1); (42850, 42850, 1); (42852, 42852, 1);
   (42854, 42854, 1); (42856, 42856, 1); (42858, 42858, 1); (42860, 42860, 1);
   (42862, 42862, 1); (42873, 42873, 1); (42875, 42875, 1); (42877, 42877, -35332);
   (42878, 42878, 1); (42880, 42880, 1); (42882, 42882, 1); (42884, 42884, 1);
   (42886, 42886, 1); (42891, 42891, 1); (42893, 42893, -42280); (42896, 42896, 1);
   (42898, 42898, 1); (42902, 42902, 1); (42904, 42904, 1); (42906, 42906, 1);
   (42908, 42908, 1); (42910, 42910, 1); (42912, 42912, 1); (42914, 42914, 1);
   (42916, 42916, 1); (42918, 42918, 1); (42920, 42920, 1); (42922, 42922, -42308);
   (42923, 42923, -42319); (42924, 42924, -42315); (42925, 42925, -42305);
   (42926, 42926, -42308); (42928, 42928, -42258); (42929, 42929, -42282);
   (42930, 42930, -42261); (42931, 42931, 928); (42932, 42932, 1); (42934, 42934, 1);
   (42936, 42936, 1); (42938, 42938, 1); (42940, 42940, 1); (42942, 42942, 1);
   (42944, 42944, 1); (42946, 42946, 1); (42948, 42948, -48); (42949, 42949, -42307);
   (42950, 42950, -35384); (42951, 42951, 1); (42953, 42953, 1); (42960, 42960, 1);
   (42966, 42966, 1); (42968, 42968, 1); (42997, 42997, 1); (65313, 65338, 32);
   (66560, 66599, 40); (66736, 66771, 40); (66928, 66938, 39); (66940, 66954, 39);
   (66956, 66962, 39); (66964, 66965, 39); (68736, 68786, 64); (71840, 71871, 32);
   (93760, 93791, 32); (125184, 125217, 34)]%Z.

(** The cased code points that are not case-ignorable. *)
Definition cased_ranges : list (Z * Z) :=
  [(65, 90); (97, 122); (170, 170); (181, 181); (186, 186); (192, 214); (216, 246); (248, 442);
   (444, 447); (452, 659); (661, 687); (880, 883); (886, 887); (891, 893); (895, 895);
   (902, 902); (904, 906); (908, 908); (910, 929); (931, 1013); (1015, 1153); (1162, 1327);
   (1329, 1366); (1376, 1416); (4256, 4293); (4295, 4295); (4301, 4301); (4304, 4346);
   (4349, 4351); (5024, 5109); (5112, 5117); (7296, 7304); (7312, 7354); (7357, 7359);
   (7424, 7467); (7531, 7543); (7545, 7578); (7680, 7957); (7960, 7965); (7968, 8005);
   (8008, 8013); (8016, 8023); (8025, 8025); (8027, 8027); (8029, 8029); (8031, 8061);
   (8064, 8116); (8118, 8124); (8126, 8126); (8130, 8132); (8134, 8140); (8144, 8147);
   (8150, 8155); (8160, 8172); (8178, 8180); (8182, 8188); (8450, 8450); (8455, 8455);
   (8458, 8467); (8469, 8469); (8473, 8477); (8484, 8484); (8486, 8486); (8488, 8488);
   (8490, 8493); (8495, 8500); (8505, 8505); (8508, 8511); (8517, 8521); (8526, 8526);
   (8544, 8575); (8579, 8580); (9398, 9449); (11264, 11387); (11390, 11492); (11499, 11502);
   (11506, 11507); (11520, 11557); (11559, 11559); (11565, 11565); (42560, 42605);
   (42624, 42651); (42786, 42863); (42865, 42887); (42891, 42894); (42896, 42954);
   (42960, 42961); (42963, 42963); (42965, 42969); (42997, 42998); (43002, 43002);
   (43824, 43866); (43872, 43880); (43888, 43967); (64256, 64262); (64275, 64279);
   (65313, 65338); (65345, 65370); (66560, 66639); (66736, 66771); (66776, 66811);
   (66928, 66938); (66940, 66954); (66956, 66962); (66964, 66965); (66967, 66977);
   (66979, 66993); (66995, 67001); (67003, 67004); (68736, 68786); (68800, 68850);
   (71840, 71903); (93760, 93823); (119808, 119892); (119894, 119964); (119966, 119967);
   (119970, 119970); (119973, 119974); (119977, 119980); (119982, 119993); (119995, 119995);
   (119997, 120003); (120005, 120069); (120071, 120074); (120077, 120084); (120086, 120092);
   (120094, 120121); (120123, 120126); (120128, 120132); (120134, 120134); (120138, 120144);
   (120146, 120485); (120488, 120512); (120514, 120538); (120540, 120570); (120572, 120596);
   (120598, 120628); (120630, 120654); (120656, 120686); (120688, 120712); (120714, 120744);
   (120746, 120770); (120772, 120779); (122624, 122633); (122635, 122654); (125184, 125251);
   (127280, 127305); (127312, 127337); (127344, 127369)]%Z.

(** The case-ignorable code points. *)
Definition case_ignorable_ranges : list (Z * Z) :=
  [(39, 39); (46, 46); (58, 58); (94, 94); (96, 96); (168, 168); (173, 173); (175, 175);
   (180, 180); (183, 184); (688, 879); (884, 885); (890, 890); (900, 901); (903, 903);
   (1155, 1161); (1369, 1369); (1375, 1375); (1425, 1469); (1471, 1471); (1473, 1474);
   (1476, 1477); (1479, 1479); (1524, 1524); (1536, 1541); (1552, 1562); (1564, 1564);
   (1600, 1600); (1611, 1631); (1648, 1648); (1750, 1757); (1759, 1768); (1770, 1773);
   (1807, 1807); (1809, 1809); (1840, 1866); (1958, 1968); (2027, 2037); (2042, 2042);
   (2045, 2045); (2070, 2093); (2137, 2139); (2184, 2184); (2192, 2193); (2200, 2207);
   (2249, 2306); (2362, 2362); (2364, 2364); (2369, 2376); (2381, 2381); (2385, 2391);
   (2402, 2403); (2417, 2417); (2433, 2433); (2492, 2492); (2497, 2500); (2509, 2509);
   (2530, 2531); (2558, 2558); (2561, 2562); (2620, 2620); (2625, 2626); (2631, 2632);
   (2635, 2637); (2641, 2641); (2672, 2673); (2677, 2677); (2689, 2690); (2748, 2748);
   (2753, 2757); (2759, 2760); (2765, 2765); (2786, 2787); (2810, 2815); (2817, 2817);
   (2876, 2876); (2879, 2879); (2881, 2884); (2893, 2893); (2901, 2902); (2914, 2915);
   (2946, 2946); (3008, 3008); (3021, 3021); (3072, 3072); (3076, 3076); (3132, 3132);
   (3134, 3136); (3142, 3144); (3146, 3149); (3157, 3158); (3170, 3171); (3201, 3201);
   (3260, 3260); (3263, 3263); (3270, 3270); (3276, 3277); (3298, 3299); (3328, 3329);
   (3387, 3388); (3393, 3396); (3405, 3405); (3426, 3427); (3457, 3457); (3530, 3530);
   (3538, 3540); (3542, 3542); (3633, 3633); (3636, 3642); (3654, 3662); (3761, 3761);
   (3764, 3772); (3782, 3782); (3784, 3789); (3864, 3865); (3893, 3893); (3895, 3895);
   (3897, 3897); (3953, 3966); (3968, 3972); (3974, 3975); (3981, 3991); (3993, 4028);
   (4038, 4038); (4141, 4144); (4146, 4151); (4153, 4154); (4157, 4158); (4184, 4185);
   (4190, 4192); (4209, 4212); (4226, 4226); (4229, 4230); (4237, 4237); (4253, 4253);
   (4348, 4348); (4957, 4959); (5906, 5908); (5938, 5939); (5970, 5971); (6002, 6003);
   (6068, 6069); (6071, 6077); (6086, 6086); (6089, 6099); (6103, 6103); (6109, 6109);
   (6155, 6159); (6211, 6211); (6277, 6278); (6313, 6313); (6432, 6434); (6439, 6440);
   (6450, 6450); (6457, 6459); (6679, 6680); (6683, 6683); (6742, 6742); (6744, 6750);
   (6752, 6752); (6754, 6754); (6757, 6764); (6771, 6780); (6783, 6783); (6823, 6823);
   (6832, 6862); (6912, 6915); (6964, 6964); (6966, 6970); (6972, 6972); (6978, 6978);
   (7019, 7027); (7040, 7041); (7074, 7077); (7080, 7081); (7083, 7085); (7142, 7142);
   (7144, 7145); (7149, 7149); (7151, 7153); (7212, 7219); (7222, 7223); (7288, 7293);
   (7376, 7378); (7380, 7392); (7394, 7400); (7405, 7405); (7412, 7412); (7416, 7417);
   (7468, 7530); (7544, 7544); (7579, 7679); (8125, 8125); (8127, 8129); (8141, 8143);
   (8157, 8159); (8173, 8175); (8189, 8190); (8203, 8207); (8216, 8217); (8228, 8228);
   (8231, 8231); (8234, 8238); (8288, 8292); (8294, 8303); (8305, 8305); (8319, 8319);
   (8336, 8348); (8400, 8432); (11388, 11389); (11503, 11505); (11631, 11631); (11647, 11647);
   (11744, 11775); (11823, 11823); (12293, 12293); (12330, 12333); (12337, 12341);
   (12347, 12347); (12441, 12446); (12540, 12542); (40981, 40981); (42232, 42237);
   (42508, 42508); (42607, 42610); (42612, 42621); (42623, 42623); (42652, 42655);
   (42736, 42737); (42752, 42785); (42864, 42864); (42888, 42890); (42994, 42996);
   (43000, 43001); (43010, 43010); (43014, 43014); (43019, 43019); (43045, 43046);
   (43052, 43052); (43204, 43205); (43232, 43249); (43263, 43263); (43302, 43309);
   (43335, 43345); (43392, 43394); (43443, 43443); (43446, 43449); (43452, 43453);
   (43471, 43471); (43493, 43494); (43561, 43566); (43569, 43570); (43573, 43574);
   (43587, 43587); (43596, 43596); (43632, 43632); (43644, 43644); (43696, 43696);
   (43698, 43700); (43703, 43704); (43710, 43711); (43713, 43713); (43741, 43741);
   (43756, 43757); (43763, 43764); (43766, 43766); (43867, 43871); (43881, 43883);
   (44005, 44005); (44008, 44008); (44013, 44013); (64286, 64286); (64434, 64450);
   (65024, 65039); (65043, 65043); (65056, 65071); (65106, 65106); (65109, 65109);
   (65279, 65279); (65287, 65287); (65294, 65294); (65306, 65306); (65342, 65342);
   (65344, 65344); (65392, 65392); (65438, 65439); (65507, 65507); (65529, 65531);
   (66045, 66045); (66272, 66272); (66422, 66426); (67456, 67461); (67463, 67504);
   (67506, 67514); (68097, 68099); (68101, 68102); (68108, 68111); (68152, 68154);
   (68159, 68159); (68325, 68326); (68900, 68903); (69291, 69292); (69446, 69456);
   (69506, 69509); (69633, 69633); (69688, 69702); (69744, 69744); (69747, 69748);
   (69759, 69761); (69811, 69814); (69817, 69818); (69821, 69821); (69826, 69826);
   (69837, 69837); (69888, 69890); (69927, 69931); (69933, 69940); (70003, 70003);
   (70016, 70017); (70070, 70078); (70089, 70092); (70095, 70095); (70191, 70193);
   (70196, 70196); (70198, 70199); (70206, 70206); (70367, 70367); (70371, 70378);
   (70400, 70401); (70459, 70460); (70464, 70464); (70502, 70508); (70512, 70516);
   (70712, 70719); (70722, 70724); (70726, 70726); (70750, 70750); (70835, 70840);
   (70842, 70842); (70847, 70848); (70850, 70851); (71090, 71093); (71100, 71101);
   (71103, 71104); (71132, 71133); (71219, 71226); (71229, 71229); (71231, 71232);
   (71339, 71339); (71341, 71341); (71344, 71349); (71351, 71351); (71453, 71455);
   (71458, 71461); (71463, 71467); (71727, 71735); (71737, 71738); (71995, 71996);
   (71998, 71998); (72003, 72003); (72148, 72151); (72154, 72155); (72160, 72160);
   (72193, 72202); (72243, 72248); (72251, 72254); (72263, 72263); (72273, 72278);
   (72281, 72283); (72330, 72342); (72344, 72345); (72752, 72758); (72760, 72765);
   (72767, 72767); (72850, 72871); (72874, 72880); (72882, 72883); (72885, 72886);
   (73009, 73014); (73018, 73018); (73020, 73021); (73023, 73029); (73031, 73031);
   (73104, 73105); (73109, 73109); (73111, 73111); (73459, 73460); (78896, 78904);
   (92912, 92916); (92976, 92982); (92992, 92995); (94031, 94031); (94095, 94111);
   (94176, 94177); (94179, 94180); (110576, 110579); (110581, 110587); (110589, 110590);
   (113821, 113822); (113824, 113827); (118528, 118573); (118576, 118598); (119143, 119145);
   (119155, 119170); (119173, 119179); (119210, 119213); (119362, 119364); (121344, 121398);
   (121403, 121452); (121461, 121461); (121476, 121476); (121499, 121503); (121505, 121519);
   (122880, 122886); (122888, 122904); (122907, 122913); (122915, 122916); (122918, 122922);
   (123184, 123197); (123566, 123566); (123628, 123631); (125136, 125142); (125252, 125259);
   (127995, 127999); (917505, 917505); (917536, 917631); (917760, 917999)]%Z.

(** [\w] on one code point. *)
Definition is_word (c : Z) : bool := in_ranges word_ranges c.

(** [str.lower] on one code point, out of context. *)
Fixpoint lower_in (t : list (Z * Z * Z)) (c : Z) : Z :=
  match t with
  | [] => c
  | (first, last, offset) :: t' =>
      if (c <? first)%Z then c
      else if (c <=? last)%Z then (c + offset)%Z
      else lower_in t' c
  end.

Definition lower_point (c : Z) : Z := lower_in lower_runs c.

(** The first code point of [l] that is not case-ignorable is a cased one. *)
Fixpoint cased_next (l : list Z) : option bool :=
  match l with
  | [] => None
  | c :: l' =>
      if in_ranges case_ignorable_ranges c then cased_next l'
      else Some (in_ranges cased_ranges c)
  end.

(** A capital sigma is a final one after a cased letter and not before
    one; [before] holds the code points in front of it, the nearest first. *)
Definition final_sigma (before after : list Z) : bool :=
  match cased_next before with
  | Some true =>
      match cased_next after with
      | Some true => false
      | _ => true
      end
  | _ => false
  end.

Fixpoint lower_points (before l : list Z) : list Z :=
  match l with
  | [] => []
  | c :: l' =>
      (if (c =? 931)%Z then [if final_sigma before l' then 962%Z else 963%Z]
       else if (c =? 304)%Z then [105%Z; 775%Z]
       else [lower_point c]) ++ lower_points (c :: before) l'
  end.

(** [s.lower()] *)
Definition lower (s : string) : string := encode (lower_points [] (decode s)).

(** [s.startswith(p)] *)
Fixpoint startswith (p s : string) : bool :=
  match p, s with
  | EmptyString, _ => true
  | String a p', String b s' => if decide (a = b) then startswith p' s' else false
  | String _ _, EmptyString => false
  end.

(** [s.endswith("s")] *)
Fixpoint endswith_s (s : string) : bool :=
  match s with
  | EmptyString => false
  | String a EmptyString => bool_decide (a = "s"%char)
  | String _ s' => endswith_s s'
  end.

(** [s[:-1]] of a string that ends in an ASCII character. *)
Fixpoint drop_last (s : string) : string :=
  match s with
  | EmptyString => EmptyString
  | String _ EmptyString => EmptyString
  | String a s' => String a (drop_last s')
  end.

(** [s[n:]] behind [n] ASCII characters. *)
Fixpoint skip (n : nat) (s : string) : string :=
  match n, s with
  | O, _ => s
  | S n', String _ s' => skip n' s'
  | S _, EmptyString => EmptyString
  end.

(** The longest prefix of word characters. *)
Fixpoint word_prefix (l : list Z) : list Z :=
  match l with
  | [] => []
  | c :: l' => if is_word c then c :: word_prefix l' else []
  end.

(** What [\w*] matches at the start of [s]. *)
Definition take_word (s : string) : string := encode (word_prefix (decode s)).

(** [re.match(rf"{base}::(\w+)", col)], returning [group(1)].  None of the
    three bases the program uses holds a character that is special in a
    regular expression. *)
Definition re_match_lang (base col : string) : option string :=
  if startswith (base +:+ "::") col then
    let w := take_word (skip (String.length base + 2) col) in
    if decide (w = "") then None else Some w
  else None.

End PyStr.

(** ** Data frames *)

Inductive cell : Type :=
  | CStr (s : string)
  | CNum (n : Z).

#[global] Instance cell_eq_dec : EqDecision cell.
Proof. solve_decision. Defined.

(** A row: column label to cell; no entry is NaN. *)
Abbreviation row := (gmap string cell).

Record DataFrame : Type := mkDF {
  columns : list string;
  rows : list row;
}.

#[global] Instance DataFrame_eq_dec : EqDecision DataFrame.
Proof. solve_decision. Defined.

(** Python exceptions the program can raise, and the part of the builtin
    hierarchy the claims talk about: [KeyError] is a [LookupError],
    [ValueError] is not. *)
Inductive exn : Type :=
  | ValueError (msg : string)
  | KeyError (key : string).

Definition is_LookupError (e : exn) : bool :=
  match e with
  | KeyError _ => true
  | ValueError _ => false
  end.

Definition is_ValueError (e : exn) : bool :=
  match e with
  | ValueError _ => true
  | KeyError _ => false
  end.

(** Constants of the module. *)
Definition FEATURE_COLUMN : string := "feature".
Definition NAME_COLUMN : string := "name".
Definition TYPE_COLUMN : string := "type".
Definition SURVEY_GROUP_NAME : string := "survey_questions".
Definition DEFAULT_LANGUAGES : gmap string string :=
  list_to_map
    [("english", "en"); ("french", "fr"); ("spanish", "es");
     ("swahili", "sw"); ("nepali", "ne")].

Module Pd.

(** [df.empty]: no rows or no columns. *)
Definition empty (df : DataFrame) : bool :=
  match rows df, columns df with
  | [], _ | _, [] => true
  | _, _ => false
  end.

(** [c in df.columns] *)
Definition has_column (c : string) (df : DataFrame) : bool :=
  bool_decide (c ∈ columns df).

(** [pd.DataFrame({...})] with one row. *)
Definition one_row (kvs : list (string * cell)) : DataFrame :=
  {| columns := kvs.*1; rows := [list_to_map kvs] |}.

(** The union of two column indexes, in order of first appearance. *)
Definition union_columns (a b : list string) : list string :=
  a ++ filter (λ c, c ∉ a) b.

(** [pd.concat(dfs, ignore_index=True)] *)
Definition concat (dfs : list DataFrame) : DataFrame :=
  {| columns := foldl union_columns [] (columns <$> dfs);
     rows := mjoin (rows <$> dfs) |}.

(** [df[mask]] with the mask computed row by row. *)
Definition select (p : row → bool) (df : DataFrame) : DataFrame :=
  {| columns := columns df; rows := List.filter p (rows df) |}.

(** [x.isin(values)] on one cell; NaN is in no list of strings. *)
Definition isin (x : option cell) (values : list cell) : bool :=
  match x with
  | Some v => bool_decide (v ∈ values)
  | None => false
  end.

(** [x.notna()] on one cell. *)
Definition notna (x : option cell) : bool :=
  match x with Some _ => true | None => false end.

(** [df[c]], cell by cell; a missing cell is [None]. *)
Definition column (c : string) (df : DataFrame) : list (option cell) :=
  (λ r : row, r !! c) <$> rows df.

(** [x.isin(values)] for values read from a column.  A missing cell of a
    column of strings is the one object [numpy.nan]: a [set] holds it once,
    and [isin] finds a missing cell in a set that holds it. *)
Definition isin_cells (x : option cell) (values : list (option cell)) : bool :=
  bool_decide (x ∈ values).

(** Relabelling the columns index ([df.columns = ...], [df.rename]): the
    data stay where they are, the label of each position changes. *)
Definition relabel_row (f : string → string) (cols : list string) (r : row) : row :=
  foldr (λ c acc, match r !! c with
                  | Some v => <[f c := v]> acc
                  | None => acc
                  end) ∅ cols.

Definition relabel (f : string → string) (df : DataFrame) : DataFrame :=
  {| columns := f <$> columns df;
     rows := relabel_row f (columns df) <$> rows df |}.

(** [df.rename(columns={old: new}, inplace=True)]; a label that is not
    there is ignored. *)
Definition rename (old new : string) (df : DataFrame) : DataFrame :=
  relabel (λ c, if decide (c = old) then new else c) df.

(** [df[col] = value] (a scalar): sets the cell in every row and appends
    the column when it is new. *)
Definition set_column (col : string) (v : cell) (df : DataFrame) : DataFrame :=
  {| columns := if decide (col ∈ columns df) then columns df else columns df ++ [col];
     rows := <[col := v]> <$> rows df |}.

(** [df.loc[mask, col] = value] *)
Definition set_where (p : row → bool) (col : string) (v : cell) (df : DataFrame) : DataFrame :=
  {| columns := if decide (col ∈ columns df) then columns df else columns df ++ [col];
     rows := (λ r, if p r then <[col := v]> r else r) <$> rows df |}.

(** [df.drop_duplicates(subset=[k1, k2], ignore_index=True)]: the first
    row of every key is kept; two missing cells count as equal. *)
Fixpoint drop_dups (k1 k2 : string) (seen : list (option cell * option cell))
    (l : list row) : list row :=
  match l with
  | [] => []
  | r :: l' =>
      let k := (r !! k1, r !! k2) in
      if decide (k ∈ seen) then drop_dups k1 k2 seen l'
      else r :: drop_dups k1 k2 (k :: seen) l'
  end.

Definition drop_duplicates (k1 k2 : string) (df : DataFrame) : exn + DataFrame :=
  if negb (has_column k1 df) then inl (KeyError k1)
  else if negb (has_column k2 df) then inl (KeyError k2)
  else inr {| columns := columns df; rows := drop_dups k1 k2 [] (rows df) |}.

End Pd.

(** ** Sheet normaliser: [standardize_xlsform_sheets] *)

Definition base_columns : list string := ["label"; "hint"; "required_message"].

(** One turn of the inner loop of [standardize_language_columns], for the
    column [col] and the base [base_col]; the state is the local variable
    [standardized_col] and the frame, which [rename] changes in place. *)
Definition standardize_step (col : string) (st : string * DataFrame)
    (base_col : string) : string * DataFrame :=
  let '(standardized_col, df) := st in
  let standardized_col :=
    if PyStr.startswith (base_col +:+ "::") col then
      match PyStr.re_match_lang base_col col with
      | Some lang_name =>
          match DEFAULT_LANGUAGES !! lang_name with
          | Some code => base_col +:+ "::" +:+ lang_name +:+ "(" +:+ code +:+ ")"
          | None => standardized_col
          end
      | None => standardized_col
      end
    else if decide (col = base_col) then base_col +:+ "::english(en)"
    else standardized_col in
  let df :=
    if decide (col ≠ standardized_col) then Pd.rename col standardized_col df
    else df in
  (standardized_col, df).

Definition standardize_language_columns (df : DataFrame) : DataFrame :=
  let df := Pd.relabel PyStr.lower df in
  let existing_columns := columns df in
  foldl (λ df col, (foldl (standardize_step col) (col, df) base_columns).2)
        df existing_columns.

Definition group_markers : list cell :=
  [CStr "begin group"; CStr "end group"; CStr "begin_group"; CStr "end_group"].

Definition filter_df_empty_rows (df : DataFrame) (column : string) : DataFrame :=
  if Pd.has_column column df then
    if Pd.has_column "type" df then
      Pd.select (λ r, Pd.notna (r !! column) || Pd.isin (r !! "type") group_markers) df
    else
      Pd.select (λ r, Pd.notna (r !! column)) df
  else df.

(** The body of the loop over the sheets. *)
Definition standardize_sheet (sheet_df : DataFrame) : DataFrame :=
  if Pd.empty sheet_df then sheet_df
  else
    let sheet_df := standardize_language_columns sheet_df in
    filter_df_empty_rows sheet_df NAME_COLUMN.

(** The dictionary of sheets keeps its keys and their order. *)
Definition standardize_xlsform_sheets (xlsform : list (string * DataFrame))
    : list (string * DataFrame) :=
  prod_map id standardize_sheet <$> xlsform.

(** ** Table merger *)

Definition RELEVANT : string :=
  "(${new_feature} != '') or (${building_exists} = 'yes')".

Definition begin_group (name : string) : DataFrame :=
  Pd.one_row
    [("type", CStr "begin group");
     ("name", CStr name);
     ("label::english(en)", CStr name);
     ("label::swahili(sw)", CStr name);
     ("label::french(fr)", CStr name);
     ("label::spanish(es)", CStr name);
     ("relevant", CStr RELEVANT)].

Definition end_group : DataFrame :=
  Pd.one_row [("type", CStr "end group")].

(** [create_survey_group(name)]: the pair [{"begin": ..., "end": ...}]. *)
Definition create_survey_group (name : string) : DataFrame * DataFrame :=
  (begin_group name, end_group).

(** [normalize_with_meta(row, meta_df)].  The Series [row] is the cells
    [r] under the labels [index], those of the frame [apply] takes the row
    from.  [meta_df["type"]] and then [row[TYPE_COLUMN]] raise [KeyError]
    for a label that is not there. *)
Definition normalize_with_meta (index : list string) (r : row) (meta_df : DataFrame)
    : exn + row :=
  if negb (Pd.has_column "type" meta_df) then inl (KeyError "type")
  else if negb (bool_decide (TYPE_COLUMN ∈ index)) then inl (KeyError TYPE_COLUMN)
  else
    let matching_meta :=
      Pd.select (λ m, match m !! "type", r !! TYPE_COLUMN with
                      | Some a, Some b => bool_decide (a = b)
                      | _, _ => false
                      end) meta_df in
    if Pd.empty matching_meta then inr r
    else
      match rows matching_meta with
      | m0 :: _ =>
          inr (foldl (λ r col, match m0 !! col with
                               | Some v => <[col := v]> r
                               | None => delete col r
                               end) r (columns matching_meta))
      | [] => inr r
      end.

(** The calls of [apply] on the rows, one after the other; the first
    exception ends them. *)
Fixpoint apply_rows (f : row → exn + row) (l : list row) : exn + list row :=
  match l with
  | [] => inr []
  | r :: l' =>
      match f r with
      | inl e => inl e
      | inr r' =>
          match apply_rows f l' with
          | inl e => inl e
          | inr l'' => inr (r' :: l'')
          end
      end
  end.

(** [user_question_df.apply(normalize_with_meta, axis=1, meta_df=meta_df)].
    On an empty frame pandas returns a copy, and an exception of the one
    trial call is dropped.  A row that matched brings the columns of
    [meta_df] into the result. *)
Definition apply_normalize_with_meta (user_question_df meta_df : DataFrame)
    : exn + DataFrame :=
  if Pd.empty user_question_df then inr user_question_df
  else
    match apply_rows (λ r, normalize_with_meta (columns user_question_df) r meta_df)
                     (rows user_question_df) with
    | inl e => inl e
    | inr rs =>
        let matched :=
          existsb (λ r, negb (Pd.empty
            (Pd.select (λ m, match m !! TYPE_COLUMN, r !! TYPE_COLUMN with
                             | Some a, Some b => bool_decide (a = b)
                             | _, _ => false
                             end) meta_df))) (rows user_question_df) in
        inr {| columns := if matched
                          then Pd.union_columns (columns user_question_df) (columns meta_df)
                          else columns user_question_df;
               rows := rs |}
    end.

Definition merge_dataframes (meta_df mandatory_df user_question_df digitisation_df : DataFrame)
    : exn + DataFrame :=
  if Pd.has_column "list_name" user_question_df then
    let merged_df := Pd.concat [mandatory_df; user_question_df; digitisation_df] in
    Pd.drop_duplicates "list_name" NAME_COLUMN merged_df
  else
    match apply_normalize_with_meta user_question_df meta_df with
    | inl e => inl e
    | inr user_question_df =>
        if negb (Pd.has_column NAME_COLUMN user_question_df) then inl (KeyError NAME_COLUMN)
        else if negb (Pd.has_column NAME_COLUMN mandatory_df) then inl (KeyError NAME_COLUMN)
        else if negb (Pd.has_column NAME_COLUMN digitisation_df) then inl (KeyError NAME_COLUMN)
        else
          let duplicate_fields :=
            List.filter
              (λ n, bool_decide (n ∈ Pd.column NAME_COLUMN mandatory_df
                                     ++ Pd.column NAME_COLUMN digitisation_df))
              (Pd.column NAME_COLUMN user_question_df) in
          if negb (Pd.has_column "type" user_question_df) then inl (KeyError "type")
          else
            let is_end_group := λ r : row, Pd.isin (r !! "type") [CStr "end group"; CStr "end_group"] in
            let user_question_df_filtered :=
              Pd.select (λ r, negb (Pd.isin_cells (r !! NAME_COLUMN) duplicate_fields)
                              || is_end_group r)
                        user_question_df in
            let survey_group := create_survey_group SURVEY_GROUP_NAME in
            inr (Pd.concat [mandatory_df; survey_group.1; user_question_df_filtered;
                            survey_group.2; digitisation_df])
    end.

(** ** Structural row inserter *)

Definition additional_row (entity_name : string) : DataFrame :=
  Pd.one_row
    [("type", CStr ("select_one_from_file " +:+ entity_name +:+ ".csv"));
     ("name", CStr entity_name);
     ("label::english(en)", CStr entity_name);
     ("appearance", CStr "map");
     ("label::swahili(sw)", CStr entity_name);
     ("label::french(fr)", CStr entity_name);
     ("label::spanish(es)", CStr entity_name)].

Definition coordinates_row (entity_name : string) : DataFrame :=
  Pd.one_row
    [("type", CStr "calculate");
     ("name", CStr "additional_geometry");
     ("calculation",
      CStr ("instance('" +:+ entity_name +:+ "')/root/item[name=${" +:+ entity_name +:+ "}]/geometry"));
     ("label::english(en)", CStr "additional_geometry");
     ("label::swahili(sw)", CStr "additional_geometry");
     ("label::french(fr)", CStr "additional_geometry");
     ("label::spanish(es)", CStr "additional_geometry")].

Definition is_feature (r : row) : bool :=
  bool_decide (r !! NAME_COLUMN = Some (CStr FEATURE_COLUMN)).

(** [df.index[df[NAME_COLUMN] == FEATURE_COLUMN].tolist()] *)
Fixpoint feature_indices (i : nat) (l : list row) : list nat :=
  match l with
  | [] => []
  | r :: l' => if is_feature r then i :: feature_indices (S i) l'
               else feature_indices (S i) l'
  end.

Definition ANCHOR_MSG : string :=
  "Row with 'name' == 'feature' not found in survey sheet.".

Definition append_select_one_from_file_row (df : DataFrame) (entity_name : string)
    : exn + DataFrame :=
  if negb (Pd.has_column NAME_COLUMN df) then inl (KeyError NAME_COLUMN)
  else
    match feature_indices 0 (rows df) with
    | [] => inl (ValueError ANCHOR_MSG)
    | i0 :: _ =>
        let row_index_to_split_on := i0 + 1 in
        let top_df := {| columns := columns df; rows := take row_index_to_split_on (rows df) |} in
        let bottom_df := {| columns := columns df; rows := drop row_index_to_split_on (rows df) |} in
        inr (Pd.concat [top_df; additional_row entity_name; coordinates_row entity_name; bottom_df])
    end.

(** ** Form assembler: [append_mandatory_fields] *)

(** The module-level template frames.  They are imported once and shared by
    every invocation, so they are the objects of the store; every other
    frame of an invocation is created by it ([read_excel], [concat], a
    boolean selection) and referenced from [custom_sheets] only. *)
Inductive template : Type :=
  | survey_df | choices_df | digitisation_choices_df | digitisation_df
  | entities_df | meta_df | settings_df.

#[global] Instance template_eq_dec : EqDecision template.
Proof. solve_decision. Defined.

Record store : Type := mkStore {
  at_survey_df : DataFrame;
  at_choices_df : DataFrame;
  at_digitisation_choices_df : DataFrame;
  at_digitisation_df : DataFrame;
  at_entities_df : DataFrame;
  at_meta_df : DataFrame;
  at_settings_df : DataFrame;
}.

(** The frame a global name is bound to. *)
Definition load (σ : store) (t : template) : DataFrame :=
  match t with
  | survey_df => at_survey_df σ
  | choices_df => at_choices_df σ
  | digitisation_choices_df => at_digitisation_choices_df σ
  | digitisation_df => at_digitisation_df σ
  | entities_df => at_entities_df σ
  | meta_df => at_meta_df σ
  | settings_df => at_settings_df σ
  end.

Definition store_set (t : template) (df : DataFrame) (σ : store) : store :=
  let upd t' := if decide (t' = t) then df else load σ t' in
  {| at_survey_df := upd survey_df;
     at_choices_df := upd choices_df;
     at_digitisation_choices_df := upd digitisation_choices_df;
     at_digitisation_df := upd digitisation_df;
     at_entities_df := upd entities_df;
     at_meta_df := upd meta_df;
     at_settings_df := upd settings_df |}.

(** A value of the dictionary [custom_sheets]: a frame of the invocation's
    own, or a reference to a template object. *)
Inductive sheet : Type :=
  | Own (df : DataFrame)
  | Global (t : template).

(** Stateful, failing computations. *)
Definition M (A : Type) : Type := store → (exn + A) * store.

#[global] Instance M_ret : MRet M := λ A a σ, (inr a, σ).
#[global] Instance M_bind : MBind M := λ A B k m σ,
  match m σ with
  | (inl e, σ') => (inl e, σ')
  | (inr a, σ') => k a σ'
  end.

Definition raise {A} (e : exn) : M A := λ σ, (inl e, σ).
Definition lift {A} (r : exn + A) : M A := λ σ, (r, σ).
Definition read (t : template) : M DataFrame := λ σ, (inr (load σ t), σ).
Definition write (t : template) (df : DataFrame) : M unit :=
  λ σ, (inr (), store_set t df σ).

Definition deref (s : sheet) : M DataFrame :=
  match s with
  | Own df => mret df
  | Global t => read t
  end.

(** Python dictionaries with string keys, in insertion order. *)
Definition dict (V : Type) : Type := list (string * V).

Definition dict_mem {V} (k : string) (d : dict V) : bool :=
  bool_decide (k ∈ d.*1).

Fixpoint dict_get {V} (k : string) (d : dict V) : option V :=
  match d with
  | [] => None
  | (k', v) :: d' => if decide (k' = k) then Some v else dict_get k d'
  end.

Fixpoint dict_set {V} (k : string) (v : V) (d : dict V) : dict V :=
  match d with
  | [] => [(k, v)]
  | (k', v') :: d' => if decide (k' = k) then (k, v) :: d' else (k', v') :: dict_set k v d'
  end.

(** [d[k]] *)
Definition getitem (k : string) (d : dict sheet) : M DataFrame :=
  match dict_get k d with
  | Some s => deref s
  | None => raise (KeyError k)
  end.

(** An assignment into the frame [d[k]], in place: a template object is
    changed in the store, where every other reference to it sees the
    change. *)
Definition mutate (k : string) (f : DataFrame → DataFrame) (d : dict sheet)
    : M (dict sheet) :=
  match dict_get k d with
  | Some (Own df) => mret (dict_set k (Own (f df)) d)
  | Some (Global t) => df ← read t; _ ← write t (f df); mret d
  | None => raise (KeyError k)
  end.

Record env : Type := mkEnv {
  uuid4 : string;
  now : string;
}.

Definition singular (form_category : string) : string :=
  if PyStr.endswith_s form_category then PyStr.drop_last form_category
  else form_category.

Definition is_form_category (r : row) : bool :=
  bool_decide (r !! "name" = Some (CStr "form_category")).

Definition empty_choices : DataFrame :=
  {| columns := ["list_name"; "name"; "label::english(en)"]; rows := [] |}.

(** The loop over [additional_entities]. *)
Fixpoint add_entities (additional_entities : list string) (custom_sheets : dict sheet)
    : M (dict sheet) :=
  match additional_entities with
  | [] => mret custom_sheets
  | entity_name :: rest =>
      survey ← getitem "survey" custom_sheets;
      survey ← lift (append_select_one_from_file_row survey entity_name);
      add_entities rest (dict_set "survey" (Own survey) custom_sheets)
  end.

(** What [to_excel] writes: every sheet as it is when the loop reads it. *)
Fixpoint to_excel (custom_sheets : dict sheet) : M (dict DataFrame) :=
  match custom_sheets with
  | [] => mret []
  | (sheet_name, s) :: rest =>
      df ← deref s;
      out ← to_excel rest;
      mret ((sheet_name, df) :: out)
  end.

(** [append_mandatory_fields].  [custom_form] is the dictionary of sheets
    [pd.read_excel(custom_form, sheet_name=None)] returns, each sheet a
    frame of its own (so no value of it is [None]); the result is the form
    identifier and the sheets [to_excel] writes. *)
Definition append_mandatory_fields (e : env) (custom_form : dict DataFrame)
    (form_category : string) (additional_entities : option (list string))
    (existing_id : option string) : M (string * dict DataFrame) :=
  let custom_sheets := custom_form in
  if negb (dict_mem "survey" custom_sheets) then
    raise (ValueError "Survey sheet is required in XLSForm!")
  else
    let custom_sheets : dict sheet :=
      prod_map id Own <$> standardize_xlsform_sheets custom_sheets in
    mandatory ← read survey_df;
    user ← getitem "survey" custom_sheets;
    digitisation ← read digitisation_df;
    meta ← read meta_df;
    survey ← lift (merge_dataframes meta mandatory user digitisation);
    let custom_sheets := dict_set "survey" (Own survey) custom_sheets in
    let form_category := singular form_category in
    survey ← getitem "survey" custom_sheets;
    if negb (Pd.has_column "name" survey) then raise (KeyError "name")
    else
      let form_category_row := Pd.select is_form_category survey in
      custom_sheets ←
        (if negb (Pd.empty form_category_row) then
           mutate "survey"
             (Pd.set_where is_form_category "calculation"
                (CStr ("once('" +:+ form_category +:+ "')")))
             custom_sheets
         else mret custom_sheets);
      let custom_sheets :=
        if negb (dict_mem "choices" custom_sheets)
        then dict_set "choices" (Own empty_choices) custom_sheets
        else custom_sheets in
      mandatory ← read choices_df;
      user ← getitem "choices" custom_sheets;
      digitisation ← read digitisation_choices_df;
      choices ← lift (merge_dataframes meta mandatory user digitisation);
      let custom_sheets := dict_set "choices" (Own choices) custom_sheets in
      let custom_sheets := dict_set "entities" (Global entities_df) custom_sheets in
      let custom_sheets := dict_set "settings" (Global settings_df) custom_sheets in
      if negb (dict_mem "entities" custom_sheets) then
        raise (ValueError "Entities sheet is required in XLSForm!")
      else if negb (dict_mem "settings" custom_sheets) then
        raise (ValueError "Settings sheet is required in XLSForm!")
      else
        let xform_id :=
          match existing_id with
          | Some i => if decide (i = "") then uuid4 e else i
          | None => uuid4 e
          end in
        let current_datetime := now e in
        custom_sheets ← mutate "settings" (Pd.set_column "version" (CStr current_datetime)) custom_sheets;
        custom_sheets ← mutate "settings" (Pd.set_column "form_id" (CStr xform_id)) custom_sheets;
        custom_sheets ← mutate "settings" (Pd.set_column "form_title" (CStr form_category)) custom_sheets;
        custom_sheets ←
          match additional_entities with
          | Some ((_ :: _) as names) => add_entities names custom_sheets
          | _ => mret custom_sheets
          end;
        output ← to_excel custom_sheets;
        mret (xform_id, output).

(** ** A small instance: templates and an uploaded form

    The instance follows the shape of the program's templates: metadata
    rows that are also mandatory rows, the [feature] anchor, the
    [form_category] calculation, and a settings sheet of one row. *)

Module Sample.

Definition frame (cols : list string) (rs : list (list (string * cell))) : DataFrame :=
  {| columns := cols; rows := list_to_map <$> rs |}.

Definition meta : DataFrame :=
  frame ["type"; "name"]
    [[("type", CStr "start"); ("name", CStr "start")];
     [("type", CStr "end"); ("name", CStr "end")]].

Definition survey : DataFrame :=
  frame ["type"; "name"; "label::english(en)"; "calculation"]
    [[("type", CStr "start"); ("name", CStr "start")];
     [("type", CStr "end"); ("name", CStr "end")];
     [("type", CStr "select_one_from_file features.csv"); ("name", CStr "feature");
      ("label::english(en)", CStr "Feature")];
     [("type", CStr "calculate"); ("name", CStr "form_category");
      ("label::english(en)", CStr "Category"); ("calculation", CStr "once('placeholder')")]].

Definition digitisation : DataFrame :=
  frame ["type"; "name"; "label::english(en)"]
    [[("type", CStr "text"); ("name", CStr "digitisation_problem");
      ("label::english(en)", CStr "Problem")]].

Definition choices : DataFrame :=
  frame ["list_name"; "name"; "label::english(en)"]
    [[("list_name", CStr "yes_no"); ("name", CStr "yes"); ("label::english(en)", CStr "Yes")];
     [("list_name", CStr "yes_no"); ("name", CStr "no"); ("label::english(en)", CStr "No")]].

Definition digitisation_choices : DataFrame :=
  frame ["list_name"; "name"; "label::english(en)"]
    [[("list_name", CStr "problem"); ("name", CStr "lumped"); ("label::english(en)", CStr "Lumped")];
     [("list_name", CStr "yes_no"); ("name", CStr "yes"); ("label::english(en)", CStr "Oui")]].

Definition entities : DataFrame :=
  frame ["list_name"; "entity_id"; "label"]
    [[("list_name", CStr "features"); ("entity_id", CStr "coalesce(${feature}, uuid())");
      ("label", CStr "concat('Task ', ${task_id})")]].

Definition settings : DataFrame :=
  frame ["form_id"; "version"; "form_title"; "allow_choice_duplicates"]
    [[("form_id", CStr "template"); ("version", CStr "0"); ("form_title", CStr "template");
      ("allow_choice_duplicates", CStr "yes")]].

Definition templates : store :=
  {| at_survey_df := survey;
     at_choices_df := choices;
     at_digitisation_choices_df := digitisation_choices;
     at_digitisation_df := digitisation;
     at_entities_df := entities;
     at_meta_df := meta;
     at_settings_df := settings |}.

(** An uploaded workbook: a survey sheet with a raw [Label] header, a row
    that repeats the mandatory [feature] name and a row without a name. *)
Definition user_survey : DataFrame :=
  frame ["type"; "name"; "Label"]
    [[("type", CStr "text"); ("name", CStr "comment"); ("Label", CStr "Comment")];
     [("type", CStr "text"); ("name", CStr "feature"); ("Label", CStr "Mine")];
     [("type", CStr "note"); ("Label", CStr "no name")]].

Definition user_choices : DataFrame :=
  frame ["list_name"; "name"; "label"]
    [[("list_name", CStr "yes_no"); ("name", CStr "yes"); ("label", CStr "Yes please")];
     [("list_name", CStr "colour"); ("name", CStr "yes"); ("label", CStr "Red")]].

Definition form : dict DataFrame :=
  [("survey", user_survey); ("choices", user_choices)].

Definition e : env := {| uuid4 := "uuid-1"; now := "2024-01-01 00:00:00" |}.

End Sample.

(** * Vocabulary of the statements

    Notions the properties are stated with; none of them is part of the
    program. *)

(** The two rows one call of [append_select_one_from_file_row] inserts. *)
Definition entity_rows (entity_name : string) : list row :=
  rows (additional_row entity_name) ++ rows (coordinates_row entity_name).

(** The names a sheet holds, in the order of its rows; a row without a
    name has none. *)
Definition names_of (df : DataFrame) : list cell :=
  omap (λ r, r !! NAME_COLUMN) (rows df).

(** [n] is the position of the first row named [feature]. *)
Definition first_feature (l : list row) (n : nat) : Prop :=
  (∃ r, l !! n = Some r ∧ is_feature r = true) ∧
  ∀ j r, j < n → l !! j = Some r → is_feature r = false.

(** The survey sheet after the [form_category] row has been stamped. *)
Definition stamp_category (form_category : string) (survey : DataFrame) : DataFrame :=
  if negb (Pd.empty (Pd.select is_form_category survey)) then
    Pd.set_where is_form_category "calculation"
      (CStr ("once('" +:+ form_category +:+ "')")) survey
  else survey.

(** The three assignments into the settings sheet. *)
Definition stamp_settings (version form_id form_title : string) (df : DataFrame) : DataFrame :=
  Pd.set_column "form_title" (CStr form_title)
    (Pd.set_column "form_id" (CStr form_id)
       (Pd.set_column "version" (CStr version) df)).

(** [existing_id if existing_id else uuid4()] *)
Definition xform_id_of (e : env) (existing_id : option string) : string :=
  match existing_id with
  | Some i => if decide (i = "") then uuid4 e else i
  | None => uuid4 e
  end.

(** The user's choices sheet as the second merge receives it. *)
Definition user_choices_of (custom_form : dict DataFrame) : DataFrame :=
  match dict_get "choices" custom_form with
  | Some c => standardize_sheet c
  | None => empty_choices
  end.

(** The dictionary [custom_sheets] when the loop over the entities starts. *)
Definition final_sheets (custom_form : dict DataFrame) (survey choices : DataFrame)
    : dict sheet :=
  dict_set "settings" (Global settings_df)
    (dict_set "entities" (Global entities_df)
       (dict_set "choices" (Own choices)
          (dict_set "survey" (Own survey)
             (prod_map id Own <$> standardize_xlsform_sheets custom_form)))).

(** The frames a dictionary refers to, read in the store [σ]. *)
Definition view (σ : store) (d : dict sheet) : dict DataFrame :=
  prod_map id (λ s, match s with Own df => df | Global t => load σ t end) <$> d.

(** What the assembler does once both merges have returned [merged] and
    [choices]: the stamps, the loop over the entities, the output. *)
Definition assemble_tail (e : env) (custom_form : dict DataFrame) (form_category : string)
    (additional_entities : option (list string)) (existing_id : option string)
    (σ : store) (merged choices : DataFrame) : (exn + string * dict DataFrame) * store :=
  let survey := stamp_category (singular form_category) merged in
  let xform_id := xform_id_of e existing_id in
  let σ' := store_set settings_df
              (stamp_settings (now e) xform_id (singular form_category) (load σ settings_df)) σ in
  let sheets := final_sheets custom_form survey choices in
  match additional_entities with
  | Some ((_ :: _) as names) =>
      match add_entities names sheets σ' with
      | (inl err, σ'') => (inl err, σ'')
      | (inr d, σ'') => (inr (xform_id, view σ'' d), σ'')
      end
  | _ => (inr (xform_id, view σ' sheets), σ')
  end.

(** [frames m Q]: the computation [m] writes to no template object other
    than [settings_df], and a value it returns satisfies [Q]. *)
Definition frames {A} (m : M A) (Q : A → Prop) : Prop :=
  ∀ σ, (∀ t, t ≠ settings_df → load (m σ).2 t = load σ t) ∧
       (∀ a, (m σ).1 = inr a → Q a).

(** The assembler on the sample instance, with the category [buildings]. *)
Module SampleRun.

Definition run (additional_entities : option (list string)) : (exn + string * dict DataFrame) * store :=
  append_mandatory_fields Sample.e Sample.form "buildings" additional_entities None
    Sample.templates.

Definition result_of (x : exn + string * dict DataFrame) : string * dict DataFrame :=
  match x with
  | inr r => r
  | inl _ => ("", [])
  end.

(** The output without additional entities, and with two of them. *)
Definition plain : string * dict DataFrame :=
  Eval vm_compute in result_of (run None).1.

Definition with_entities : string * dict DataFrame :=
  Eval vm_compute in result_of (run (Some ["roads"; "waterpoints"])).1.

Definition sheet_of (k : string) (r : string * dict DataFrame) : DataFrame :=
  default (mkDF [] []) (dict_get k r.2).

Definition plain_survey : DataFrame :=
  Eval vm_compute in sheet_of "survey" plain.

End SampleRun.

(** The position of the first row with a given name. *)
Definition index_of_name (name : string) (df : DataFrame) : option nat :=
  fst <$> list_find (λ x : row, x !! NAME_COLUMN = Some (CStr name)) (rows df).

(** The label column of a language. *)
Definition label_column (lang code : string) : string :=
  "label::" +:+ lang +:+ "(" +:+ code +:+ ")".

(** The languages the generated rows carry a label for. *)
Definition carried_languages : list (string * string) :=
  [("english", "en"); ("swahili", "sw"); ("french", "fr"); ("spanish", "es")].

(** The key of a row of a choices sheet. *)
Definition choice_key (x : row) : option cell * option cell :=
  (x !! "list_name", x !! NAME_COLUMN).

(** A frame whose only row has the empty string as its name. *)
Definition blank_name : DataFrame :=
  Sample.frame ["type"; "name"] [[("type", CStr "text"); ("name", CStr "")]].

(** A frame with a header and no rows. *)
Definition header_only : DataFrame := Sample.frame ["label"] [].

(** The name the base [base_col] gives to the column [col], if it gives
    one: the assignments to [standardized_col] in the inner loop. *)
Definition fires (base_col col : string) : option string :=
  if PyStr.startswith (base_col +:+ "::") col then
    lang_name ← PyStr.re_match_lang base_col col;
    code ← DEFAULT_LANGUAGES !! lang_name;
    Some (base_col +:+ "::" +:+ lang_name +:+ "(" +:+ code +:+ ")")
  else if decide (col = base_col) then Some (base_col +:+ "::english(en)")
  else None.

(** The value of [standardized_col] at the end of the inner loop. *)
Definition std_name (col : string) : string :=
  foldl (λ s base_col, default s (fires base_col col)) col base_columns.

(** The column index after [rename(columns={old: new})]. *)
Definition ren (old new : string) (cols : list string) : list string :=
  (λ c, if decide (c = old) then new else c) <$> cols.

(** The column [col] is the base or a translation of it. *)
Definition applies (base_col col : string) : bool :=
  PyStr.startswith (base_col +:+ "::") col || bool_decide (col = base_col).

(** [s[:1]] *)
Definition first_char (s : string) : option ascii :=
  match s with
  | String a _ => Some a
  | EmptyString => None
  end.

(** The names the inner loop can assign. *)
Definition standard_names : list string :=
  base ← base_columns;
  lc ← [("english", "en"); ("french", "fr"); ("spanish", "es");
        ("swahili", "sw"); ("nepali", "ne")];
  [base +:+ "::" +:+ lc.1 +:+ "(" +:+ lc.2 +:+ ")"].

(** The header [c] of [df] is the only one that the normaliser gives its
    standard name to. *)
Definition sole_header (df : DataFrame) (c : string) : Prop :=
  c ∈ columns df ∧
  Forall (λ c', std_name (PyStr.lower c') = std_name (PyStr.lower c) → c' = c) (columns df).

(** The frame [d] holds the rows of [df] relabelled: its labels are those
    of [df] on their way to the standard ones, and the cell of a header
    that is the only one with its standard name is where that header
    went. *)
Definition follows (df d : DataFrame) : Prop :=
  ∃ (H : string → string) (G : row → row),
    columns d = H <$> columns df ∧
    rows d = G <$> rows df ∧
    (∀ c, c ∈ columns df → std_name (H c) = std_name (PyStr.lower c)) ∧
    (∀ r c, sole_header df c → G r !! H c = r !! c).

(** The string holds ASCII characters only. *)
Fixpoint ascii_only (s : string) : bool :=
  match s with
  | EmptyString => true
  | String a s' => (PyStr.byte a <? 128)%Z && ascii_only s'
  end.

(** The string holds ASCII letters, digits and underscores only. *)
Fixpoint ascii_word (s : string) : bool :=
  match s with
  | EmptyString => true
  | String a s' => (PyStr.byte a <? 128)%Z && PyStr.is_word (PyStr.byte a) && ascii_word s'
  end.

(** A survey sheet as it is uploaded: capitals in the headers, an end-group
    row and a note without a name, and a question whose name is the empty
    string. *)
Definition raw_survey : DataFrame :=
  Sample.frame ["Type"; "Name"; "Label"]
    [[("Type", CStr "text"); ("Name", CStr "q1"); ("Label", CStr "Question")];
     [("Type", CStr "end group")];
     [("Type", CStr "note"); ("Label", CStr "no name")];
     [("Type", CStr "text"); ("Name", CStr "")]].

(** A sheet with a translation into a language the lookup does not have. *)
Definition german_headers : DataFrame :=
  Sample.frame ["name"; "label::German"]
    [[("name", CStr "q1"); ("label::German", CStr "Frage")]].

(** A sheet with raw headers and one row. *)
Definition raw_headers : DataFrame :=
  Sample.frame ["Label::French"; "label"; "label::german"; "name"; "HINT"]
    [[("name", CStr "q1"); ("label", CStr "Question")]].

(** The survey merge on the sample instance. *)
Module SampleMerge.

Definition user : DataFrame :=
  Eval vm_compute in standardize_sheet Sample.user_survey.

Definition merged : DataFrame :=
  Eval vm_compute in
    match merge_dataframes Sample.meta Sample.survey user Sample.digitisation with
    | inr m => m
    | inl _ => mkDF [] []
    end.

(** A survey sheet that is only a header line. *)
Definition header_line : DataFrame := Sample.frame ["name"; "label"] [].

(** A choices sheet and templates without a [name] column. *)
Definition nameless_choices : DataFrame :=
  Sample.frame ["list_name"; "label"] [[("list_name", CStr "colour"); ("label", CStr "Red")]].

End SampleMerge.

(** The name cells of the template rows, mandatory and supplementary; a
    template row without a name contributes the missing cell. *)
Definition template_names (mandatory_df digitisation_df : DataFrame) : list (option cell) :=
  Pd.column NAME_COLUMN mandatory_df ++ Pd.column NAME_COLUMN digitisation_df.

(** The row is an [end group] row as the survey merge tests it. *)
Definition is_end_group (x : row) : bool :=
  Pd.isin (x !! "type") [CStr "end group"; CStr "end_group"].

(** The test [meta_df["type"] == row[TYPE_COLUMN]] on one metadata row:
    both cells are there and equal. *)
Definition same_type (r m : row) : bool :=
  match m !! TYPE_COLUMN, r !! TYPE_COLUMN with
  | Some a, Some b => bool_decide (a = b)
  | _, _ => false
  end.

(** The cells [normalize_with_meta] returns when both of its lookups of
    ["type"] succeed: those of the first metadata row of the same type, for
    the columns of the metadata frame. *)
Definition meta_substitute (r : row) (meta_df : DataFrame) : row :=
  match List.filter (same_type r) (rows meta_df) with
  | m0 :: _ =>
      foldl (λ (r : row) col, match m0 !! col with
                              | Some v => <[col := v]> r
                              | None => delete col r
                              end) r (columns meta_df)
  | [] => r
  end.

(** A user row that uses the type of a metadata row under another name. *)
Definition renamed_start : row :=
  list_to_map [("type", CStr "start"); ("name", CStr "begin"); ("hint", CStr "mine")].

(** Templates whose mandatory survey rows have no [feature] row, and an
    upload for them. *)
Module NoAnchor.

Definition templates : store := store_set survey_df Sample.digitisation Sample.templates.

Definition form : dict DataFrame := [("survey", blank_name)].

Definition frame_of (x : exn + DataFrame) : DataFrame :=
  match x with
  | inr df => df
  | inl _ => mkDF [] []
  end.

Definition merged : DataFrame :=
  Eval vm_compute in
    frame_of (merge_dataframes (load templates meta_df) (load templates survey_df)
                (standardize_sheet blank_name) (load templates digitisation_df)).

Definition choices : DataFrame :=
  Eval vm_compute in
    frame_of (merge_dataframes (load templates meta_df) (load templates choices_df)
                (user_choices_of form) (load templates digitisation_choices_df)).

End NoAnchor.

(** An upload whose choices sheet has the header [list name] instead of
    [list_name], and the choices merge on it. *)
Module BadChoices.

Definition sheet : DataFrame :=
  Sample.frame ["list name"; "name"; "type"]
    [[("list name", CStr "colour"); ("name", CStr "red"); ("type", CStr "text")]].

Definition form : dict DataFrame := [("survey", Sample.user_survey); ("choices", sheet)].

Definition result : string * dict DataFrame :=
  Eval vm_compute in
    SampleRun.result_of
      (append_mandatory_fields Sample.e form "buildings" None None Sample.templates).1.

End BadChoices.

(** Mandatory rows with a row that has no name, and a user sheet with
    rows without a name. *)
Module Nameless.

Definition mandatory : DataFrame :=
  Sample.frame ["type"; "name"]
    [[("type", CStr "select_one_from_file features.csv"); ("name", CStr "feature")];
     [("type", CStr "end group")]].

Definition user : DataFrame :=
  Sample.frame ["type"; "name"]
    [[("type", CStr "begin group")];
     [("type", CStr "text"); ("name", CStr "q1")];
     [("type", CStr "end group")];
     [("type", CStr "text"); ("name", CStr "feature")]].

Definition merged : DataFrame :=
  Eval vm_compute in
    NoAnchor.frame_of (merge_dataframes Sample.meta mandatory user Sample.digitisation).

End Nameless.

(** Templates without a [form_category] row. *)
Module NoCategory.

Definition survey : DataFrame :=
  Sample.frame ["type"; "name"]
    [[("type", CStr "select_one_from_file features.csv"); ("name", CStr "feature")]].

Definition templates : store := store_set survey_df survey Sample.templates.

Definition merged : DataFrame :=
  Eval vm_compute in
    NoAnchor.frame_of
      (merge_dataframes (load templates meta_df) (load templates survey_df)
         (standardize_sheet Sample.user_survey) (load templates digitisation_df)).

Definition choices : DataFrame :=
  Eval vm_compute in
    NoAnchor.frame_of
      (merge_dataframes (load templates meta_df) (load templates choices_df)
         (user_choices_of Sample.form) (load templates digitisation_choices_df)).

End NoCategory.

(** * Properties *)

(** ** Frames and [concat] *)

Section Frames.

Implicit Types (df : DataFrame) (r : row) (c : string).

Lemma has_column_true c df : Pd.has_column c df = true ↔ c ∈ columns df.
Proof. unfold Pd.has_column. apply bool_decide_eq_true. Qed.

Lemma has_column_false c df : Pd.has_column c df = false ↔ c ∉ columns df.
Proof. unfold Pd.has_column. apply bool_decide_eq_false. Qed.

Lemma elem_of_union_columns c (a b : list string) :
  c ∈ Pd.union_columns a b ↔ c ∈ a ∨ c ∈ b.
Proof.
  unfold Pd.union_columns. rewrite elem_of_app, list_elem_of_filter.
  destruct (decide (c ∈ a)); tauto.
Qed.

Lemma elem_of_foldl_union c (l : list (list string)) (acc : list string) :
  c ∈ foldl Pd.union_columns acc l ↔ c ∈ acc ∨ ∃ x, x ∈ l ∧ c ∈ x.
Proof.
  revert acc. induction l as [|x l IH]; intros acc; simpl.
  - split; [auto|]. intros [?|(x & Hx & _)]; [done|]. by apply elem_of_nil in Hx.
  - rewrite IH, elem_of_union_columns. split.
    + intros [[?|?]|(y & ? & ?)]; [by left| |].
      * right. exists x. split; [left|done].
      * right. exists y. split; [by right|done].
    + intros [?|(y & Hy & ?)]; [by left; left|].
      apply elem_of_cons in Hy as [->|?]; [by left; right|].
      right. by exists y.
Qed.

Lemma elem_of_concat_columns c (dfs : list DataFrame) :
  c ∈ columns (Pd.concat dfs) ↔ ∃ df, df ∈ dfs ∧ c ∈ columns df.
Proof.
  unfold Pd.concat. simpl. rewrite elem_of_foldl_union. split.
  - intros [H|(x & Hx & Hc)]; [by apply elem_of_nil in H|].
    apply list_elem_of_fmap in Hx as (df & -> & ?). by exists df.
  - intros (df & ? & ?). right. exists (columns df). split; [|done].
    apply list_elem_of_fmap. by exists df.
Qed.

Lemma select_sublist p df : sublist (rows (Pd.select p df)) (rows df).
Proof.
  cbn. induction (rows df) as [|x l IH]; cbn; [constructor|].
  destruct (p x); [by apply sublist_skip|by apply sublist_cons].
Qed.

Lemma elem_of_select p df x : x ∈ rows (Pd.select p df) ↔ x ∈ rows df ∧ p x = true.
Proof. cbn. by rewrite !list_elem_of_In, filter_In. Qed.

End Frames.

(** ** Dictionaries *)

Section Dict.

Context {V : Type}.
Implicit Types (d : dict V) (k : string) (v : V).

Lemma dict_get_set_eq k v d : dict_get k (dict_set k v d) = Some v.
Proof.
  induction d as [|[k' v'] d IH]; cbn [dict_set dict_get].
  - by rewrite decide_True.
  - destruct (decide (k' = k)); cbn [dict_get].
    + by rewrite decide_True.
    + by rewrite decide_False.
Qed.

Lemma dict_get_set_ne k k' v d : k ≠ k' → dict_get k' (dict_set k v d) = dict_get k' d.
Proof.
  intros Hne. induction d as [|[k0 v0] d IH]; cbn [dict_set dict_get].
  - by rewrite decide_False.
  - destruct (decide (k0 = k)) as [->|]; cbn [dict_get].
    + by rewrite !decide_False.
    + destruct (decide (k0 = k')); done.
Qed.

Lemma dict_set_set k v v' d : dict_set k v' (dict_set k v d) = dict_set k v' d.
Proof.
  induction d as [|[k0 v0] d IH]; cbn [dict_set].
  - by rewrite decide_True.
  - destruct (decide (k0 = k)); cbn [dict_set].
    + by rewrite decide_True.
    + rewrite decide_False by done. by f_equal.
Qed.

Lemma dict_set_id k v d : dict_get k d = Some v → dict_set k v d = d.
Proof.
  induction d as [|[k0 v0] d IH]; cbn [dict_set dict_get]; [done|].
  destruct (decide (k0 = k)) as [->|]; [by intros [= ->]|].
  intros. f_equal. auto.
Qed.

Lemma dict_mem_set k v d : dict_mem k (dict_set k v d) = true.
Proof.
  unfold dict_mem. apply bool_decide_eq_true.
  induction d as [|[k0 v0] d IH]; cbn [dict_set]; [left|].
  destruct (decide (k0 = k)); [left|by right].
Qed.

Lemma dict_mem_get k d : dict_mem k d = true ↔ is_Some (dict_get k d).
Proof.
  unfold dict_mem. rewrite bool_decide_eq_true.
  induction d as [|[k0 v0] d IH]; cbn [dict_get fmap list_fmap].
  - split; [by intros ?%elem_of_nil|by intros [? ?]].
  - cbn [fst]. rewrite elem_of_cons. destruct (decide (k0 = k)) as [->|].
    + split; eauto.
    + rewrite <- IH. split; [by intros [?|?]|auto].
Qed.

End Dict.

Lemma dict_get_fmap {A B} (f : A → B) k (d : dict A) :
  dict_get k (prod_map id f <$> d) = f <$> dict_get k d.
Proof.
  induction d as [|[k0 v0] d IH]; [done|]. cbn.
  destruct (decide (k0 = k)); done.
Qed.

(** ** The anchor row and the inserted rows *)

Section Anchor.

Implicit Types (l : list row) (r : row).

Lemma feature_indices_nil k l :
  feature_indices k l = [] ↔ ∀ r, r ∈ l → is_feature r = false.
Proof.
  revert k. induction l as [|r l IH]; intros k; simpl.
  - split; [|done]. intros _ r Hr. by apply elem_of_nil in Hr.
  - destruct (is_feature r) eqn:E.
    + split; [done|]. intros H. specialize (H r (list_elem_of_here _ _)). congruence.
    + rewrite IH. split.
      * intros H r' Hr'. apply elem_of_cons in Hr' as [->|?]; auto.
      * intros H r' Hr'. apply H. by right.
Qed.

Lemma feature_indices_cons k l i0 tl :
  feature_indices k l = i0 :: tl → ∃ n, i0 = k + n ∧ first_feature l n.
Proof.
  revert k. induction l as [|r l IH]; intros k; simpl; [done|].
  destruct (is_feature r) eqn:E.
  - intros [= <- _]. exists 0. split; [lia|]. split; [by exists r|]. intros; lia.
  - intros H. apply IH in H as (n & -> & (r' & Hr' & Hf) & Hlt).
    exists (S n). split; [lia|]. split; [by exists r'|].
    intros [|j] r'' Hj; simpl; [by intros [= <-]|].
    intros. eapply Hlt; [|done]. lia.
Qed.

Lemma feature_indices_first k l n :
  first_feature l n → ∃ tl, feature_indices k l = (k + n) :: tl.
Proof.
  revert k n. induction l as [|r l IH]; intros k n [(r' & Hr' & Hf) Hlt]; [done|].
  simpl. destruct n as [|n]; simpl in Hr'.
  - injection Hr' as ->. rewrite Hf. replace (k + 0) with k by lia. eauto.
  - rewrite (Hlt 0 r) by (done || lia).
    destruct (IH (S k) n) as [tl Htl].
    + split; [by exists r'|]. intros j r'' ? ?. apply (Hlt (S j)); [lia|done].
    + exists tl. rewrite Htl. f_equal. lia.
Qed.

Lemma first_feature_unique l n m : first_feature l n → first_feature l m → n = m.
Proof.
  intros [(r & Hr & Hf) Hn] [(r' & Hr' & Hf') Hm].
  destruct (Nat.lt_trichotomy n m) as [?|[?|?]]; [|done|].
  - rewrite (Hm n r) in Hf; done.
  - rewrite (Hn m r') in Hf'; done.
Qed.

(** The anchor stays where it is when rows are put in behind it. *)
Lemma first_feature_insert l n (new : list row) :
  first_feature l n → first_feature (take (S n) l ++ new ++ drop (S n) l) n.
Proof.
  intros [(r & Hr & Hf) Hlt].
  assert (n < length l) by (by eapply lookup_lt_Some).
  split.
  - exists r. split; [|done].
    rewrite lookup_app_l by (rewrite length_take; lia).
    rewrite lookup_take_lt by lia. done.
  - intros j r' Hj. rewrite lookup_app_l by (rewrite length_take; lia).
    rewrite lookup_take_lt by lia. by apply Hlt.
Qed.

End Anchor.

Lemma append_select_one_from_file_row_rows df entity_name n :
  NAME_COLUMN ∈ columns df →
  first_feature (rows df) n →
  ∃ df', append_select_one_from_file_row df entity_name = inr df' ∧
         rows df' = take (S n) (rows df) ++ entity_rows entity_name ++ drop (S n) (rows df) ∧
         (∀ c, c ∈ columns df → c ∈ columns df').
Proof.
  intros Hc Hn. unfold append_select_one_from_file_row.
  apply has_column_true in Hc as Hc'. rewrite Hc'. simpl.
  destruct (feature_indices_first 0 _ _ Hn) as [tl ->]. simpl.
  eexists. split; [done|]. split.
  - unfold Pd.concat, entity_rows. simpl. rewrite app_nil_r.
    by replace (n + 1) with (S n) by lia.
  - intros c Hin. apply elem_of_concat_columns. eexists. split; [left|]. done.
Qed.

(** The loop of the assembler puts every pair of rows directly behind the
    anchor, so the pairs end up in the reverse of the list order. *)
Lemma add_entities_rows names : ∀ (custom_sheets : dict sheet) df n σ,
  dict_get "survey" custom_sheets = Some (Own df) →
  NAME_COLUMN ∈ columns df →
  first_feature (rows df) n →
  ∃ df', add_entities names custom_sheets σ
           = (inr (dict_set "survey" (Own df') custom_sheets), σ) ∧
         rows df' = take (S n) (rows df)
                    ++ (reverse names ≫= entity_rows) ++ drop (S n) (rows df) ∧
         (∀ c, c ∈ columns df → c ∈ columns df').
Proof.
  induction names as [|e names IH]; intros d df n σ Hd Hc Hn.
  - exists df. simpl. split; [|split; [|done]].
    + unfold mret, M_ret. by rewrite dict_set_id.
    + by rewrite take_drop.
  - destruct (append_select_one_from_file_row_rows df e n Hc Hn) as (df1 & E1 & R1 & C1).
    assert (Hn1 : first_feature (rows df1) n).
    { rewrite R1. by apply first_feature_insert. }
    destruct (IH (dict_set "survey" (Own df1) d) df1 n σ) as (df' & E & R & C); auto.
    { apply dict_get_set_eq. }
    exists df'. split; [|split].
    + cbn [add_entities]. unfold mbind, M_bind, getitem. rewrite Hd.
      cbn [deref]. unfold mret, M_ret, lift. rewrite E1, E.
      by rewrite dict_set_set.
    + rewrite R, R1.
      assert (n < length (rows df)) by (destruct Hn as [(? & ? & _) _]; by eapply lookup_lt_Some).
      rewrite take_app_le by (rewrite length_take; lia).
      rewrite take_take. replace (S n `min` S n) with (S n) by lia.
      rewrite drop_app_ge by (rewrite length_take; lia).
      rewrite length_take. replace (S n - S n `min` length (rows df)) with 0 by lia.
      rewrite reverse_cons, bind_app, bind_singleton.
      by rewrite <- !app_assoc.
    + intros c ?. auto.
Qed.

(** ** Running the assembler *)

Section Run.

Implicit Types (σ : store) (d : dict sheet).

Lemma getitem_own k d df σ :
  dict_get k d = Some (Own df) → getitem k d σ = (inr df, σ).
Proof. unfold getitem. by intros ->. Qed.

Lemma mutate_own k f d df σ :
  dict_get k d = Some (Own df) → mutate k f d σ = (inr (dict_set k (Own (f df)) d), σ).
Proof. unfold mutate. by intros ->. Qed.

Lemma mutate_global k f d t σ :
  dict_get k d = Some (Global t) → mutate k f d σ = (inr d, store_set t (f (load σ t)) σ).
Proof. unfold mutate. by intros ->. Qed.

Lemma load_set_eq t df σ : load (store_set t df σ) t = df.
Proof. by destruct t. Qed.

Lemma load_set_ne t t' df σ : t' ≠ t → load (store_set t df σ) t' = load σ t'.
Proof. by destruct t, t'. Qed.

Lemma store_set_set t df df' σ : store_set t df' (store_set t df σ) = store_set t df' σ.
Proof. by destruct t. Qed.

Lemma to_excel_view d σ : to_excel d σ = (inr (view σ d), σ).
Proof.
  induction d as [|[k s] d IH]; [done|].
  cbn [to_excel]. unfold mbind, M_bind. destruct s as [df|t]; cbn [deref].
  - unfold mret, M_ret at 1. rewrite IH. done.
  - unfold read. rewrite IH. done.
Qed.

Lemma dict_get_view k d σ :
  dict_get k (view σ d)
  = (λ s, match s with Own df => df | Global t => load σ t end) <$> dict_get k d.
Proof. apply dict_get_fmap. Qed.

Lemma drop_duplicates_columns k1 k2 df df' c :
  Pd.drop_duplicates k1 k2 df = inr df' → c ∈ columns df' ↔ c ∈ columns df.
Proof.
  unfold Pd.drop_duplicates. repeat case_match; try done. by intros [= <-].
Qed.

Lemma drop_duplicates_ok k1 k2 df df' :
  Pd.drop_duplicates k1 k2 df = inr df' →
  k1 ∈ columns df ∧ k2 ∈ columns df ∧ columns df' = columns df ∧
  rows df' = Pd.drop_dups k1 k2 [] (rows df).
Proof.
  unfold Pd.drop_duplicates.
  destruct (Pd.has_column k1 df) eqn:E1; [|done].
  destruct (Pd.has_column k2 df) eqn:E2; [|done].
  intros [= <-]. by rewrite <- !has_column_true.
Qed.

Lemma apply_rows_total (f : row → exn + row) (g : row → row) (l : list row) :
  (∀ r, f r = inr (g r)) → apply_rows f l = inr (g <$> l).
Proof. intros H. induction l as [|r l IH]; [done|]. cbn. by rewrite H, IH. Qed.

Lemma normalize_with_meta_returns index r meta :
  TYPE_COLUMN ∈ columns meta → TYPE_COLUMN ∈ index →
  normalize_with_meta index r meta = inr (meta_substitute r meta).
Proof.
  intros Hm Hi. unfold normalize_with_meta, meta_substitute.
  change (Pd.has_column "type" meta) with (Pd.has_column TYPE_COLUMN meta).
  rewrite (proj2 (has_column_true _ _) Hm), (bool_decide_eq_true_2 _ Hi). cbn [negb].
  unfold Pd.empty. cbn [Pd.select rows columns].
  change (λ m : row, match m !! "type" with
                     | Some a => match r !! TYPE_COLUMN with
                                 | Some b => bool_decide (a = b)
                                 | None => false
                                 end
                     | None => false
                     end) with (same_type r).
  destruct (List.filter (same_type r) (rows meta)) as [|m0 tl]; [done|].
  destruct (columns meta); [by apply elem_of_nil in Hm|done].
Qed.

(** The substitution over a whole sheet: it fails on the first row when a
    [type] column is missing, and is [meta_substitute] row by row
    otherwise. *)
Lemma apply_normalize_with_meta_eq user meta :
  apply_normalize_with_meta user meta
  = if Pd.empty user then inr user
    else if negb (Pd.has_column TYPE_COLUMN meta) then inl (KeyError TYPE_COLUMN)
    else if negb (Pd.has_column TYPE_COLUMN user) then inl (KeyError TYPE_COLUMN)
    else inr {| columns := if existsb (λ r, negb (Pd.empty (Pd.select (same_type r) meta)))
                                      (rows user)
                           then Pd.union_columns (columns user) (columns meta)
                           else columns user;
                rows := (λ r, meta_substitute r meta) <$> rows user |}.
Proof.
  unfold apply_normalize_with_meta. destruct (Pd.empty user) eqn:He; [done|].
  destruct (Pd.has_column TYPE_COLUMN meta) eqn:Hm; cbn [negb].
  - destruct (Pd.has_column TYPE_COLUMN user) eqn:Hu; cbn [negb].
    + apply has_column_true in Hm, Hu.
      rewrite (apply_rows_total _ (λ r, meta_substitute r meta)); [done|].
      intros r. by apply normalize_with_meta_returns.
    + destruct (rows user) as [|r l] eqn:Hr; [by unfold Pd.empty in He; rewrite Hr in He|].
      cbn [apply_rows]. unfold normalize_with_meta.
      change (Pd.has_column "type" meta) with (Pd.has_column TYPE_COLUMN meta). rewrite Hm.
      cbn [negb]. apply has_column_false in Hu. by rewrite (bool_decide_eq_false_2 _ Hu).
  - destruct (rows user) as [|r l] eqn:Hr; [by unfold Pd.empty in He; rewrite Hr in He|].
    cbn [apply_rows]. unfold normalize_with_meta.
    change (Pd.has_column "type" meta) with (Pd.has_column TYPE_COLUMN meta). by rewrite Hm.
Qed.

(** Whatever the mode, a merge that returns has a [name] column. *)
Lemma merge_dataframes_name meta m u g merged :
  merge_dataframes meta m u g = inr merged → NAME_COLUMN ∈ columns merged.
Proof.
  unfold merge_dataframes.
  destruct (Pd.has_column "list_name" u).
  - intros H. apply drop_duplicates_ok in H as (_ & ? & -> & _). done.
  - destruct (apply_normalize_with_meta u meta) as [|u']; [done|].
    destruct (Pd.has_column NAME_COLUMN u'); [|done].
    destruct (Pd.has_column NAME_COLUMN m) eqn:Em; [|done].
    destruct (Pd.has_column NAME_COLUMN g); [|done].
    destruct (Pd.has_column "type" u'); [|done].
    intros [= <-]. apply elem_of_concat_columns. exists m.
    split; [left|by apply has_column_true].
Qed.

Lemma stamp_category_columns fc survey c :
  c ∈ columns survey → c ∈ columns (stamp_category fc survey).
Proof.
  unfold stamp_category. case_match; [|done]. cbn. case_decide; [done|].
  intros. apply elem_of_app. by left.
Qed.

Lemma stamp_category_length fc survey :
  length (rows (stamp_category fc survey)) = length (rows survey).
Proof. unfold stamp_category. case_match; [|done]. cbn. by rewrite length_fmap. Qed.

(** Stamping leaves every [name] cell as it is. *)
Lemma stamp_category_name fc survey i :
  (rows (stamp_category fc survey) !! i) ≫= (.!! NAME_COLUMN)
  = (rows survey !! i) ≫= (.!! NAME_COLUMN).
Proof.
  unfold stamp_category. case_match; [|done]. cbn. rewrite list_lookup_fmap.
  destruct (rows survey !! i) as [r|]; [|done]. cbn.
  case_match; [|done]. by rewrite lookup_insert_ne.
Qed.

Lemma stamp_category_first_feature fc survey n :
  first_feature (rows survey) n → first_feature (rows (stamp_category fc survey)) n.
Proof.
  assert (Hf : ∀ i r', rows (stamp_category fc survey) !! i = Some r' →
            ∃ r, rows survey !! i = Some r ∧ is_feature r' = is_feature r).
  { intros i r' Hr'. pose proof (stamp_category_name fc survey i) as Hn.
    rewrite Hr' in Hn. cbn in Hn.
    destruct (rows survey !! i) as [r|] eqn:Hr.
    - exists r. split; [done|]. unfold is_feature. cbn in Hn. by rewrite Hn.
    - apply lookup_ge_None in Hr. apply lookup_lt_Some in Hr'.
      rewrite stamp_category_length in Hr'. lia. }
  intros [(r & Hr & Hfr) Hlt]. split.
  - destruct (rows (stamp_category fc survey) !! n) as [r'|] eqn:Hr'.
    + exists r'. split; [done|]. destruct (Hf _ _ Hr') as (r0 & ? & ->). by simplify_eq.
    + apply lookup_ge_None in Hr'. apply lookup_lt_Some in Hr.
      rewrite stamp_category_length in Hr'. lia.
  - intros j r' Hj Hr'. destruct (Hf _ _ Hr') as (r0 & ? & ->). eauto.
Qed.

End Run.

Section Assemble.

Variables (e : env) (custom_form : dict DataFrame) (form_category : string).
Variables (additional_entities : option (list string)) (existing_id : option string).
Variables (σ : store).

Lemma append_mandatory_fields_no_survey :
  dict_get "survey" custom_form = None →
  append_mandatory_fields e custom_form form_category additional_entities existing_id σ
  = (inl (ValueError "Survey sheet is required in XLSForm!"), σ).
Proof.
  intros H. unfold append_mandatory_fields.
  destruct (dict_mem "survey" custom_form) eqn:E; [|done].
  apply dict_mem_get in E as [? ?]. congruence.
Qed.

(** The run of the assembler, step by step. *)
Lemma append_mandatory_fields_run user :
  dict_get "survey" custom_form = Some user →
  append_mandatory_fields e custom_form form_category additional_entities existing_id σ
  = match merge_dataframes (load σ meta_df) (load σ survey_df) (standardize_sheet user)
                           (load σ digitisation_df) with
    | inl err => (inl err, σ)
    | inr merged =>
        match merge_dataframes (load σ meta_df) (load σ choices_df)
                               (user_choices_of custom_form)
                               (load σ digitisation_choices_df) with
        | inl err => (inl err, σ)
        | inr choices =>
            assemble_tail e custom_form form_category additional_entities existing_id
                          σ merged choices
        end
    end.
Proof.
  intros Huser. unfold append_mandatory_fields.
  assert (Hmem : dict_mem "survey" custom_form = true).
  { apply dict_mem_get. by rewrite Huser. }
  rewrite Hmem. cbn [negb].
  set (d0 := prod_map id Own <$> standardize_xlsform_sheets custom_form).
  assert (Hd0 : ∀ k, dict_get k d0 = Own <$> (standardize_sheet <$> dict_get k custom_form)).
  { intros k. unfold d0, standardize_xlsform_sheets. by rewrite !dict_get_fmap. }
  unfold mbind at 1, M_bind at 1. unfold read at 1.
  unfold mbind at 1, M_bind at 1.
  rewrite (getitem_own _ _ (standardize_sheet user)) by (by rewrite Hd0, Huser).
  unfold mbind at 1, M_bind at 1. unfold read at 1.
  unfold mbind at 1, M_bind at 1. unfold read at 1.
  unfold mbind at 1, M_bind at 1. unfold lift at 1.
  destruct (merge_dataframes (load σ meta_df) (load σ survey_df) (standardize_sheet user)
              (load σ digitisation_df)) as [err|merged] eqn:Hmerged; [done|].
  unfold mbind at 1, M_bind at 1.
  rewrite (getitem_own _ _ merged) by apply dict_get_set_eq.
  assert (Hname : Pd.has_column "name" merged = true).
  { apply has_column_true. apply (merge_dataframes_name _ _ _ _ _ Hmerged). }
  rewrite Hname. cbn [negb].
  unfold mbind at 1, M_bind at 1.
  set (survey := stamp_category (singular form_category) merged).
  set (d1 := dict_set "survey" (Own survey) d0).
  assert (Hstamp :
    (if negb (Pd.empty (Pd.select is_form_category merged))
     then mutate "survey"
            (Pd.set_where is_form_category "calculation"
               (CStr ("once('" +:+ singular form_category +:+ "')")))
            (dict_set "survey" (Own merged) d0)
     else mret (dict_set "survey" (Own merged) d0)) σ
    = (inr d1, σ)).
  { unfold d1, survey, stamp_category.
    destruct (negb (Pd.empty (Pd.select is_form_category merged))).
    - rewrite (mutate_own _ _ _ merged) by apply dict_get_set_eq.
      by rewrite dict_set_set.
    - done. }
  rewrite Hstamp. clear Hstamp.
  set (d2 := if negb (dict_mem "choices" d1)
             then dict_set "choices" (Own empty_choices) d1 else d1).
  assert (Hd2 : dict_get "choices" d2 = Some (Own (user_choices_of custom_form))).
  { unfold d2, user_choices_of.
    destruct (dict_mem "choices" d1) eqn:E; cbn [negb].
    - apply dict_mem_get in E as [s Hs]. rewrite Hs.
      unfold d1 in Hs. rewrite dict_get_set_ne, Hd0 in Hs by done.
      destruct (dict_get "choices" custom_form); [|done]. by simplify_eq/=.
    - rewrite dict_get_set_eq.
      destruct (dict_get "choices" custom_form) eqn:E'; [|done].
      assert (dict_mem "choices" d1 = true); [|congruence].
      apply dict_mem_get. unfold d1. rewrite dict_get_set_ne, Hd0, E' by done. by eexists. }
  unfold mbind at 1, M_bind at 1. unfold read at 1.
  unfold mbind at 1, M_bind at 1.
  rewrite (getitem_own _ _ _ _ Hd2).
  unfold mbind at 1, M_bind at 1. unfold read at 1.
  unfold mbind at 1, M_bind at 1. unfold lift at 1.
  destruct (merge_dataframes (load σ meta_df) (load σ choices_df) (user_choices_of custom_form)
              (load σ digitisation_choices_df)) as [err|choices] eqn:Hchoices; [done|].
  assert (Hd2' : dict_set "choices" (Own choices) d2 = dict_set "choices" (Own choices) d1).
  { unfold d2. destruct (negb (dict_mem "choices" d1)); [|done]. apply dict_set_set. }
  rewrite Hd2'.
  change (dict_set "settings" (Global settings_df)
            (dict_set "entities" (Global entities_df)
               (dict_set "choices" (Own choices) d1)))
    with (final_sheets custom_form survey choices).
  set (sheets := final_sheets custom_form survey choices).
  assert (Hent : dict_mem "entities" sheets = true).
  { apply dict_mem_get. unfold sheets, final_sheets.
    rewrite dict_get_set_ne, dict_get_set_eq by done. by eexists. }
  assert (Hsetm : dict_mem "settings" sheets = true) by apply dict_mem_set.
  rewrite Hent, Hsetm. cbn [negb].
  assert (Hset : dict_get "settings" sheets = Some (Global settings_df)).
  { apply dict_get_set_eq. }
  unfold mbind at 1, M_bind at 1. rewrite (mutate_global _ _ _ _ _ Hset).
  unfold mbind at 1, M_bind at 1. rewrite (mutate_global _ _ _ _ _ Hset).
  unfold mbind at 1, M_bind at 1. rewrite (mutate_global _ _ _ _ _ Hset).
  rewrite !load_set_eq, !store_set_set.
  unfold assemble_tail. fold survey. fold sheets.
  unfold mbind at 1, M_bind at 1.
  destruct additional_entities as [[|n names]|].
  - unfold mret at 1, M_ret at 1. unfold mbind, M_bind.
    rewrite to_excel_view. reflexivity.
  - change (store_set settings_df _ σ)
      with (store_set settings_df
              (stamp_settings (now e) (xform_id_of e existing_id) (singular form_category)
                 (load σ settings_df)) σ).
    destruct (add_entities (n :: names) sheets _) as [[err|d] σ'']; [done|].
    unfold mbind, M_bind. rewrite to_excel_view. reflexivity.
  - unfold mret at 1, M_ret at 1. unfold mbind, M_bind.
    rewrite to_excel_view. reflexivity.
Qed.

(** A run that returns went through both merges. *)
Lemma append_mandatory_fields_returns r σ1 :
  append_mandatory_fields e custom_form form_category additional_entities existing_id σ
  = (inr r, σ1) →
  ∃ user merged choices,
    dict_get "survey" custom_form = Some user ∧
    merge_dataframes (load σ meta_df) (load σ survey_df) (standardize_sheet user)
                     (load σ digitisation_df) = inr merged ∧
    merge_dataframes (load σ meta_df) (load σ choices_df) (user_choices_of custom_form)
                     (load σ digitisation_choices_df) = inr choices ∧
    assemble_tail e custom_form form_category additional_entities existing_id σ merged choices
    = (inr r, σ1).
Proof.
  destruct (dict_get "survey" custom_form) as [user|] eqn:Huser.
  - rewrite (append_mandatory_fields_run user Huser).
    destruct (merge_dataframes _ _ (standardize_sheet user) _) as [|merged] eqn:E1; [done|].
    destruct (merge_dataframes _ _ (user_choices_of custom_form) _) as [|choices] eqn:E2; [done|].
    intros H. by exists user, merged, choices.
  - by rewrite append_mandatory_fields_no_survey.
Qed.

End Assemble.

(** ** The footprint of a computation *)

Section Footprint.

Context {A B : Type}.

Lemma frames_ret (a : A) : frames (mret a) (λ x, x = a).
Proof. intros σ. split; [done|]. by intros a' [= <-]. Qed.

Lemma frames_raise (err : exn) : frames (raise (A:=A) err) (λ _, True).
Proof. intros σ. by split. Qed.

Lemma frames_lift (r : exn + A) : frames (lift r) (λ a, r = inr a).
Proof. intros σ. split; [done|]. by intros a; cbn; intros ->. Qed.

Lemma frames_weaken (m : M A) (Q Q' : A → Prop) :
  frames m Q → (∀ a, Q a → Q' a) → frames m Q'.
Proof. intros H HQ σ. destruct (H σ). split; auto. Qed.

Lemma frames_bind (m : M A) (k : A → M B) (Q : A → Prop) (R : B → Prop) :
  frames m Q → (∀ a, Q a → frames (k a) R) → frames (m ≫= k) R.
Proof.
  intros Hm Hk σ. destruct (Hm σ) as [Hf HQ]. unfold mbind, M_bind.
  destruct (m σ) as [[err|a] σ1]; cbn in *; [by split|].
  destruct (Hk a (HQ a eq_refl) σ1) as [Hf' HR]. split; [|done].
  intros t Ht. by rewrite Hf', Hf.
Qed.

End Footprint.

Lemma frames_read t : frames (read t) (λ _, True).
Proof. intros σ. by split. Qed.

Lemma frames_deref s : frames (deref s) (λ _, True).
Proof. destruct s; intros σ; by split. Qed.

Lemma frames_getitem k d : frames (getitem k d) (λ _, True).
Proof. unfold getitem. destruct (dict_get k d); [apply frames_deref|apply frames_raise]. Qed.

Lemma frames_mutate_own k f d df :
  dict_get k d = Some (Own df) → frames (mutate k f d) (λ _, True).
Proof. intros H σ. rewrite (mutate_own _ _ _ _ _ H). by split. Qed.

Lemma frames_mutate_settings k f d :
  dict_get k d = Some (Global settings_df) → frames (mutate k f d) (λ d', d' = d).
Proof.
  intros H σ. rewrite (mutate_global _ _ _ _ _ H). split.
  - intros t Ht. by apply load_set_ne.
  - by intros a [= <-].
Qed.

Lemma frames_to_excel d : frames (to_excel d) (λ _, True).
Proof. intros σ. rewrite to_excel_view. by split. Qed.

Lemma frames_add_entities names : ∀ d, frames (add_entities names d) (λ _, True).
Proof.
  induction names as [|n names IH]; intros d; cbn [add_entities].
  - eapply frames_weaken; [apply frames_ret|done].
  - eapply frames_bind; [apply frames_getitem|intros survey _].
    eapply frames_bind; [apply frames_lift|intros survey' _]. apply IH.
Qed.

(** No template object but [settings_df] is written to, on any path. *)
Lemma frames_append_mandatory_fields e custom_form form_category additional_entities existing_id :
  frames (append_mandatory_fields e custom_form form_category additional_entities existing_id)
         (λ _, True).
Proof.
  unfold append_mandatory_fields.
  destruct (negb (dict_mem "survey" custom_form)); [apply frames_raise|].
  eapply frames_bind; [apply frames_read|intros mandatory _].
  eapply frames_bind; [apply frames_getitem|intros user _].
  eapply frames_bind; [apply frames_read|intros digitisation _].
  eapply frames_bind; [apply frames_read|intros meta _].
  eapply frames_bind; [apply frames_lift|intros survey _].
  eapply frames_bind; [apply frames_getitem|intros survey' _].
  destruct (negb (Pd.has_column "name" survey')); [apply frames_raise|].
  eapply frames_bind with (Q := λ _, True).
  { destruct (negb (Pd.empty (Pd.select is_form_category survey'))).
    - eapply frames_mutate_own. apply dict_get_set_eq.
    - eapply frames_weaken; [apply frames_ret|done]. }
  intros custom_sheets _.
  eapply frames_bind; [apply frames_read|intros mandatory' _].
  eapply frames_bind; [apply frames_getitem|intros user' _].
  eapply frames_bind; [apply frames_read|intros digitisation' _].
  eapply frames_bind; [apply frames_lift|intros choices _].
  match goal with |- context [dict_mem "entities" ?d] => set (sheets := d) end.
  assert (Hset : dict_get "settings" sheets = Some (Global settings_df))
    by apply dict_get_set_eq.
  destruct (negb (dict_mem "entities" sheets)); [apply frames_raise|].
  destruct (negb (dict_mem "settings" sheets)); [apply frames_raise|].
  eapply frames_bind; [by apply frames_mutate_settings|intros ? ->].
  eapply frames_bind; [by apply frames_mutate_settings|intros ? ->].
  eapply frames_bind; [by apply frames_mutate_settings|intros ? ->].
  eapply frames_bind with (Q := λ _, True).
  { destruct additional_entities as [[|n names]|].
    - eapply frames_weaken; [apply frames_ret|done].
    - apply frames_add_entities.
    - eapply frames_weaken; [apply frames_ret|done]. }
  intros custom_sheets' _.
  eapply frames_bind; [apply frames_to_excel|intros output _].
  eapply frames_weaken; [apply frames_ret|done].
Qed.

(** ** The end of a returning run *)

Lemma add_entities_cons_inv en names (d d' : dict sheet) df σ σ1 :
  dict_get "survey" d = Some (Own df) →
  add_entities (en :: names) d σ = (inr d', σ1) →
  NAME_COLUMN ∈ columns df ∧ ∃ n, first_feature (rows df) n.
Proof.
  intros Hd. cbn [add_entities]. unfold mbind at 1, M_bind at 1.
  rewrite (getitem_own _ _ _ _ Hd). unfold mbind at 1, M_bind at 1. unfold lift at 1.
  destruct (append_select_one_from_file_row df en) as [|df1] eqn:E; [done|].
  intros _. unfold append_select_one_from_file_row in E.
  destruct (Pd.has_column NAME_COLUMN df) eqn:Hc; [|done]. cbn [negb] in E.
  destruct (feature_indices 0 (rows df)) as [|i0 tl] eqn:Hf; [done|].
  split; [by apply has_column_true|].
  apply feature_indices_cons in Hf as (n & _ & ?). by exists n.
Qed.

Lemma stamp_category_rows fc merged :
  NAME_COLUMN ∈ columns merged →
  rows (stamp_category fc merged)
  = (λ r, if is_form_category r
          then <["calculation" := CStr ("once('" +:+ fc +:+ "')")]> r else r)
    <$> rows merged.
Proof.
  intros Hc. unfold stamp_category.
  destruct (Pd.empty (Pd.select is_form_category merged)) eqn:E; cbn [negb]; [|done].
  unfold Pd.empty in E. cbn [Pd.select rows columns] in E.
  destruct (List.filter is_form_category (rows merged)) as [|r0 l0] eqn:Hfil.
  - clear E. induction (rows merged) as [|r l IH]; [done|].
    cbn in Hfil. destruct (is_form_category r) eqn:Er; [done|].
    cbn [fmap list_fmap]. rewrite Er. f_equal. by apply IH.
  - destruct (columns merged); [by apply elem_of_nil in Hc|done].
Qed.

Section Tail.

Variables (e : env) (custom_form : dict DataFrame) (form_category : string).
Variables (existing_id : option string) (σ : store) (merged choices : DataFrame).

Lemma final_sheets_survey survey :
  dict_get "survey" (final_sheets custom_form survey choices) = Some (Own survey).
Proof.
  unfold final_sheets. rewrite !dict_get_set_ne by done. apply dict_get_set_eq.
Qed.

(** What a returning run leaves behind: the stamped settings object, and
    the sheets of the output. *)
Lemma assemble_tail_returns additional_entities r σ1 :
  assemble_tail e custom_form form_category additional_entities existing_id σ merged choices
  = (inr r, σ1) →
  let stamped := stamp_category (singular form_category) merged in
  σ1 = store_set settings_df
         (stamp_settings (now e) (xform_id_of e existing_id) (singular form_category)
            (load σ settings_df)) σ ∧
  r.1 = xform_id_of e existing_id ∧
  dict_get "settings" r.2 = Some (load σ1 settings_df) ∧
  dict_get "entities" r.2 = Some (load σ entities_df) ∧
  dict_get "choices" r.2 = Some choices ∧
  ∃ survey, dict_get "survey" r.2 = Some survey ∧
    match additional_entities with
    | Some ((_ :: _) as names) =>
        ∃ n, first_feature (rows stamped) n ∧
             rows survey = take (S n) (rows stamped)
                           ++ (reverse names ≫= entity_rows) ++ drop (S n) (rows stamped)
    | _ => survey = stamped
    end.
Proof.
  intros Hrun stamped. unfold assemble_tail in Hrun. fold stamped in Hrun.
  set (σ' := store_set settings_df _ σ) in *.
  set (sheets := final_sheets custom_form stamped choices) in *.
  assert (Hsheets : ∀ d df, (∀ k, k ≠ "survey" → dict_get k d = dict_get k sheets) →
            dict_get "survey" d = Some (Own df) →
            dict_get "settings" (view σ' d) = Some (load σ' settings_df) ∧
            dict_get "entities" (view σ' d) = Some (load σ entities_df) ∧
            dict_get "choices" (view σ' d) = Some choices ∧
            dict_get "survey" (view σ' d) = Some df).
  { intros d df Hd Hs. rewrite !dict_get_view, !Hd, Hs by done.
    unfold sheets, final_sheets.
    rewrite dict_get_set_eq.
    rewrite (dict_get_set_ne "settings" "entities"), dict_get_set_eq by done.
    rewrite (dict_get_set_ne "settings" "choices"),
      (dict_get_set_ne "entities" "choices"), dict_get_set_eq by done.
    cbn [fmap option_fmap option_map]. unfold σ'.
    by rewrite (load_set_ne settings_df entities_df). }
  assert (Hnone : (@inr exn _ (xform_id_of e existing_id, view σ' sheets), σ') = (inr r, σ1) →
            σ1 = σ' ∧ r.1 = xform_id_of e existing_id ∧
            dict_get "settings" r.2 = Some (load σ1 settings_df) ∧
            dict_get "entities" r.2 = Some (load σ entities_df) ∧
            dict_get "choices" r.2 = Some choices ∧
            ∃ survey, dict_get "survey" r.2 = Some survey ∧ survey = stamped).
  { intros [= <- <-]. cbn [fst snd].
    destruct (Hsheets sheets stamped) as (? & ? & ? & ?); [done|apply final_sheets_survey|].
    repeat split; try done. by exists stamped. }
  destruct additional_entities as [[|en names]|]; [by apply Hnone| |by apply Hnone].
  destruct (add_entities (en :: names) sheets σ') as [[err|d] σ''] eqn:Hadd; [done|].
  injection Hrun as <- <-.
  destruct (add_entities_cons_inv _ _ _ _ _ _ _ (final_sheets_survey stamped) Hadd)
    as (Hc & n & Hn).
  destruct (add_entities_rows (en :: names) sheets stamped n σ'
              (final_sheets_survey stamped) Hc Hn) as (df' & Hadd' & Hrows & _).
  rewrite Hadd in Hadd'. injection Hadd' as -> ->. cbn [fst snd].
  destruct (Hsheets (dict_set "survey" (Own df') sheets) df') as (? & ? & ? & ?).
  { intros k Hk. by rewrite dict_get_set_ne. }
  { apply dict_get_set_eq. }
  repeat split; try done. exists df'. split; [done|]. by exists n.
Qed.

End Tail.

(** ** Claims about the assembler *)

Lemma singular_plural base : singular (base +:+ "s") = base.
Proof.
  unfold singular.
  assert (Hne : ∀ s, s +:+ "s" ≠ "") by (by intros [|? ?]).
  assert (H : PyStr.endswith_s (base +:+ "s") = true ∧ PyStr.drop_last (base +:+ "s") = base).
  { induction base as [|a b [IH1 IH2]]; [done|].
    change (String a b +:+ "s") with (String a (b +:+ "s")). specialize (Hne b).
    destruct (b +:+ "s") as [|a' t] eqn:E; [done|]. split.
    - exact IH1.
    - change (String a (PyStr.drop_last (String a' t)) = String a b). by rewrite IH2. }
  destruct H as [-> ->]. done.
Qed.

Lemma elem_of_take_drop {A} (l : list A) n x : x ∈ take n l ∨ x ∈ drop n l ↔ x ∈ l.
Proof. by rewrite <- elem_of_app, take_drop. Qed.

(** C9 (amended).  An invocation of the assembler, returning or raising,
    leaves the mandatory survey, mandatory choices, digitisation, metadata
    and entities templates as they were.  The settings sheet of the form is
    the shared [settings_df] object itself: a returning invocation has
    written [version], [form_id] and [form_title] into it, and the sheet it
    outputs is that stamped object. *)
Theorem assembly_writes_only_settings e custom_form form_category additional_entities
    existing_id σ :
  let run := append_mandatory_fields e custom_form form_category additional_entities
               existing_id σ in
  (∀ t, t ≠ settings_df → load run.2 t = load σ t) ∧
  (∀ r, run.1 = inr r →
     load run.2 settings_df
     = stamp_settings (now e) r.1 (singular form_category) (load σ settings_df) ∧
     dict_get "settings" r.2 = Some (load run.2 settings_df)).
Proof.
  intros run. split.
  - intros t Ht.
    by apply (frames_append_mandatory_fields e custom_form form_category
                additional_entities existing_id σ).
  - intros r Hr. subst run.
    destruct (append_mandatory_fields _ _ _ _ _ σ) as [res σ1] eqn:Hrun.
    cbn [fst snd] in *. subst res.
    apply append_mandatory_fields_returns in Hrun as (user & merged & choices & _ & Hm & _ & Ht).
    destruct (assemble_tail_returns _ _ _ _ _ _ _ _ _ _ Ht) as (-> & -> & Hs & _).
    split; [by rewrite load_set_eq|done].
Qed.

Lemma assembly_writes_only_settings_witness :
  (survey_df ≠ settings_df ∧ (SampleRun.run None).1 = inr SampleRun.plain) ∧
  load (SampleRun.run None).2 survey_df = load Sample.templates survey_df ∧
  load (SampleRun.run None).2 settings_df
  = stamp_settings "2024-01-01 00:00:00" "uuid-1" "building" Sample.settings.
Proof.
  pose proof (assembly_writes_only_settings Sample.e Sample.form "buildings" None None
                Sample.templates) as [H1 H2].
  assert (Hr : (SampleRun.run None).1 = inr SampleRun.plain) by (vm_compute; reflexivity).
  split; [split; [discriminate|exact Hr]|].
  split; [apply H1; discriminate|].
  exact (proj1 (H2 SampleRun.plain Hr)).
Defined.

(** C9, as stated, fails: after the sample assembly the shared settings
    template is no longer what it was before. *)
Lemma settings_template_is_overwritten :
  ¬ (∀ t, load (SampleRun.run None).2 t = load Sample.templates t).
Proof.
  intros H. specialize (H settings_df).
  apply (f_equal (λ df, (rows df !! 0) ≫= (.!! "form_title"))) in H.
  vm_compute in H. discriminate H.
Qed.

(** C10.  When [form_category] ends in "s" and the assembler returns, every
    [form_category] row of the merged survey sheet is in the output with
    its [calculation] set to [once('<category without the s>')]; every row
    of the output survey sheet named [form_category] carries that
    calculation, unless it is a row inserted for an additional entity of
    that name.  The settings sheet of the output has a [form_title]
    column and the rows of the settings template, one for one, each with
    the category without the "s" as its [form_title] and with the cells of
    the template row in the columns that are not stamped. *)
Theorem form_category_is_singularised e custom_form base additional_entities existing_id σ r :
  (append_mandatory_fields e custom_form (base +:+ "s") additional_entities existing_id σ).1
  = inr r →
  ∃ user merged survey settings,
    dict_get "survey" custom_form = Some user ∧
    merge_dataframes (load σ meta_df) (load σ survey_df) (standardize_sheet user)
                     (load σ digitisation_df) = inr merged ∧
    dict_get "survey" r.2 = Some survey ∧
    dict_get "settings" r.2 = Some settings ∧
    (∀ x, x ∈ rows merged → is_form_category x = true →
          <["calculation" := CStr ("once('" +:+ base +:+ "')")]> x ∈ rows survey) ∧
    (∀ x, x ∈ rows survey → is_form_category x = true →
          x !! "calculation" = Some (CStr ("once('" +:+ base +:+ "')")) ∨
          ∃ names en, additional_entities = Some names ∧ en ∈ names ∧ x ∈ entity_rows en) ∧
    "form_title" ∈ columns settings ∧
    length (rows settings) = length (rows (load σ settings_df)) ∧
    (∀ i x0, rows (load σ settings_df) !! i = Some x0 →
       ∃ x, rows settings !! i = Some x ∧
            x !! "form_title" = Some (CStr base) ∧
            ∀ c, c ∉ ["version"; "form_id"; "form_title"] → x !! c = x0 !! c) ∧
    (∀ x, x ∈ rows settings → x !! "form_title" = Some (CStr base)).
Proof.
  destruct (append_mandatory_fields _ _ _ _ _ σ) as [res σ1] eqn:Hrun.
  cbn [fst]. intros ->.
  apply append_mandatory_fields_returns in Hrun as (user & merged & choices & Hu & Hm & _ & Ht).
  pose proof (merge_dataframes_name _ _ _ _ _ Hm) as Hn.
  destruct (assemble_tail_returns _ _ _ _ _ _ _ _ _ _ Ht)
    as (-> & _ & Hs & _ & _ & survey & Hsv & Hrows).
  rewrite singular_plural in *. rewrite load_set_eq in Hs.
  set (once := CStr ("once('" +:+ base +:+ "')")) in *.
  set (stamped := stamp_category base merged) in *.
  assert (Hst : ∀ x, x ∈ rows stamped ↔
            ∃ x0, x0 ∈ rows merged ∧
                  x = if is_form_category x0 then <["calculation" := once]> x0 else x0).
  { intros x. unfold stamped. rewrite stamp_category_rows by done.
    rewrite list_elem_of_fmap. split; intros (y & ? & ?); by exists y. }
  assert (Hin : ∀ x, x ∈ rows stamped → x ∈ rows survey).
  { intros x Hx. destruct additional_entities as [[|en names]|]; [by subst| |by subst].
    destruct Hrows as (n & _ & ->). apply (proj2 (elem_of_take_drop _ (S n) _)) in Hx.
    rewrite !elem_of_app. tauto. }
  eexists user, merged, survey, _.
  split; [done|]. split; [done|]. split; [done|]. split; [exact Hs|].
  split; [|split; [|split; [|split; [|split]]]].
  - intros x Hx Hfc. apply Hin, Hst. exists x. by rewrite Hfc.
  - assert (Hold : ∀ x, x ∈ rows stamped → is_form_category x = true →
              x !! "calculation" = Some once).
    { intros x (x0 & _ & ->)%Hst. destruct (is_form_category x0) eqn:E.
      - intros _. apply lookup_insert_eq.
      - congruence. }
    intros x Hx Hfc. destruct additional_entities as [[|en names]|].
    + left. subst survey. auto.
    + destruct Hrows as (n & _ & Hrows). rewrite Hrows in Hx.
      rewrite !elem_of_app in Hx. destruct Hx as [Hx|[Hx|Hx]].
      * left. apply Hold; [|done]. apply (proj1 (elem_of_take_drop _ (S n) _)). by left.
      * right. apply list_elem_of_bind in Hx as (en' & Hx & Hen).
        exists (en :: names), en'. split; [done|]. split; [|done].
        by apply elem_of_reverse.
      * left. apply Hold; [|done]. apply (proj1 (elem_of_take_drop _ (S n) _)). by right.
    + left. subst survey. auto.
  - unfold stamp_settings. cbn [Pd.set_column columns].
    case_decide; [done|]. apply elem_of_app. right. by left.
  - unfold stamp_settings. cbn [Pd.set_column rows]. by rewrite !length_fmap.
  - intros i x0 Hx0. unfold stamp_settings. cbn [Pd.set_column rows].
    rewrite !list_lookup_fmap, Hx0. cbn [fmap option_fmap option_map]. eexists.
    split; [done|]. split; [apply lookup_insert_eq|].
    intros c Hc. rewrite !lookup_insert_ne; [done|..]; intros <-; apply Hc; set_solver.
  - intros x Hx. unfold stamp_settings in Hx. cbn [Pd.set_column rows] in Hx.
    apply list_elem_of_fmap in Hx as (x0 & -> & _). apply lookup_insert_eq.
Qed.

Lemma form_category_is_singularised_witness :
  (append_mandatory_fields Sample.e Sample.form ("building" +:+ "s") None None
     Sample.templates).1 = inr SampleRun.plain ∧
  ∃ user merged survey settings,
    dict_get "survey" Sample.form = Some user ∧
    merge_dataframes (load Sample.templates meta_df) (load Sample.templates survey_df)
      (standardize_sheet user) (load Sample.templates digitisation_df) = inr merged ∧
    dict_get "survey" SampleRun.plain.2 = Some survey ∧
    dict_get "settings" SampleRun.plain.2 = Some settings ∧
    (∀ x, x ∈ rows merged → is_form_category x = true →
          <["calculation" := CStr ("once('" +:+ "building" +:+ "')")]> x ∈ rows survey) ∧
    (∀ x, x ∈ rows survey → is_form_category x = true →
          x !! "calculation" = Some (CStr ("once('" +:+ "building" +:+ "')")) ∨
          ∃ (names : list string) en, None = Some names ∧ en ∈ names ∧ x ∈ entity_rows en) ∧
    "form_title" ∈ columns settings ∧
    length (rows settings) = length (rows (load Sample.templates settings_df)) ∧
    (∀ i x0, rows (load Sample.templates settings_df) !! i = Some x0 →
       ∃ x, rows settings !! i = Some x ∧
            x !! "form_title" = Some (CStr "building") ∧
            ∀ c, c ∉ ["version"; "form_id"; "form_title"] → x !! c = x0 !! c) ∧
    (∀ x, x ∈ rows settings → x !! "form_title" = Some (CStr "building")).
Proof.
  assert (Hr : (append_mandatory_fields Sample.e Sample.form ("building" +:+ "s") None None
                  Sample.templates).1 = inr SampleRun.plain) by (vm_compute; reflexivity).
  split; [exact Hr|].
  exact (form_category_is_singularised Sample.e Sample.form "building" None None
           Sample.templates SampleRun.plain Hr).
Defined.

(** The sample output has a [form_category] row, and its calculation is
    the literal [once('building')]. *)
Example sample_form_category_row :
  (λ survey, (λ x, (x !! "name", x !! "calculation")) <$> List.filter is_form_category (rows survey))
    <$> dict_get "survey" SampleRun.plain.2
  = Some [(Some (CStr "form_category"), Some (CStr "once('building')"))].
Proof. vm_compute. reflexivity. Qed.

(** Its settings sheet has the one row of the template, with the title
    [building]. *)
Example sample_form_title :
  (λ settings, (λ x : row, x !! "form_title") <$> rows settings)
    <$> dict_get "settings" SampleRun.plain.2
  = Some [Some (CStr "building")].
Proof. vm_compute. reflexivity. Qed.

(** ** The rows inserted for additional entities *)

Lemma entity_rows_cells entity_name :
  (λ x : row, (x !! "type", x !! "name")) <$> entity_rows entity_name
  = [(Some (CStr ("select_one_from_file " +:+ entity_name +:+ ".csv")),
      Some (CStr entity_name));
     (Some (CStr "calculate"), Some (CStr "additional_geometry"))].
Proof. reflexivity. Qed.

Lemma entity_rows_length (names : list string) :
  length (names ≫= entity_rows) = 2 * length names.
Proof.
  induction names as [|en names IH]; [done|].
  rewrite bind_cons, length_app, IH. cbn. lia.
Qed.

Lemma column_names_of (n : cell) df df' :
  n ∈ names_of df ++ names_of df'
  ↔ Some n ∈ Pd.column NAME_COLUMN df ++ Pd.column NAME_COLUMN df'.
Proof.
  assert (H : ∀ d, n ∈ names_of d ↔ Some n ∈ Pd.column NAME_COLUMN d).
  { intros d. unfold names_of, Pd.column. rewrite list_elem_of_omap, list_elem_of_fmap.
    split; intros (r & ? & ?); by exists r. }
  by rewrite !elem_of_app, !H.
Qed.

(** The survey merge itself does drop the user rows that repeat a template
    name: the merged rows are the mandatory rows, the begin-group row, the
    user rows that are kept, the end-group row and the supplementary rows,
    and a kept user row that is no end-group row has no name of a
    mandatory or supplementary row. *)
Lemma survey_merge_rows meta mandatory user digitisation merged :
  Pd.has_column "list_name" user = false →
  merge_dataframes meta mandatory user digitisation = inr merged →
  ∃ user' kept,
    apply_normalize_with_meta user meta = inr user' ∧
    sublist kept (rows user') ∧
    rows merged = rows mandatory ++ rows (begin_group SURVEY_GROUP_NAME) ++ kept
                  ++ rows end_group ++ rows digitisation ∧
    ∀ x n, x ∈ kept → x !! NAME_COLUMN = Some n →
           Pd.isin (x !! "type") [CStr "end group"; CStr "end_group"] = true ∨
           n ∉ names_of mandatory ++ names_of digitisation.
Proof.
  intros Hl. unfold merge_dataframes. rewrite Hl.
  destruct (apply_normalize_with_meta user meta) as [|user'] eqn:E; [done|].
  destruct (Pd.has_column NAME_COLUMN user'); [|done].
  destruct (Pd.has_column NAME_COLUMN mandatory); [|done].
  destruct (Pd.has_column NAME_COLUMN digitisation); [|done].
  destruct (Pd.has_column "type" user'); [|done].
  cbn [negb]. intros [= <-].
  match goal with |- context [Pd.select ?p user'] => set (kept := Pd.select p user') end.
  exists user', (rows kept). split; [done|]. split; [apply select_sublist|]. split.
  - transitivity (rows mandatory ++ rows (begin_group SURVEY_GROUP_NAME) ++ rows kept
                  ++ rows end_group ++ rows digitisation ++ []); [reflexivity|].
    by rewrite app_nil_r.
  - intros x n [Hx Hp]%elem_of_select Hn.
    destruct (Pd.isin (x !! "type") _); [by left|right].
    rewrite orb_false_r in Hp. apply negb_true_iff in Hp.
    intros Hin. apply bool_decide_eq_false in Hp. apply Hp.
    apply list_elem_of_In, filter_In. split.
    + apply list_elem_of_In, list_elem_of_fmap. by exists x.
    + apply bool_decide_eq_true. rewrite Hn. by rewrite <- !column_names_of.
Qed.

(** C1.  The output survey sheet does not keep names unique: with two or
    more additional entities, every entity brings a [calculate] row named
    [additional_geometry], so the output of every returning run has two
    rows of that name. *)
Theorem additional_geometry_repeats e custom_form form_category e1 e2 rest existing_id σ r :
  (append_mandatory_fields e custom_form form_category (Some (e1 :: e2 :: rest))
     existing_id σ).1 = inr r →
  ∃ survey i j x y,
    dict_get "survey" r.2 = Some survey ∧ i ≠ j ∧
    rows survey !! i = Some x ∧ rows survey !! j = Some y ∧
    x !! NAME_COLUMN = Some (CStr "additional_geometry") ∧
    y !! NAME_COLUMN = Some (CStr "additional_geometry") ∧
    x !! "type" = Some (CStr "calculate") ∧ y !! "type" = Some (CStr "calculate").
Proof.
  destruct (append_mandatory_fields _ _ _ _ _ σ) as [res σ1] eqn:Hrun.
  cbn [fst]. intros ->.
  apply append_mandatory_fields_returns in Hrun as (user & merged & choices & _ & _ & _ & Ht).
  destruct (assemble_tail_returns _ _ _ _ _ _ _ _ _ _ Ht)
    as (_ & _ & _ & _ & _ & survey & Hsv & n & _ & Hrows).
  rewrite !reverse_cons, !bind_app, !bind_singleton in Hrows.
  set (stamped := stamp_category _ merged) in *.
  set (before := take (S n) (rows stamped) ++ (reverse rest ≫= entity_rows)) in *.
  destruct (rows (additional_row e2)) as [|a2 [|]] eqn:Ea2; try discriminate Ea2.
  destruct (rows (coordinates_row e2)) as [|c2 [|]] eqn:Ec2; try discriminate Ec2.
  destruct (rows (additional_row e1)) as [|a1 [|]] eqn:Ea1; try discriminate Ea1.
  destruct (rows (coordinates_row e1)) as [|c1 [|]] eqn:Ec1; try discriminate Ec1.
  assert (Hrows' : rows survey
            = (before ++ [a2]) ++ c2 :: ([a1] ++ c1 :: drop (S n) (rows stamped))).
  { rewrite Hrows. unfold entity_rows, before. rewrite Ea2, Ec2, Ea1, Ec1.
    by rewrite <- !app_assoc. }
  exists survey, (length (before ++ [a2])),
    (length ((before ++ [a2]) ++ c2 :: [a1])), c2, c1.
  split; [done|]. split; [rewrite !length_app; cbn; lia|].
  split; [rewrite Hrows'; by apply list_lookup_middle|].
  split.
  { rewrite Hrows'.
    replace ((before ++ [a2]) ++ c2 :: [a1] ++ c1 :: drop (S n) (rows stamped))
      with (((before ++ [a2]) ++ c2 :: [a1]) ++ c1 :: drop (S n) (rows stamped))
      by (by rewrite <- !app_assoc).
    by apply list_lookup_middle. }
  injection Ec2 as <-. injection Ec1 as <-. repeat split; reflexivity.
Qed.

Lemma additional_geometry_repeats_witness :
  (append_mandatory_fields Sample.e Sample.form "buildings" (Some ("roads" :: "waterpoints" :: []))
     None Sample.templates).1 = inr SampleRun.with_entities ∧
  ∃ survey i j x y,
    dict_get "survey" SampleRun.with_entities.2 = Some survey ∧ i ≠ j ∧
    rows survey !! i = Some x ∧ rows survey !! j = Some y ∧
    x !! NAME_COLUMN = Some (CStr "additional_geometry") ∧
    y !! NAME_COLUMN = Some (CStr "additional_geometry") ∧
    x !! "type" = Some (CStr "calculate") ∧ y !! "type" = Some (CStr "calculate").
Proof.
  assert (Hr : (append_mandatory_fields Sample.e Sample.form "buildings"
                  (Some ("roads" :: "waterpoints" :: [])) None Sample.templates).1
               = inr SampleRun.with_entities) by (vm_compute; reflexivity).
  split; [exact Hr|].
  exact (additional_geometry_repeats Sample.e Sample.form "buildings" "roads" "waterpoints" []
           None Sample.templates SampleRun.with_entities Hr).
Defined.

(** The names of the sample output with the two entities, in row order. *)
Example sample_names_with_entities :
  names_of <$> dict_get "survey" SampleRun.with_entities.2
  = Some [CStr "start"; CStr "end"; CStr "feature";
          CStr "waterpoints"; CStr "additional_geometry";
          CStr "roads"; CStr "additional_geometry";
          CStr "form_category"; CStr "survey_questions"; CStr "comment";
          CStr "digitisation_problem"].
Proof. vm_compute. reflexivity. Qed.

(** C3.  Compared with the run without additional entities, a returning
    run with the entity names [names] has two more survey rows per name,
    and the rows it adds are, for every name, the question row and the
    calculation row of that name as given: the name is not singularised. *)
Theorem entity_rows_keep_the_given_name e custom_form form_category names existing_id σ
    r0 r survey0 :
  names ≠ [] →
  (append_mandatory_fields e custom_form form_category None existing_id σ).1 = inr r0 →
  dict_get "survey" r0.2 = Some survey0 →
  (append_mandatory_fields e custom_form form_category (Some names) existing_id σ).1 = inr r →
  ∃ survey,
    dict_get "survey" r.2 = Some survey ∧
    length (rows survey) = length (rows survey0) + 2 * length names ∧
    (∀ x, x ∈ rows survey ↔ x ∈ rows survey0 ∨ ∃ en, en ∈ names ∧ x ∈ entity_rows en) ∧
    (∀ en, en ∈ names →
       ∃ x, x ∈ rows survey ∧ x !! NAME_COLUMN = Some (CStr en) ∧
            x !! "type" = Some (CStr ("select_one_from_file " +:+ en +:+ ".csv"))).
Proof.
  intros Hne.
  destruct (append_mandatory_fields _ _ _ None _ σ) as [res0 σ0] eqn:Hrun0.
  destruct (append_mandatory_fields _ _ _ (Some names) _ σ) as [res σ1] eqn:Hrun.
  cbn [fst]. intros -> Hs0 ->.
  apply append_mandatory_fields_returns in Hrun0
    as (user0 & merged0 & choices0 & Hu0 & Hm0 & _ & Ht0).
  apply append_mandatory_fields_returns in Hrun as (user & merged & choices & Hu & Hm & _ & Ht).
  rewrite Hu0 in Hu. injection Hu as <-. rewrite Hm0 in Hm. injection Hm as <-.
  destruct (assemble_tail_returns _ _ _ _ _ _ _ _ _ _ Ht0)
    as (_ & _ & _ & _ & _ & s0 & Hs0' & ->).
  rewrite Hs0 in Hs0'. injection Hs0' as ->.
  destruct (assemble_tail_returns _ _ _ _ _ _ _ _ _ _ Ht)
    as (_ & _ & _ & _ & _ & survey & Hsv & Hrows).
  destruct names as [|en0 names0]; [done|]. destruct Hrows as (n & Hn & Hrows).
  set (stamped := stamp_category _ merged0) in *.
  assert (Hmem : ∀ x, x ∈ rows survey ↔
            x ∈ rows stamped ∨ ∃ en, en ∈ en0 :: names0 ∧ x ∈ entity_rows en).
  { intros x. rewrite Hrows, !elem_of_app, list_elem_of_bind.
    rewrite <- (elem_of_take_drop (rows stamped) (S n) x).
    setoid_rewrite elem_of_reverse. split; [intros [?|[(y & ? & ?)|?]]|intros [[?|?]|(y & ? & ?)]]; eauto 6. }
  exists survey. split; [done|]. split; [|split; [done|]].
  - rewrite Hrows, !length_app, entity_rows_length, length_reverse.
    rewrite <- (take_drop (S n) (rows stamped)) at 3. rewrite length_app. lia.
  - intros en Hen.
    destruct (rows (additional_row en)) as [|a [|]] eqn:Ea; try discriminate Ea.
    exists a. split; [|injection Ea as <-; split; reflexivity].
    apply Hmem. right. exists en. split; [done|]. unfold entity_rows. rewrite Ea. left.
Qed.

Lemma entity_rows_keep_the_given_name_witness :
  ((["roads"; "waterpoints"] : list string) ≠ [] ∧
   (append_mandatory_fields Sample.e Sample.form "buildings" None None
      Sample.templates).1 = inr SampleRun.plain ∧
   dict_get "survey" SampleRun.plain.2 = Some SampleRun.plain_survey ∧
   (append_mandatory_fields Sample.e Sample.form "buildings" (Some ["roads"; "waterpoints"])
      None Sample.templates).1 = inr SampleRun.with_entities) ∧
  ∃ survey,
    dict_get "survey" SampleRun.with_entities.2 = Some survey ∧
    length (rows survey) = length (rows SampleRun.plain_survey) + 2 * 2 ∧
    (∀ x, x ∈ rows survey ↔
          x ∈ rows SampleRun.plain_survey ∨
          ∃ en, en ∈ ["roads"; "waterpoints"] ∧ x ∈ entity_rows en) ∧
    (∀ en, en ∈ ["roads"; "waterpoints"] →
       ∃ x, x ∈ rows survey ∧ x !! NAME_COLUMN = Some (CStr en) ∧
            x !! "type" = Some (CStr ("select_one_from_file " +:+ en +:+ ".csv"))).
Proof.
  assert (H1 : (["roads"; "waterpoints"] : list string) ≠ []) by discriminate.
  assert (H2 : (append_mandatory_fields Sample.e Sample.form "buildings" None None
                  Sample.templates).1 = inr SampleRun.plain) by (vm_compute; reflexivity).
  assert (H3 : dict_get "survey" SampleRun.plain.2 = Some SampleRun.plain_survey)
    by (vm_compute; reflexivity).
  assert (H4 : (append_mandatory_fields Sample.e Sample.form "buildings"
                  (Some ["roads"; "waterpoints"]) None Sample.templates).1
               = inr SampleRun.with_entities) by (vm_compute; reflexivity).
  split; [exact (conj H1 (conj H2 (conj H3 H4)))|].
  exact (entity_rows_keep_the_given_name Sample.e Sample.form "buildings"
           ["roads"; "waterpoints"] None Sample.templates
           SampleRun.plain SampleRun.with_entities SampleRun.plain_survey H1 H2 H3 H4).
Defined.

(** At the input of the program's own test, [additional_entities =
    ["roads", "waterpoints"]], the survey sheet gains four rows; the names
    in it are [roads] and [waterpoints], and neither [road] nor
    [waterpoint] is among them. *)
Example sample_entities_are_not_singularised :
  let names := names_of (SampleRun.sheet_of "survey" SampleRun.with_entities) in
  length (rows (SampleRun.sheet_of "survey" SampleRun.with_entities))
  = length (rows SampleRun.plain_survey) + 4 ∧
  CStr "roads" ∈ names ∧ CStr "waterpoints" ∈ names ∧
  CStr "road" ∉ names ∧ CStr "waterpoint" ∉ names.
Proof.
  cbv zeta. split; [vm_compute; reflexivity|].
  repeat split; apply (bool_decide_unpack _); vm_compute; exact I.
Qed.

(** ** Claims about the structural row inserter *)

Lemma feature_indices_head l n tl :
  feature_indices 0 l = n :: tl → first_feature l n.
Proof. intros H. by apply feature_indices_cons in H as (? & -> & ?). Qed.

(** C4 (amended).  Every pass of the loop finds the anchor again and puts
    its two rows directly behind it, in front of the rows of the passes
    before: behind the anchor the pairs stand in the reverse of the list
    order, the rows of the last entity first. *)
Theorem entity_rows_accumulate_in_reverse names (custom_sheets : dict sheet) df n tl σ :
  dict_get "survey" custom_sheets = Some (Own df) →
  NAME_COLUMN ∈ columns df →
  feature_indices 0 (rows df) = n :: tl →
  ∃ df', add_entities names custom_sheets σ
           = (inr (dict_set "survey" (Own df') custom_sheets), σ) ∧
         rows df' = take (S n) (rows df)
                    ++ (reverse names ≫= entity_rows) ++ drop (S n) (rows df).
Proof.
  intros Hd Hc Hn. apply feature_indices_head in Hn.
  destruct (add_entities_rows names custom_sheets df n σ Hd Hc Hn) as (df' & ? & ? & _).
  by exists df'.
Qed.

Lemma entity_rows_accumulate_in_reverse_witness :
  (dict_get "survey" [("survey", Own Sample.survey)] = Some (Own Sample.survey) ∧
   NAME_COLUMN ∈ columns Sample.survey ∧
   feature_indices 0 (rows Sample.survey) = 2 :: []) ∧
  ∃ df', add_entities ["road"; "waterpoint"] [("survey", Own Sample.survey)] Sample.templates
           = (inr (dict_set "survey" (Own df') [("survey", Own Sample.survey)]),
              Sample.templates) ∧
         rows df' = take 3 (rows Sample.survey)
                    ++ (reverse ["road"; "waterpoint"] ≫= entity_rows)
                    ++ drop 3 (rows Sample.survey).
Proof.
  assert (H1 : dict_get "survey" [("survey", Own Sample.survey)] = Some (Own Sample.survey))
    by reflexivity.
  assert (H2 : NAME_COLUMN ∈ columns Sample.survey)
    by (apply (bool_decide_unpack _); vm_compute; exact I).
  assert (H3 : feature_indices 0 (rows Sample.survey) = 2 :: [])
    by (vm_compute; reflexivity).
  split; [exact (conj H1 (conj H2 H3))|].
  exact (entity_rows_accumulate_in_reverse ["road"; "waterpoint"]
           [("survey", Own Sample.survey)] Sample.survey 2 [] Sample.templates H1 H2 H3).
Defined.

(** C4, as stated, fails: after the insertions for ["road"; "waterpoint"]
    the row of the first entity, [road], stands behind the row of the
    second. *)
Lemma later_entity_comes_first :
  ¬ (∀ d σ' survey i j,
       add_entities ["road"; "waterpoint"] [("survey", Own Sample.survey)] Sample.templates
       = (inr d, σ') →
       dict_get "survey" d = Some (Own survey) →
       index_of_name "road" survey = Some i →
       index_of_name "waterpoint" survey = Some j →
       i < j).
Proof.
  intros H.
  assert (5 < 3); [|lia].
  eapply H; vm_compute; reflexivity.
Qed.

(** C5 (amended).  On a frame without a [name] column the lookup of the
    column raises [KeyError].  On a frame with the column and no row named
    [feature] the function raises [ValueError] with its own message, which
    is not a [LookupError]; on a frame with such a row it returns. *)
Theorem anchor_lookup df entity_name :
  (NAME_COLUMN ∉ columns df →
     append_select_one_from_file_row df entity_name = inl (KeyError NAME_COLUMN)) ∧
  (NAME_COLUMN ∈ columns df →
     Forall (λ x : row, x !! NAME_COLUMN ≠ Some (CStr FEATURE_COLUMN)) (rows df) →
     append_select_one_from_file_row df entity_name = inl (ValueError ANCHOR_MSG) ∧
     is_ValueError (ValueError ANCHOR_MSG) = true ∧
     is_LookupError (ValueError ANCHOR_MSG) = false) ∧
  (NAME_COLUMN ∈ columns df →
     Exists (λ x : row, x !! NAME_COLUMN = Some (CStr FEATURE_COLUMN)) (rows df) →
     ∃ df', append_select_one_from_file_row df entity_name = inr df').
Proof.
  unfold append_select_one_from_file_row. split; [|split].
  - intros H. apply has_column_false in H. by rewrite H.
  - intros Hc Hall. apply has_column_true in Hc. rewrite Hc. cbn [negb].
    assert (Hnil : feature_indices 0 (rows df) = []).
    { apply feature_indices_nil. intros x Hx.
      rewrite Forall_forall in Hall. specialize (Hall x Hx).
      unfold is_feature. by apply bool_decide_eq_false. }
    by rewrite Hnil.
  - intros Hc Hex. apply has_column_true in Hc. rewrite Hc. cbn [negb].
    destruct (feature_indices 0 (rows df)) as [|i0 tl] eqn:Hf; [|by eexists].
    exfalso. apply Exists_exists in Hex as (x & Hx & Hn).
    rewrite feature_indices_nil in Hf. specialize (Hf x Hx).
    unfold is_feature in Hf. by apply bool_decide_eq_false in Hf.
Qed.

Lemma anchor_lookup_witness :
  (NAME_COLUMN ∉ columns Sample.entities ∧
   NAME_COLUMN ∈ columns Sample.digitisation ∧
   Forall (λ x : row, x !! NAME_COLUMN ≠ Some (CStr FEATURE_COLUMN)) (rows Sample.digitisation) ∧
   NAME_COLUMN ∈ columns Sample.survey ∧
   Exists (λ x : row, x !! NAME_COLUMN = Some (CStr FEATURE_COLUMN)) (rows Sample.survey)) ∧
  append_select_one_from_file_row Sample.entities "road" = inl (KeyError NAME_COLUMN) ∧
  append_select_one_from_file_row Sample.digitisation "road" = inl (ValueError ANCHOR_MSG) ∧
  ∃ df', append_select_one_from_file_row Sample.survey "road" = inr df'.
Proof.
  assert (H1 : NAME_COLUMN ∉ columns Sample.entities)
    by (apply (bool_decide_unpack _); vm_compute; exact I).
  assert (H2 : NAME_COLUMN ∈ columns Sample.digitisation)
    by (apply (bool_decide_unpack _); vm_compute; exact I).
  assert (H3 : Forall (λ x : row, x !! NAME_COLUMN ≠ Some (CStr FEATURE_COLUMN))
                 (rows Sample.digitisation))
    by (apply (bool_decide_unpack _); vm_compute; exact I).
  assert (H4 : NAME_COLUMN ∈ columns Sample.survey)
    by (apply (bool_decide_unpack _); vm_compute; exact I).
  assert (H5 : Exists (λ x : row, x !! NAME_COLUMN = Some (CStr FEATURE_COLUMN))
                 (rows Sample.survey))
    by (apply (bool_decide_unpack _); vm_compute; exact I).
  split; [exact (conj H1 (conj H2 (conj H3 (conj H4 H5))))|].
  split; [exact (proj1 (anchor_lookup Sample.entities "road") H1)|].
  split; [exact (proj1 (proj1 (proj2 (anchor_lookup Sample.digitisation "road")) H2 H3))|].
  exact (proj2 (proj2 (anchor_lookup Sample.survey "road")) H4 H5).
Defined.

(** C5, as stated, fails: the error raised for a survey sheet without a
    [feature] row is not of the [LookupError] class. *)
Lemma missing_anchor_is_not_a_LookupError :
  ¬ (∃ err, append_select_one_from_file_row Sample.digitisation "road" = inl err ∧
            is_LookupError err = true).
Proof.
  intros (err & H & Hl). vm_compute in H. injection H as <-. discriminate Hl.
Qed.

(** ** Claims about the generated rows *)

(** C6 (amended).  The begin-group row, the entity question row and the
    calculation row carry a label in four languages, english, swahili,
    french and spanish, and none in nepali.  The begin-group row has the
    type [begin group], the name of the group and the relevance
    [(${new_feature} != '') or (${building_exists} = 'yes')]; the end-group
    row has the type [end group] and nothing else. *)
Theorem generated_rows_labels name entity_name :
  ∃ b g q c : row,
    (create_survey_group name).1
    = {| columns := ["type"; "name"; "label::english(en)"; "label::swahili(sw)";
                     "label::french(fr)"; "label::spanish(es)"; "relevant"];
         rows := [b] |} ∧
    (create_survey_group name).2 = {| columns := ["type"]; rows := [g] |} ∧
    additional_row entity_name
    = {| columns := ["type"; "name"; "label::english(en)"; "appearance";
                     "label::swahili(sw)"; "label::french(fr)"; "label::spanish(es)"];
         rows := [q] |} ∧
    coordinates_row entity_name
    = {| columns := ["type"; "name"; "calculation"; "label::english(en)";
                     "label::swahili(sw)"; "label::french(fr)"; "label::spanish(es)"];
         rows := [c] |} ∧
    Forall (λ lc, b !! label_column lc.1 lc.2 = Some (CStr name) ∧
                  q !! label_column lc.1 lc.2 = Some (CStr entity_name) ∧
                  c !! label_column lc.1 lc.2 = Some (CStr "additional_geometry"))
           carried_languages ∧
    (b !! label_column "nepali" "ne" = None ∧
     q !! label_column "nepali" "ne" = None ∧
     c !! label_column "nepali" "ne" = None) ∧
    (b !! "type" = Some (CStr "begin group") ∧ b !! "name" = Some (CStr name) ∧
     b !! "relevant" = Some (CStr "(${new_feature} != '') or (${building_exists} = 'yes')")) ∧
    g = {[ "type" := CStr "end group" ]} ∧
    (q !! "type" = Some (CStr ("select_one_from_file " +:+ entity_name +:+ ".csv")) ∧
     q !! "name" = Some (CStr entity_name) ∧ q !! "appearance" = Some (CStr "map")) ∧
    (c !! "type" = Some (CStr "calculate") ∧
     c !! "name" = Some (CStr "additional_geometry") ∧
     c !! "calculation"
     = Some (CStr ("instance('" +:+ entity_name +:+ "')/root/item[name=${"
                   +:+ entity_name +:+ "}]/geometry"))).
Proof.
  do 4 eexists.
  split; [reflexivity|]. split; [reflexivity|]. split; [reflexivity|].
  split; [reflexivity|].
  split; [repeat constructor|].
  repeat split; reflexivity.
Qed.

(** C6, as stated, fails: nepali is one of the five default languages and
    the begin-group row has no label for it. *)
Lemma no_nepali_label :
  ¬ (∀ lang code, DEFAULT_LANGUAGES !! lang = Some code →
       Forall (λ x : row, is_Some (x !! label_column lang code))
              (rows (create_survey_group SURVEY_GROUP_NAME).1)).
Proof.
  intros H. specialize (H "nepali" "ne" eq_refl).
  apply Forall_cons_1 in H as [[v Hv] _]. vm_compute in Hv. discriminate Hv.
Qed.

(** ** Claims about the merge of the choices *)

Section DropDups.

Implicit Types (l : list row) (seen : list (option cell * option cell)).

Local Notation dd := (Pd.drop_dups "list_name" NAME_COLUMN).

Lemma drop_dups_not_seen seen l x : x ∈ dd seen l → choice_key x ∉ seen ∧ x ∈ l.
Proof.
  revert seen. induction l as [|r l IH]; intros seen; cbn; [by intros ?%elem_of_nil|].
  fold (choice_key r). destruct (decide (choice_key r ∈ seen)) as [Hin|Hnin].
  - intros [? ?]%IH. split; [done|by right].
  - intros [->|[Hx ?]%IH]%elem_of_cons; [split; [done|left]|].
    split; [|by right]. intros ?. apply Hx. by right.
Qed.

Lemma drop_dups_NoDup seen l : NoDup (choice_key <$> dd seen l).
Proof.
  revert seen. induction l as [|r l IH]; intros seen; cbn; [constructor|].
  fold (choice_key r). destruct (decide (choice_key r ∈ seen)); [apply IH|].
  cbn. constructor; [|apply IH].
  intros (x & Hk & Hx)%list_elem_of_fmap. apply drop_dups_not_seen in Hx as [Hx _].
  apply Hx. rewrite <- Hk. left.
Qed.

Lemma drop_dups_sublist seen l : sublist (dd seen l) l.
Proof.
  revert seen. induction l as [|r l IH]; intros seen; cbn; [constructor|].
  destruct (decide _); [apply sublist_cons|apply sublist_skip]; apply IH.
Qed.

(** For a key that has not been seen, the row kept is its first row. *)
Lemma drop_dups_first seen l k :
  k ∉ seen →
  snd <$> list_find (λ x, choice_key x = k) (dd seen l)
  = snd <$> list_find (λ x, choice_key x = k) l.
Proof.
  revert seen. induction l as [|r l IH]; intros seen Hk; [done|].
  cbn [dd Pd.drop_dups]. fold (choice_key r). fold dd.
  destruct (decide (choice_key r ∈ seen)) as [Hin|Hnin].
  - rewrite IH by done. cbn [list_find]. rewrite decide_False by congruence.
    rewrite <- option_fmap_compose. done.
  - cbn [list_find]. destruct (decide (choice_key r = k)) as [Heq|Hne]; [done|].
    rewrite <- !option_fmap_compose. apply IH.
    intros [?|?]%elem_of_cons; congruence.
Qed.

End DropDups.

Lemma list_find_snd_elem_of {A} (P : A → Prop) `{∀ x, Decision (P x)} (l : list A) x :
  snd <$> list_find P l = Some x → x ∈ l ∧ P x.
Proof.
  destruct (list_find P l) as [[i y]|] eqn:E; [|done]. intros [= <-].
  apply list_find_Some in E as (? & ? & _). split; [|done].
  by eapply list_elem_of_lookup_2.
Qed.

Lemma list_find_snd_app_l {A} (P : A → Prop) `{∀ x, Decision (P x)} (l1 l2 : list A) y :
  y ∈ l1 → P y →
  snd <$> list_find P (l1 ++ l2) = snd <$> list_find P l1.
Proof.
  intros Hy HP. induction l1 as [|a l1 IH]; [by apply elem_of_nil in Hy|].
  cbn. destruct (decide (P a)); [done|].
  rewrite <- !option_fmap_compose. apply IH.
  apply elem_of_cons in Hy as [->|?]; done.
Qed.

(** In a list whose keys are distinct, the search for a key finds the one
    row that has it. *)
Lemma list_find_NoDup_key (l : list row) x :
  NoDup (choice_key <$> l) → x ∈ l →
  snd <$> list_find (λ y, choice_key y = choice_key x) l = Some x.
Proof.
  induction l as [|a l IH]; [by intros _ ?%elem_of_nil|].
  cbn. intros [Ha Hnd]%NoDup_cons Hx. destruct (decide (choice_key a = choice_key x)) as [Heq|Hne].
  - apply elem_of_cons in Hx as [->|Hx]; [done|].
    exfalso. apply Ha. rewrite Heq. apply list_elem_of_fmap. by exists x.
  - apply elem_of_cons in Hx as [->|Hx]; [done|].
    rewrite <- option_fmap_compose. by apply IH.
Qed.

(** C2.  In choice mode the merge returns as soon as one of the three
    frames has a [name] column.  Its rows are rows of the concatenation
    mandatory, user, supplementary, in that order; no two of them have the
    same pair of [list_name] and [name]; and the row kept for a pair is the
    first row of the concatenation with that pair, so that a mandatory row
    is kept before a user row and a user row before a supplementary one. *)
Theorem choices_merge_keeps_first meta mandatory user digitisation :
  "list_name" ∈ columns user →
  NAME_COLUMN ∈ columns mandatory ++ columns user ++ columns digitisation →
  let all := rows mandatory ++ rows user ++ rows digitisation in
  ∃ merged,
    merge_dataframes meta mandatory user digitisation = inr merged ∧
    NoDup (choice_key <$> rows merged) ∧
    sublist (rows merged) all ∧
    (∀ k, snd <$> list_find (λ x, choice_key x = k) (rows merged)
          = snd <$> list_find (λ x, choice_key x = k) all) ∧
    (∀ x y, x ∈ rows merged → y ∈ rows mandatory → choice_key y = choice_key x →
            x ∈ rows mandatory) ∧
    (∀ x y, x ∈ rows merged → y ∈ rows user → choice_key y = choice_key x →
            x ∈ rows mandatory ∨ x ∈ rows user).
Proof.
  intros Hl Hn all. unfold merge_dataframes.
  rewrite (proj2 (has_column_true _ _) Hl).
  set (cat := Pd.concat [mandatory; user; digitisation]).
  assert (Hrows : rows cat = all).
  { unfold cat, Pd.concat, all. cbn. by rewrite app_nil_r. }
  assert (Hc : ∀ c, c ∈ columns cat ↔
            c ∈ columns mandatory ∨ c ∈ columns user ∨ c ∈ columns digitisation).
  { intros c. unfold cat. rewrite elem_of_concat_columns. split.
    - intros (df & Hdf & ?). rewrite !elem_of_cons in Hdf.
      destruct Hdf as [->|[->|[->|?%elem_of_nil]]]; tauto.
    - intros [?|[?|?]]; [exists mandatory|exists user|exists digitisation];
        (split; [|done]); rewrite !elem_of_cons; tauto. }
  unfold Pd.drop_duplicates.
  rewrite (proj2 (has_column_true "list_name" cat)) by (apply Hc; tauto).
  rewrite (proj2 (has_column_true NAME_COLUMN cat))
    by (apply Hc; rewrite !elem_of_app in Hn; tauto).
  cbn [negb]. eexists. split; [done|]. cbn [rows]. rewrite Hrows.
  assert (Hfirst : ∀ k, snd <$> list_find (λ x, choice_key x = k)
                            (Pd.drop_dups "list_name" NAME_COLUMN [] all)
                        = snd <$> list_find (λ x, choice_key x = k) all).
  { intros k. apply drop_dups_first. apply not_elem_of_nil. }
  pose proof (drop_dups_NoDup [] all) as Hnd.
  split; [done|]. split; [apply drop_dups_sublist|]. split; [done|].
  assert (Hkept : ∀ x, x ∈ Pd.drop_dups "list_name" NAME_COLUMN [] all →
            snd <$> list_find (λ y, choice_key y = choice_key x) all = Some x).
  { intros x Hx. rewrite <- Hfirst. by apply list_find_NoDup_key. }
  split.
  - intros x y Hx Hy Hk. apply Hkept in Hx. unfold all in Hx.
    rewrite (list_find_snd_app_l _ _ _ y) in Hx by done.
    by apply list_find_snd_elem_of in Hx as [? _].
  - intros x y Hx Hy Hk. apply Hkept in Hx. unfold all in Hx.
    rewrite app_assoc in Hx.
    rewrite (list_find_snd_app_l _ _ _ y) in Hx by (done || (apply elem_of_app; by right)).
    apply list_find_snd_elem_of in Hx as [Hx _]. by apply elem_of_app in Hx.
Qed.

Lemma choices_merge_keeps_first_witness :
  ("list_name" ∈ columns Sample.user_choices ∧
   NAME_COLUMN ∈ columns Sample.choices ++ columns Sample.user_choices
                 ++ columns Sample.digitisation_choices) ∧
  ∃ merged,
    merge_dataframes Sample.meta Sample.choices Sample.user_choices
      Sample.digitisation_choices = inr merged ∧
    NoDup (choice_key <$> rows merged) ∧
    sublist (rows merged)
      (rows Sample.choices ++ rows Sample.user_choices ++ rows Sample.digitisation_choices) ∧
    (∀ k, snd <$> list_find (λ x, choice_key x = k) (rows merged)
          = snd <$> list_find (λ x, choice_key x = k)
              (rows Sample.choices ++ rows Sample.user_choices
               ++ rows Sample.digitisation_choices)) ∧
    (∀ x y, x ∈ rows merged → y ∈ rows Sample.choices → choice_key y = choice_key x →
            x ∈ rows Sample.choices) ∧
    (∀ x y, x ∈ rows merged → y ∈ rows Sample.user_choices → choice_key y = choice_key x →
            x ∈ rows Sample.choices ∨ x ∈ rows Sample.user_choices).
Proof.
  assert (H1 : "list_name" ∈ columns Sample.user_choices)
    by (apply (bool_decide_unpack _); vm_compute; exact I).
  assert (H2 : NAME_COLUMN ∈ columns Sample.choices ++ columns Sample.user_choices
                             ++ columns Sample.digitisation_choices)
    by (apply (bool_decide_unpack _); vm_compute; exact I).
  split; [exact (conj H1 H2)|].
  exact (choices_merge_keeps_first Sample.meta Sample.choices Sample.user_choices
           Sample.digitisation_choices H1 H2).
Defined.

(** The merge of the sample choices: the user's [yes_no/yes] and the
    supplementary [yes_no/yes] give way to the mandatory row; [colour/yes]
    stays, for its list is another. *)
Example sample_choices_merge :
  (λ df, (λ x, (x !! "list_name", x !! "name", x !! "label::english(en)")) <$> rows df)
    <$> match merge_dataframes Sample.meta Sample.choices
                (standardize_sheet Sample.user_choices) Sample.digitisation_choices with
        | inr df => Some df
        | inl _ => None
        end
  = Some [(Some (CStr "yes_no"), Some (CStr "yes"), Some (CStr "Yes"));
          (Some (CStr "yes_no"), Some (CStr "no"), Some (CStr "No"));
          (Some (CStr "colour"), Some (CStr "yes"), Some (CStr "Red"));
          (Some (CStr "problem"), Some (CStr "lumped"), Some (CStr "Lumped"))].
Proof. vm_compute. reflexivity. Qed.

(** ** Claims about the sheet normaliser *)

Lemma filter_df_empty_rows_columns df column :
  columns (filter_df_empty_rows df column) = columns df.
Proof. unfold filter_df_empty_rows. by repeat case_match. Qed.

Lemma isin_true (o : option cell) (values : list cell) :
  Pd.isin o values = true ↔ ∃ v, o = Some v ∧ v ∈ values.
Proof.
  destruct o as [v|]; cbn.
  - rewrite bool_decide_eq_true. split.
    + intros ?. by exists v.
    + by intros (v' & [= <-] & ?).
  - split; [done|]. by intros (? & ? & ?).
Qed.

Lemma notna_true (o : option cell) : Pd.notna o = true ↔ is_Some o.
Proof. destruct o; cbn; split; intros H; try done; by destruct H. Qed.

(** *** The language columns *)

Section LanguageColumns.

Implicit Types (col base : string) (cols : list string) (df : DataFrame).

Lemma standardize_step_fires col s df base :
  standardize_step col (s, df) base
  = (default s (fires base col),
     if decide (col ≠ default s (fires base col))
     then Pd.rename col (default s (fires base col)) df else df).
Proof.
  unfold standardize_step, fires.
  destruct (PyStr.startswith (base +:+ "::") col).
  - destruct (PyStr.re_match_lang base col) as [lang|]; cbn [mbind option_bind default];
      [|reflexivity].
    destruct (DEFAULT_LANGUAGES !! lang); reflexivity.
  - destruct (decide (col = base)); done.
Qed.

Lemma fires_applies base col : is_Some (fires base col) → applies base col = true.
Proof.
  unfold fires, applies. destruct (PyStr.startswith _ col); [done|].
  destruct (decide (col = base)) as [->|]; [|by intros [? ?]].
  intros _. cbn. by apply bool_decide_eq_true.
Qed.

Lemma applies_first_char base col :
  base ≠ "" → applies base col = true → first_char col = first_char base.
Proof.
  unfold applies. intros Hb [H|H]%orb_true_iff.
  - destruct base as [|a b]; [done|]. destruct col as [|a' t]; [done|].
    change (String a b +:+ "::") with (String a (b +:+ "::")) in H.
    cbn [PyStr.startswith] in H. destruct (decide (a = a')); [by subst|done].
  - apply bool_decide_eq_true in H. by subst.
Qed.

Lemma fires_exclusive base base' col :
  base ≠ "" → base' ≠ "" → first_char base ≠ first_char base' →
  is_Some (fires base col) → fires base' col = None.
Proof.
  intros Hb Hb' Hne H1. destruct (fires base' col) eqn:E; [|done].
  exfalso. apply Hne.
  assert (applies base' col = true) by (apply fires_applies; by rewrite E).
  by rewrite <- (applies_first_char base col), <- (applies_first_char base' col)
    by auto using fires_applies.
Qed.

Lemma startswith_exclusive base base' col :
  base ≠ "" → base' ≠ "" → first_char base ≠ first_char base' →
  applies base col = true → fires base' col = None.
Proof.
  intros Hb Hb' Hne H1. destruct (fires base' col) eqn:E; [|done].
  exfalso. apply Hne.
  assert (applies base' col = true) by (apply fires_applies; by rewrite E).
  by rewrite <- (applies_first_char base col), <- (applies_first_char base' col) by auto.
Qed.

Lemma ren_same col cols : ren col col cols = cols.
Proof.
  unfold ren. rewrite <- (list_fmap_id cols) at 2. apply list_fmap_ext.
  intros _ c _. by destruct (decide (c = col)) as [->|].
Qed.

Lemma ren_idem col v cols : v ≠ col → ren col v (ren col v cols) = ren col v cols.
Proof.
  intros Hv. unfold ren. rewrite <- list_fmap_compose. apply list_fmap_ext.
  intros _ c _. cbn. destruct (decide (c = col)).
  - by rewrite decide_False.
  - by rewrite decide_False.
Qed.

Lemma rename_columns old new df : columns (Pd.rename old new df) = ren old new (columns df).
Proof. reflexivity. Qed.

(** What a base that gives a name leaves behind: the other bases give
    none, and the inner loop ends with that name. *)
Lemma std_name_cases col :
  (std_name col = col ∧ ∀ base, base ∈ base_columns → default col (fires base col) = col) ∨
  ∃ base v, base ∈ base_columns ∧ fires base col = Some v ∧ std_name col = v.
Proof.
  unfold std_name, base_columns. cbn [foldl].
  destruct (fires "label" col) as [v|] eqn:E1.
  { right. exists "label", v. split; [set_solver|]. split; [done|].
    rewrite (fires_exclusive "label" "hint"), (fires_exclusive "label" "required_message");
      by rewrite ?E1. }
  destruct (fires "hint" col) as [v|] eqn:E2.
  { right. exists "hint", v. split; [set_solver|]. split; [done|].
    rewrite (fires_exclusive "hint" "required_message"); by rewrite ?E2. }
  destruct (fires "required_message" col) as [v|] eqn:E3.
  { right. exists "required_message", v. split; [set_solver|]. done. }
  left. split; [done|]. intros base Hb.
  repeat (apply elem_of_cons in Hb as [->|Hb]); rewrite ?E1, ?E2, ?E3; try done.
  by apply elem_of_nil in Hb.
Qed.

(** The inner loop, on the column index: the column [col] is renamed to
    [std_name col]. *)
Lemma inner_loop_columns col df :
  columns (foldl (standardize_step col) (col, df) base_columns).2
  = ren col (std_name col) (columns df).
Proof.
  unfold std_name, base_columns. cbn [foldl].
  rewrite !standardize_step_fires. cbn [fst snd].
  destruct (fires "label" col) as [v|] eqn:E1.
  { rewrite (fires_exclusive "label" "hint"), (fires_exclusive "label" "required_message");
      [|by rewrite ?E1..].
    cbv [default from_option id]. destruct (decide (col ≠ v)) as [Hne|Heq].
    - by rewrite !rename_columns, !ren_idem.
    - apply dec_stable in Heq. subst. by rewrite ren_same. }
  destruct (fires "hint" col) as [v|] eqn:E2.
  { rewrite (fires_exclusive "hint" "required_message"); [|try (by rewrite ?E2)..].
    cbv [default from_option id]. rewrite !(decide_False (P := col ≠ col)) by (intros ?; congruence).
    destruct (decide (col ≠ v)) as [Hne|Heq].
    - by rewrite !rename_columns, !ren_idem.
    - apply dec_stable in Heq. subst. by rewrite ren_same. }
  cbv [default from_option id]. rewrite !(decide_False (P := col ≠ col)) by (intros ?; congruence).
  destruct (fires "required_message" col) as [v|] eqn:E3; cbv [default from_option id].
  - destruct (decide (col ≠ v)) as [Hne|Heq]; [done|].
    apply dec_stable in Heq. subst. by rewrite ren_same.
  - rewrite !(decide_False (P := col ≠ col)) by (intros ?; congruence). by rewrite ren_same.
Qed.

End LanguageColumns.

Section OuterLoop.

Lemma fires_values base col v :
  base ∈ base_columns → fires base col = Some v → v ∈ standard_names.
Proof.
  intros Hb. unfold fires. destruct (PyStr.startswith _ col).
  - destruct (PyStr.re_match_lang base col) as [lang|]; cbn [mbind option_bind]; [|done].
    destruct (DEFAULT_LANGUAGES !! lang) as [code|] eqn:E; cbn [mbind option_bind]; [|done].
    intros [= <-].
    apply elem_of_list_to_map_2 in E.
    repeat (apply elem_of_cons in Hb as [->|Hb]); try (by apply elem_of_nil in Hb);
      repeat (apply elem_of_cons in E as [[= -> ->]|E]); try (by apply elem_of_nil in E);
      apply (bool_decide_unpack _); vm_compute; exact I.
  - destruct (decide (col = base)); [|done]. intros [= <-].
    repeat (apply elem_of_cons in Hb as [->|Hb]); try (by apply elem_of_nil in Hb);
      apply (bool_decide_unpack _); vm_compute; exact I.
Qed.

Lemma standard_names_fixed : Forall (λ v, std_name v = v) standard_names.
Proof. apply (bool_decide_unpack _). vm_compute. exact I. Qed.

Lemma std_name_idem col : std_name (std_name col) = std_name col.
Proof.
  destruct (std_name_cases col) as [[Hs _]|(base & v & Hb & Hf & ->)]; [by rewrite !Hs|].
  pose proof standard_names_fixed as H. rewrite Forall_forall in H.
  apply H. by eapply fires_values.
Qed.

(** The outer loop on the column index.  [seen] are the columns the loop
    has gone through. *)
Lemma outer_loop_columns (todo seen all : list string) :
  foldl (λ cols col, ren col (std_name col) cols)
        ((λ c, if decide (c ∈ seen) then std_name c else c) <$> all) todo
  = (λ c, if decide (c ∈ seen ++ todo) then std_name c else c) <$> all.
Proof.
  revert seen. induction todo as [|col todo IH]; intros seen; cbn [foldl].
  - by rewrite app_nil_r.
  - replace (seen ++ col :: todo) with ((seen ++ [col]) ++ todo) by (by rewrite <- app_assoc).
    rewrite <- IH. f_equal. unfold ren. rewrite <- list_fmap_compose.
    apply list_fmap_ext. intros _ c _. unfold compose. cbv beta.
    destruct (decide (c ∈ seen)) as [Hin|Hnin].
    + rewrite (decide_True (P := c ∈ seen ++ [col])) by (apply elem_of_app; by left).
      destruct (decide (std_name c = col)) as [<-|]; [apply std_name_idem|done].
    + destruct (decide (c = col)) as [->|Hne].
      * by rewrite decide_True by (apply elem_of_app; right; left).
      * rewrite decide_False; [done|].
        intros [?|?%list_elem_of_singleton]%elem_of_app; done.
Qed.

Lemma standardize_language_columns_fold (todo : list string) df :
  columns (foldl (λ df col, (foldl (standardize_step col) (col, df) base_columns).2) df todo)
  = foldl (λ cols col, ren col (std_name col) cols) (columns df) todo.
Proof.
  revert df. induction todo as [|col todo IH]; intros df; [done|].
  cbn [foldl]. by rewrite IH, inner_loop_columns.
Qed.

(** Every column is lowercased and then given its standard name. *)
Lemma standardize_language_columns_columns df :
  columns (standardize_language_columns df)
  = (λ c, std_name (PyStr.lower c)) <$> columns df.
Proof.
  unfold standardize_language_columns. rewrite standardize_language_columns_fold.
  cbn [Pd.relabel columns].
  set (all := PyStr.lower <$> columns df).
  replace all with ((λ c, if decide (c ∈ []) then std_name c else c) <$> all) at 1.
  - rewrite outer_loop_columns. cbn [app]. unfold all. rewrite <- list_fmap_compose.
    apply list_fmap_ext. intros i c Hc. unfold compose. cbv beta.
    rewrite decide_True; [done|].
    apply list_elem_of_fmap. exists c. split; [done|]. by eapply list_elem_of_lookup_2.
  - rewrite <- (list_fmap_id all) at 2. apply list_fmap_ext. intros _ c _.
    by rewrite decide_False by apply not_elem_of_nil.
Qed.

End OuterLoop.

(** *** The rows of a normalised sheet *)

Lemma std_name_fires base col v :
  base ∈ base_columns → fires base col = Some v → std_name col = v.
Proof.
  intros Hb Hf.
  destruct (std_name_cases col) as [[Hs Hd]|(base' & v' & Hb' & Hf' & ->)].
  - rewrite Hs. specialize (Hd base Hb). by rewrite Hf in Hd.
  - destruct (decide (base = base')) as [<-|Hne]; [congruence|].
    rewrite (fires_exclusive base base' col) in Hf'; [done|..|by rewrite Hf].
    + clear -Hb. repeat (apply elem_of_cons in Hb as [->|Hb]); try done.
      by apply elem_of_nil in Hb.
    + clear -Hb'. repeat (apply elem_of_cons in Hb' as [->|Hb']); try done.
      by apply elem_of_nil in Hb'.
    + clear -Hb Hb' Hne.
      repeat (apply elem_of_cons in Hb as [->|Hb]); try (by apply elem_of_nil in Hb);
        repeat (apply elem_of_cons in Hb' as [->|Hb']); try (by apply elem_of_nil in Hb');
        done.
Qed.

Lemma filter_bool_prop {A} (p : A → bool) (P : A → Prop) `{∀ x, Decision (P x)} (l : list A) :
  (∀ x, x ∈ l → p x = true ↔ P x) → List.filter p l = filter P l.
Proof.
  induction l as [|x l IH]; intros Hp; [done|].
  rewrite filter_cons. cbn [List.filter].
  rewrite IH by (intros y Hy; apply Hp; by right).
  pose proof (Hp x (list_elem_of_here _ _)) as Hx.
  destruct (p x); destruct (decide (P x)) as [HP|HP]; try done.
  - exfalso. by apply HP, Hx.
  - by apply Hx in HP.
Qed.

Lemma filter_fmap_bool {A B} (p : B → bool) (g : A → B) (l : list A) :
  List.filter p (g <$> l) = g <$> List.filter (λ x, p (g x)) l.
Proof.
  induction l as [|x l IH]; [done|]. cbn. destruct (p (g x)); cbn; by rewrite IH.
Qed.

Lemma relabel_row_cons (f : string → string) a (cols : list string) (r : row) :
  Pd.relabel_row f (a :: cols) r
  = match r !! a with
    | Some v => <[f a := v]> (Pd.relabel_row f cols r)
    | None => Pd.relabel_row f cols r
    end.
Proof. reflexivity. Qed.

(** A label no column is relabelled to is the label of no cell. *)
Lemma relabel_row_lookup_None (f : string → string) (cols : list string) (r : row) k :
  (∀ c, c ∈ cols → f c ≠ k) → Pd.relabel_row f cols r !! k = None.
Proof.
  induction cols as [|a cols IH]; intros Hk; [done|].
  rewrite relabel_row_cons.
  assert (Hrec : Pd.relabel_row f cols r !! k = None).
  { apply IH. intros c Hc. apply Hk. by right. }
  destruct (r !! a); [|exact Hrec].
  rewrite lookup_insert_ne; [exact Hrec|]. apply Hk. by left.
Qed.

(** Under a relabelling, the cell of a column whose new label is the new
    label of no other column is found under the new label. *)
Lemma relabel_row_lookup (f : string → string) (cols : list string) (r : row) c :
  c ∈ cols → (∀ c', c' ∈ cols → f c' = f c → c' = c) →
  Pd.relabel_row f cols r !! f c = r !! c.
Proof.
  induction cols as [|a cols IH]; intros Hc Hu; [by apply elem_of_nil in Hc|].
  rewrite relabel_row_cons.
  assert (Hrec : a ≠ c → Pd.relabel_row f cols r !! f c = r !! c).
  { intros Hne. apply IH.
    - apply elem_of_cons in Hc as [?|?]; [congruence|done].
    - intros c' Hc'. apply Hu. by right. }
  destruct (decide (a = c)) as [->|Hne].
  - destruct (r !! c) as [v|] eqn:Hv; [by rewrite lookup_insert_eq|].
    destruct (decide (c ∈ cols)) as [Hin|Hnin].
    + apply IH; [done|]. intros c' Hc'. apply Hu. by right.
    + apply relabel_row_lookup_None. intros c' Hc' Heq. apply Hnin.
      rewrite <- (Hu c'); [done|by right|done].
  - destruct (r !! a); [|by apply Hrec].
    rewrite lookup_insert_ne; [by apply Hrec|].
    intros Heq. apply Hne. apply Hu; [by left|done].
Qed.

Section Rows.

Variable (df : DataFrame).

Local Notation F := (λ c : string, std_name (PyStr.lower c)).

Lemma sole_header_spec c :
  sole_header df c ↔ c ∈ columns df ∧ ∀ c', c' ∈ columns df → F c' = F c → c' = c.
Proof. unfold sole_header. by rewrite Forall_forall. Qed.

Lemma follows_lower : follows df (Pd.relabel PyStr.lower df).
Proof.
  exists PyStr.lower, (Pd.relabel_row PyStr.lower (columns df)).
  split; [done|]. split; [done|]. split; [done|].
  intros r c [Hc Hu]%sole_header_spec. apply relabel_row_lookup; [done|].
  intros c' Hc' Heq. apply Hu; [done|]. cbv beta. by rewrite Heq.
Qed.

Lemma follows_rename d col v :
  std_name v = std_name col → follows df d → follows df (Pd.rename col v d).
Proof.
  intros Hv (H & G & Hcols & Hrows & Hstd & Hcell).
  set (ρ := λ c : string, if decide (c = col) then v else c).
  assert (Hρ : ∀ c, std_name (ρ c) = std_name c).
  { intros c. unfold ρ. by destruct (decide (c = col)) as [->|]. }
  exists (ρ ∘ H), (Pd.relabel_row ρ (columns d) ∘ G).
  split; [|split; [|split]].
  - unfold Pd.rename, Pd.relabel. cbn [columns]. by rewrite Hcols, <- list_fmap_compose.
  - unfold Pd.rename, Pd.relabel. cbn [rows]. by rewrite Hrows, <- list_fmap_compose.
  - intros c Hc. unfold compose. by rewrite Hρ, Hstd.
  - intros r c Hsole. pose proof Hsole as [Hc Hu]%sole_header_spec. unfold compose.
    rewrite relabel_row_lookup; [by apply Hcell| |].
    + rewrite Hcols. apply list_elem_of_fmap. by exists c.
    + intros d' Hd' Heq. rewrite Hcols in Hd'.
      apply list_elem_of_fmap in Hd' as (c' & -> & Hc'). f_equal. apply Hu; [done|].
      by rewrite <- (Hstd c'), <- (Hstd c), <- (Hρ (H c')), <- (Hρ (H c)), Heq.
Qed.

Lemma follows_inner col (bases : list string) : ∀ s d,
  (∀ base, base ∈ bases → base ∈ base_columns) →
  std_name s = std_name col → follows df d →
  follows df (foldl (standardize_step col) (s, d) bases).2.
Proof.
  induction bases as [|base bases IH]; intros s d Hb Hs Hd; [done|].
  cbn [foldl]. rewrite standardize_step_fires.
  assert (Hs' : std_name (default s (fires base col)) = std_name col).
  { destruct (fires base col) as [v|] eqn:Hf; [|done]. cbn.
    rewrite <- (std_name_fires base col v); [apply std_name_idem| |done].
    apply Hb. by left. }
  apply IH; [intros b' ?; apply Hb; by right|done|].
  case_decide; [by apply follows_rename|done].
Qed.

Lemma follows_outer (todo : list string) : ∀ d,
  follows df d →
  follows df (foldl (λ d col, (foldl (standardize_step col) (col, d) base_columns).2) d todo).
Proof.
  induction todo as [|col todo IH]; intros d Hd; [done|].
  cbn [foldl]. apply IH. by apply follows_inner.
Qed.

(** The rows of the sheet after [standardize_language_columns]. *)
Lemma standardize_language_columns_rows :
  ∃ G : row → row,
    rows (standardize_language_columns df) = G <$> rows df ∧
    ∀ r c, sole_header df c → G r !! F c = r !! c.
Proof.
  destruct (follows_outer (columns (Pd.relabel PyStr.lower df)) _ follows_lower)
    as (H & G & Hcols & Hrows & _ & Hcell).
  fold (standardize_language_columns df) in Hcols, Hrows.
  exists G. split; [done|]. intros r c Hsole.
  pose proof Hsole as [Hc _]%sole_header_spec.
  rewrite standardize_language_columns_columns in Hcols.
  apply list_elem_of_lookup in Hc as [i Hi].
  apply (f_equal (λ l, l !! i)) in Hcols. rewrite !list_lookup_fmap, Hi in Hcols.
  injection Hcols as Hcols. cbv beta. rewrite Hcols. by apply Hcell.
Qed.

End Rows.

Lemma std_name_plain col v :
  v ∉ standard_names → std_name v = v → std_name col = v ↔ col = v.
Proof.
  intros Hv Hfix. split; [|by intros ->].
  destruct (std_name_cases col) as [[Hs _]|(base & w & Hb & Hf & Hs)].
  - by rewrite Hs.
  - rewrite Hs. intros ->. exfalso. apply Hv. by eapply fires_values.
Qed.

(** C7 (amended).  An empty sheet passes through the normalisation as it
    is.  A sheet that is not empty comes out with its columns lowercased
    and standardised and with its rows relabelled, in their order: every
    kept row holds, under the standard name of a header, the cell it had
    under that header, for every header that is the only one with its
    standard name.  When no header is [name] (in any case) all rows are
    kept.  When a header is, the kept rows are exactly those whose name is
    not missing (None/NaN) and, when a header is [type], those whose type
    is one of the four group markers; a row whose name is the empty string
    has a name and is kept. *)
Theorem filter_df_empty_rows_keeps df :
  let out := standardize_sheet df in
  (Pd.empty df = true → out = df) ∧
  (Pd.empty df = false →
   columns out = (λ c, std_name (PyStr.lower c)) <$> columns df ∧
   ∃ G : row → row,
     (∀ r c, sole_header df c → G r !! std_name (PyStr.lower c) = r !! c) ∧
     ((∀ c, c ∈ columns df → PyStr.lower c ≠ "name") → rows out = G <$> rows df) ∧
     (∀ cn, sole_header df cn → PyStr.lower cn = "name" →
        ((∀ c, c ∈ columns df → PyStr.lower c ≠ "type") →
         rows out = G <$> filter (λ r : row, is_Some (r !! cn)) (rows df)) ∧
        (∀ ct, sole_header df ct → PyStr.lower ct = "type" →
         rows out
         = G <$> filter (λ r : row,
                           is_Some (r !! cn) ∨
                           r !! ct ∈ [Some (CStr "begin group"); Some (CStr "end group");
                                      Some (CStr "begin_group"); Some (CStr "end_group")])
                        (rows df)) ∧
        (∀ r, r ∈ rows df → r !! cn = Some (CStr "") → G r ∈ rows out))).
Proof.
  intros out. split.
  { intros He. unfold out, standardize_sheet. by rewrite He. }
  intros He.
  assert (Hout : out = filter_df_empty_rows (standardize_language_columns df) NAME_COLUMN).
  { unfold out, standardize_sheet. by rewrite He. }
  split.
  { by rewrite Hout, filter_df_empty_rows_columns, standardize_language_columns_columns. }
  destruct (standardize_language_columns_rows df) as (G & Hrows & Hcell).
  set (D := standardize_language_columns df) in *.
  assert (Hplain : ∀ k c, k ∉ standard_names → std_name k = k →
            std_name (PyStr.lower c) = k ↔ PyStr.lower c = k).
  { intros k c Hk Hfix. by apply std_name_plain. }
  assert (Hname : "name" ∉ standard_names)
    by (apply (bool_decide_unpack _); vm_compute; exact I).
  assert (Htype : "type" ∉ standard_names)
    by (apply (bool_decide_unpack _); vm_compute; exact I).
  assert (Hhas : ∀ k, k ∉ standard_names → std_name k = k →
            k ∈ columns D ↔ ∃ c, c ∈ columns df ∧ PyStr.lower c = k).
  { intros k Hk Hfix. unfold D.
    rewrite standardize_language_columns_columns, list_elem_of_fmap.
    split; intros (c & Hc1 & Hc2); exists c.
    - split; [done|]. by apply (Hplain k c Hk Hfix).
    - split; [|done]. symmetry. by apply (Hplain k c Hk Hfix). }
  exists G. split; [exact Hcell|]. split.
  { intros Hno. rewrite Hout. unfold filter_df_empty_rows.
    rewrite (proj2 (has_column_false NAME_COLUMN D)); [done|].
    intros (c & Hc & Hl)%(Hhas "name" Hname eq_refl). by apply (Hno c). }
  intros cn Hsole Hcn.
  pose proof Hsole as [Hcn_in _]%sole_header_spec.
  assert (Hn : Pd.has_column NAME_COLUMN D = true).
  { apply has_column_true, (Hhas "name" Hname eq_refl). by exists cn. }
  assert (HGn : ∀ r, G r !! NAME_COLUMN = r !! cn).
  { intros r. rewrite <- (Hcell r cn Hsole). f_equal. symmetry. by apply (Hplain "name"). }
  assert (Hnotype : (∀ c, c ∈ columns df → PyStr.lower c ≠ "type") →
            rows out = G <$> filter (λ r : row, is_Some (r !! cn)) (rows df)).
  { intros Hno. rewrite Hout. unfold filter_df_empty_rows. rewrite Hn.
    rewrite (proj2 (has_column_false "type" D)).
    2:{ intros (c & Hc & Hl)%(Hhas "type" Htype eq_refl). by apply (Hno c). }
    cbn [Pd.select rows]. rewrite Hrows, filter_fmap_bool. f_equal.
    apply filter_bool_prop. intros r _. by rewrite HGn, notna_true. }
  assert (Hwithtype : ∀ ct, sole_header df ct → PyStr.lower ct = "type" →
            rows out
            = G <$> filter (λ r : row,
                              is_Some (r !! cn) ∨
                              r !! ct ∈ [Some (CStr "begin group"); Some (CStr "end group");
                                         Some (CStr "begin_group"); Some (CStr "end_group")])
                           (rows df)).
  { intros ct Hsolet Hct. pose proof Hsolet as [Hct_in _]%sole_header_spec.
    rewrite Hout. unfold filter_df_empty_rows. rewrite Hn.
    rewrite (proj2 (has_column_true "type" D)).
    2:{ apply (Hhas "type" Htype eq_refl). by exists ct. }
    cbn [Pd.select rows]. rewrite Hrows, filter_fmap_bool. f_equal.
    apply filter_bool_prop. intros r _.
    assert (HGt : G r !! "type" = r !! ct).
    { rewrite <- (Hcell r ct Hsolet). f_equal. symmetry. by apply (Hplain "type"). }
    rewrite orb_true_iff, HGn, HGt, notna_true, isin_true.
    change [Some (CStr "begin group"); Some (CStr "end group");
            Some (CStr "begin_group"); Some (CStr "end_group")]
      with (Some <$> group_markers).
    rewrite list_elem_of_fmap. split.
    - intros [?|(t & ? & ?)]; [by left|right]. by exists t.
    - intros [?|(t & ? & ?)]; [by left|right]. by exists t. }
  split; [exact Hnotype|]. split; [exact Hwithtype|].
  intros r Hr Hempty.
  assert (Hkeep : G r ∈ List.filter (λ x : row, Pd.notna (x !! NAME_COLUMN)) (G <$> rows df)).
  { apply list_elem_of_In, filter_In. split.
    - apply list_elem_of_In, list_elem_of_fmap. by exists r.
    - by rewrite HGn, Hempty. }
  rewrite Hout. unfold filter_df_empty_rows. rewrite Hn.
  destruct (Pd.has_column "type" D); cbn [Pd.select rows]; rewrite Hrows.
  - apply list_elem_of_In, filter_In. apply list_elem_of_In, filter_In in Hkeep as [? Hk].
    split; [done|]. by rewrite Hk.
  - exact Hkeep.
Qed.

Lemma filter_df_empty_rows_keeps_witness :
  (Pd.empty header_only = true ∧ Pd.empty raw_survey = false ∧
   sole_header raw_survey "Name" ∧ PyStr.lower "Name" = "name" ∧
   sole_header raw_survey "Type" ∧ PyStr.lower "Type" = "type") ∧
  standardize_sheet header_only = header_only ∧
  columns (standardize_sheet raw_survey) = ["type"; "name"; "label::english(en)"] ∧
  ∃ G : row → row,
    rows (standardize_sheet raw_survey)
    = G <$> [list_to_map [("Type", CStr "text"); ("Name", CStr "q1"); ("Label", CStr "Question")];
             list_to_map [("Type", CStr "end group")];
             list_to_map [("Type", CStr "text"); ("Name", CStr "")]] ∧
    ∀ r, G r !! "name" = r !! "Name".
Proof.
  assert (H1 : Pd.empty header_only = true) by reflexivity.
  assert (H2 : Pd.empty raw_survey = false) by reflexivity.
  assert (H3 : sole_header raw_survey "Name")
    by (apply (bool_decide_unpack _); vm_compute; exact I).
  assert (H4 : PyStr.lower "Name" = "name") by (vm_compute; reflexivity).
  assert (H5 : sole_header raw_survey "Type")
    by (apply (bool_decide_unpack _); vm_compute; exact I).
  assert (H6 : PyStr.lower "Type" = "type") by (vm_compute; reflexivity).
  split; [exact (conj H1 (conj H2 (conj H3 (conj H4 (conj H5 H6)))))|].
  split; [exact (proj1 (filter_df_empty_rows_keeps header_only) H1)|].
  destruct (proj2 (filter_df_empty_rows_keeps raw_survey) H2) as (Hcols & G & Hcell & _ & Hrows).
  split; [rewrite Hcols; vm_compute; reflexivity|].
  exists G. split.
  - rewrite (proj1 (proj2 (Hrows "Name" H3 H4)) "Type" H5 H6). f_equal.
  - intros r. exact (Hcell r "Name" H3).
Defined.

(** C7, as stated, fails: a row whose name is the empty string, and whose
    type is no group marker, is still there after the normalisation. *)
Lemma empty_string_name_is_kept :
  ¬ (∀ x, x ∈ rows (standardize_sheet blank_name) →
          x !! NAME_COLUMN ≠ Some (CStr "") ∨ Pd.isin (x !! "type") group_markers = true).
Proof.
  intros H.
  destruct (H (list_to_map [("type", CStr "text"); ("name", CStr "")])) as [Hn|Ht].
  - apply (bool_decide_unpack _). vm_compute. exact I.
  - apply Hn. vm_compute. reflexivity.
  - vm_compute in Ht. discriminate Ht.
Qed.

(** C8 (amended).  In every sheet that is not empty the column at a
    position [i] is lowercased and then: a column that is exactly [label],
    [hint] or [required_message] becomes [<base>::english(en)]; a column
    [<base>::<language>...] whose language name, the word after the two
    colons, is in the lookup becomes [<base>::<language>(<code>)]; such a
    column whose language name is not in the lookup stays as it is
    (lowercased), and so does every other column. *)
Theorem language_columns_standardised df i c :
  Pd.empty df = false →
  columns df !! i = Some c →
  let c' := PyStr.lower c in
  let out := columns (standardize_sheet df) in
  (∀ base, base ∈ base_columns → c' = base →
     out !! i = Some (base +:+ "::english(en)")) ∧
  (∀ base lang code, base ∈ base_columns →
     PyStr.re_match_lang base c' = Some lang → DEFAULT_LANGUAGES !! lang = Some code →
     out !! i = Some (base +:+ "::" +:+ lang +:+ "(" +:+ code +:+ ")")) ∧
  (∀ base, base ∈ base_columns →
     PyStr.startswith (base +:+ "::") c' = true →
     (∀ lang, PyStr.re_match_lang base c' = Some lang → DEFAULT_LANGUAGES !! lang = None) →
     out !! i = Some c') ∧
  ((∀ base, base ∈ base_columns →
      c' ≠ base ∧ PyStr.startswith (base +:+ "::") c' = false) →
   out !! i = Some c').
Proof.
  intros He Hc c' out.
  assert (Hout : out !! i = Some (std_name c')).
  { unfold out, standardize_sheet. rewrite He, filter_df_empty_rows_columns,
      standardize_language_columns_columns, list_lookup_fmap, Hc. done. }
  rewrite Hout. clear Hout out.
  assert (Hone : ∀ base, base ∈ base_columns → applies base c' = true →
            std_name c' = default c' (fires base c')).
  { intros base Hb Ha.
    destruct (std_name_cases c') as [[Hs Hd]|(base' & v & Hb' & Hf & ->)];
      [by rewrite Hs, Hd|].
    destruct (decide (base = base')) as [->|Hne]; [by rewrite Hf|].
    rewrite (startswith_exclusive base base' c') in Hf; [done|..|exact Ha].
    - clear -Hb. repeat (apply elem_of_cons in Hb as [->|Hb]); try done.
      by apply elem_of_nil in Hb.
    - clear -Hb'. repeat (apply elem_of_cons in Hb' as [->|Hb']); try done.
      by apply elem_of_nil in Hb'.
    - clear -Hb Hb' Hne.
      repeat (apply elem_of_cons in Hb as [->|Hb]); try (by apply elem_of_nil in Hb);
        repeat (apply elem_of_cons in Hb' as [->|Hb']); try (by apply elem_of_nil in Hb');
        done. }
  split; [|split; [|split]].
  - intros base Hb ->.
    repeat (apply elem_of_cons in Hb as [->|Hb]); try (by apply elem_of_nil in Hb);
      reflexivity.
  - intros base lang code Hb Hm Hl.
    assert (Hs : PyStr.startswith (base +:+ "::") c' = true).
    { unfold PyStr.re_match_lang in Hm. by destruct (PyStr.startswith _ c'). }
    rewrite (Hone base Hb) by (unfold applies; by rewrite Hs).
    unfold fires. rewrite Hs, Hm. cbn [mbind option_bind]. by rewrite Hl.
  - intros base Hb Hs Hno.
    rewrite (Hone base Hb) by (unfold applies; by rewrite Hs).
    unfold fires. rewrite Hs.
    destruct (PyStr.re_match_lang base c') as [lang|]; cbn [mbind option_bind]; [|done].
    by rewrite (Hno lang eq_refl).
  - intros Hno.
    destruct (std_name_cases c') as [[Hs _]|(base & v & Hb & Hf & _)]; [by rewrite Hs|].
    destruct (Hno base Hb) as [Hne Hs]. unfold fires in Hf. rewrite Hs in Hf.
    by destruct (decide (c' = base)).
Qed.

Lemma language_columns_standardised_witness :
  (Pd.empty raw_headers = false ∧
   columns raw_headers !! 0 = Some "Label::French" ∧
   columns raw_headers !! 1 = Some "label" ∧
   columns raw_headers !! 2 = Some "label::german") ∧
  columns (standardize_sheet raw_headers) !! 0 = Some "label::french(fr)" ∧
  columns (standardize_sheet raw_headers) !! 1 = Some "label::english(en)" ∧
  columns (standardize_sheet raw_headers) !! 2 = Some "label::german".
Proof.
  assert (He : Pd.empty raw_headers = false) by reflexivity.
  assert (H0 : columns raw_headers !! 0 = Some "Label::French") by reflexivity.
  assert (H1 : columns raw_headers !! 1 = Some "label") by reflexivity.
  assert (H2 : columns raw_headers !! 2 = Some "label::german") by reflexivity.
  assert (Hb : "label" ∈ base_columns) by (apply (bool_decide_unpack _); vm_compute; exact I).
  split; [exact (conj He (conj H0 (conj H1 H2)))|].
  split; [|split].
  - apply (proj1 (proj2 (language_columns_standardised raw_headers 0 "Label::French" He H0))
             "label" "french" "fr" Hb); vm_compute; reflexivity.
  - apply (proj1 (language_columns_standardised raw_headers 1 "label" He H1) "label" Hb).
    reflexivity.
  - apply (proj1 (proj2 (proj2 (language_columns_standardised raw_headers 2 "label::german"
             He H2))) "label" Hb).
    + vm_compute. reflexivity.
    + intros lang Hm. vm_compute in Hm. injection Hm as <-. vm_compute. reflexivity.
Defined.

(** C8, as stated, fails: the column [label::German] of a sheet with one
    row has a language name that is not in the lookup, and it does not keep
    its suffix: the column is named [label::german] afterwards. *)
Lemma unknown_language_is_lowercased :
  ¬ (∀ i, columns german_headers !! i = Some "label::German" →
          columns (standardize_sheet german_headers) !! i = Some "label::German").
Proof. intros H. specialize (H 1 eq_refl). vm_compute in H. discriminate H. Qed.

Example german_headers_normalised :
  columns (standardize_sheet german_headers) = ["name"; "label::german"].
Proof. vm_compute. reflexivity. Qed.

(** Letters outside ASCII are letters for [str.lower] and for [\w]: the
    language name of [Label::Frenché] is [frenché], which is not in the
    lookup. *)
Example accented_headers :
  PyStr.lower "LABEL::ÉCOLE" = "label::école" ∧
  PyStr.re_match_lang "label" "label::frenché" = Some "frenché" ∧
  columns (standardize_sheet
             (Sample.frame ["name"; "Label::Frenché"] [[("name", CStr "q1")]]))
  = ["name"; "label::frenché"].
Proof. repeat split; vm_compute; reflexivity. Qed.


(** * Further properties of the program *)

(** ** The survey merge *)

Lemma omap_sublist {A B} (f : A → option B) (l k : list A) :
  sublist l k → sublist (omap f l) (omap f k).
Proof.
  induction 1 as [|x l k _ IH|x l k _ IH]; cbn; [constructor|..].
  - destruct (f x); [by apply sublist_skip|done].
  - destruct (f x); [by apply sublist_cons|done].
Qed.

Lemma names_of_rows (df : DataFrame) : names_of df = omap (λ r : row, r !! NAME_COLUMN) (rows df).
Proof. reflexivity. Qed.



(** In that merge the user's begin-group row, which has no name, goes the
    way of a repeated name, because the mandatory rows have a row without a
    name; the user's end-group row stays. *)
Example nameless_rows_in_the_merge :
  (λ x : row, (x !! "type", x !! "name")) <$> rows Nameless.user
  = [(Some (CStr "begin group"), None); (Some (CStr "text"), Some (CStr "q1"));
     (Some (CStr "end group"), None); (Some (CStr "text"), Some (CStr "feature"))] ∧
  (λ x : row, (x !! "type", x !! "name")) <$> rows Nameless.merged
  = [(Some (CStr "select_one_from_file features.csv"), Some (CStr "feature"));
     (Some (CStr "end group"), None);
     (Some (CStr "begin group"), Some (CStr "survey_questions"));
     (Some (CStr "text"), Some (CStr "q1"));
     (Some (CStr "end group"), None);
     (Some (CStr "end group"), None);
     (Some (CStr "text"), Some (CStr "digitisation_problem"))].
Proof. split; vm_compute; reflexivity. Qed.

(** X2.  A survey merge keeps the names unique when its inputs allow it:
    if the names of the mandatory rows, the group name [survey_questions]
    and the names of the supplementary rows are pairwise distinct, the user
    rows (after the metadata substitution) have pairwise distinct names,
    none of them [survey_questions], and the user's end-group rows have no
    name, then no name occurs twice in the merged sheet. *)
Theorem survey_merge_names_unique meta mandatory user digitisation merged user' :
  "list_name" ∉ columns user →
  merge_dataframes meta mandatory user digitisation = inr merged →
  apply_normalize_with_meta user meta = inr user' →
  NoDup (names_of mandatory ++ CStr SURVEY_GROUP_NAME :: names_of digitisation) →
  NoDup (names_of user') →
  CStr SURVEY_GROUP_NAME ∉ names_of user' →
  Forall (λ x : row, is_end_group x = true → x !! NAME_COLUMN = None) (rows user') →
  NoDup (names_of merged).
Proof.
  intros Hl%has_column_false Hm Hu Ht Hnd Hsq Hend.
  destruct (survey_merge_rows _ _ _ _ _ Hl Hm) as (u & kept & Hu' & Hsub & Hrows & Hkept).
  rewrite Hu in Hu'. injection Hu' as <-.
  rewrite names_of_rows, Hrows, !omap_app.
  change (omap _ (rows (begin_group SURVEY_GROUP_NAME))) with [CStr SURVEY_GROUP_NAME].
  change (omap _ (rows end_group)) with (@nil cell).
  rewrite <- !names_of_rows. cbn [app].
  set (k := omap (λ r : row, r !! NAME_COLUMN) kept).
  assert (Hk : sublist k (names_of user')) by (by apply omap_sublist).
  assert (Hperm : names_of mandatory ++ CStr SURVEY_GROUP_NAME :: k ++ names_of digitisation
                  ≡ₚ k ++ (names_of mandatory ++ CStr SURVEY_GROUP_NAME :: names_of digitisation)).
  { rewrite (Permutation_middle k). apply Permutation_app_swap_app. }
  rewrite Hperm. apply NoDup_app. split; [by eapply sublist_NoDup|]. split; [|done].
  intros n Hn Hin. unfold k in Hn. apply list_elem_of_omap in Hn as (x & Hx & Hxn).
  assert (Hxu : x ∈ rows user') by (by eapply elem_of_sublist).
  apply elem_of_app in Hin as [Hin|Hin]; [|apply elem_of_cons in Hin as [->|Hin]].
  - destruct (Hkept x n Hx Hxn) as [He|Hno].
    + rewrite Forall_forall in Hend. rewrite (Hend x Hxu He) in Hxn. done.
    + apply Hno. apply elem_of_app. by left.
  - apply Hsq. apply list_elem_of_omap. by exists x.
  - destruct (Hkept x n Hx Hxn) as [He|Hno].
    + rewrite Forall_forall in Hend. rewrite (Hend x Hxu He) in Hxn. done.
    + apply Hno. apply elem_of_app. by right.
Qed.

Lemma survey_merge_names_unique_witness :
  ("list_name" ∉ columns SampleMerge.user ∧
   merge_dataframes Sample.meta Sample.survey SampleMerge.user Sample.digitisation
   = inr SampleMerge.merged ∧
   apply_normalize_with_meta SampleMerge.user Sample.meta = inr SampleMerge.user ∧
   NoDup (names_of Sample.survey ++ CStr SURVEY_GROUP_NAME :: names_of Sample.digitisation) ∧
   NoDup (names_of SampleMerge.user) ∧
   CStr SURVEY_GROUP_NAME ∉ names_of SampleMerge.user ∧
   Forall (λ x : row, is_end_group x = true → x !! NAME_COLUMN = None)
          (rows SampleMerge.user)) ∧
  NoDup (names_of SampleMerge.merged).
Proof.
  assert (H1 : "list_name" ∉ columns SampleMerge.user)
    by (apply (bool_decide_unpack _); vm_compute; exact I).
  assert (H2 : merge_dataframes Sample.meta Sample.survey SampleMerge.user Sample.digitisation
               = inr SampleMerge.merged) by (vm_compute; reflexivity).
  assert (H3 : apply_normalize_with_meta SampleMerge.user Sample.meta = inr SampleMerge.user)
    by (vm_compute; reflexivity).
  assert (H4 : NoDup (names_of Sample.survey ++ CStr SURVEY_GROUP_NAME
                      :: names_of Sample.digitisation))
    by (apply (bool_decide_unpack _); vm_compute; exact I).
  assert (H5 : NoDup (names_of SampleMerge.user))
    by (apply (bool_decide_unpack _); vm_compute; exact I).
  assert (H6 : CStr SURVEY_GROUP_NAME ∉ names_of SampleMerge.user)
    by (apply (bool_decide_unpack _); vm_compute; exact I).
  assert (H7 : Forall (λ x : row, is_end_group x = true → x !! NAME_COLUMN = None)
                 (rows SampleMerge.user))
    by (apply (bool_decide_unpack _); vm_compute; exact I).
  split; [exact (conj H1 (conj H2 (conj H3 (conj H4 (conj H5 (conj H6 H7))))))|].
  exact (survey_merge_names_unique Sample.meta Sample.survey SampleMerge.user
           Sample.digitisation SampleMerge.merged SampleMerge.user H1 H2 H3 H4 H5 H6 H7).
Defined.

Lemma apply_normalize_with_meta_columns user meta user' c :
  apply_normalize_with_meta user meta = inr user' → c ∈ columns user → c ∈ columns user'.
Proof.
  rewrite apply_normalize_with_meta_eq. destruct (Pd.empty user); [by intros [= <-]|].
  destruct (Pd.has_column TYPE_COLUMN meta); [|done].
  destruct (Pd.has_column TYPE_COLUMN user); [|done]. cbn [negb].
  intros [= <-] Hc. cbn [columns]. destruct (existsb _ _); [|done].
  apply elem_of_union_columns. by left.
Qed.

(** X3.  In survey mode the merge returns when the user sheet has a [type]
    and a [name] column, both templates have a [name] column, and the
    metadata frame has a [type] column, which is not needed when the user
    sheet is empty. *)
Theorem survey_merge_returns meta mandatory user digitisation :
  "list_name" ∉ columns user →
  TYPE_COLUMN ∈ columns user →
  NAME_COLUMN ∈ columns user →
  Pd.empty user = true ∨ TYPE_COLUMN ∈ columns meta →
  NAME_COLUMN ∈ columns mandatory →
  NAME_COLUMN ∈ columns digitisation →
  ∃ merged, merge_dataframes meta mandatory user digitisation = inr merged.
Proof.
  intros Hl%has_column_false Ht Hn Hmeta Hm%has_column_true Hd%has_column_true.
  unfold merge_dataframes. rewrite Hl.
  assert (∃ user', apply_normalize_with_meta user meta = inr user') as [user' Hu].
  { rewrite apply_normalize_with_meta_eq. destruct (Pd.empty user); [by eexists|].
    destruct Hmeta as [?|Hmeta]; [done|].
    rewrite (proj2 (has_column_true _ _) Hmeta), (proj2 (has_column_true _ _) Ht).
    by eexists. }
  rewrite Hu.
  rewrite (proj2 (has_column_true NAME_COLUMN user'))
    by (by eapply apply_normalize_with_meta_columns).
  rewrite Hm, Hd.
  rewrite (proj2 (has_column_true "type" user'))
    by (by eapply apply_normalize_with_meta_columns).
  by eexists.
Qed.

Lemma survey_merge_returns_witness :
  ("list_name" ∉ columns SampleMerge.user ∧
   TYPE_COLUMN ∈ columns SampleMerge.user ∧
   NAME_COLUMN ∈ columns SampleMerge.user ∧
   (Pd.empty SampleMerge.user = true ∨ TYPE_COLUMN ∈ columns Sample.meta) ∧
   NAME_COLUMN ∈ columns Sample.survey ∧
   NAME_COLUMN ∈ columns Sample.digitisation) ∧
  ∃ merged, merge_dataframes Sample.meta Sample.survey SampleMerge.user Sample.digitisation
            = inr merged.
Proof.
  assert (H1 : "list_name" ∉ columns SampleMerge.user)
    by (apply (bool_decide_unpack _); vm_compute; exact I).
  assert (H2 : TYPE_COLUMN ∈ columns SampleMerge.user)
    by (apply (bool_decide_unpack _); vm_compute; exact I).
  assert (H3 : NAME_COLUMN ∈ columns SampleMerge.user)
    by (apply (bool_decide_unpack _); vm_compute; exact I).
  assert (H4 : Pd.empty SampleMerge.user = true ∨ TYPE_COLUMN ∈ columns Sample.meta)
    by (right; apply (bool_decide_unpack _); vm_compute; exact I).
  assert (H5 : NAME_COLUMN ∈ columns Sample.survey)
    by (apply (bool_decide_unpack _); vm_compute; exact I).
  assert (H6 : NAME_COLUMN ∈ columns Sample.digitisation)
    by (apply (bool_decide_unpack _); vm_compute; exact I).
  split; [exact (conj H1 (conj H2 (conj H3 (conj H4 (conj H5 H6)))))|].
  exact (survey_merge_returns Sample.meta Sample.survey SampleMerge.user Sample.digitisation
           H1 H2 H3 H4 H5 H6).
Defined.

(** X4.  In survey mode the merge raises a [KeyError] when the user sheet
    has no [type] column or one of the templates has no [name] column; a
    user sheet with rows and without a [type] column fails on ["type"], in
    the metadata substitution, before anything else is looked at.  In
    choice mode the merge raises [KeyError] on ["name"] when none of the
    three frames has a [name] column. *)
Theorem merge_key_errors meta mandatory user digitisation :
  ("list_name" ∉ columns user →
   TYPE_COLUMN ∉ columns user ∨ NAME_COLUMN ∉ columns mandatory
   ∨ NAME_COLUMN ∉ columns digitisation →
   ∃ k, merge_dataframes meta mandatory user digitisation = inl (KeyError k) ∧
        (k = "type" ∨ k = "name")) ∧
  ("list_name" ∉ columns user → Pd.empty user = false → TYPE_COLUMN ∉ columns user →
   merge_dataframes meta mandatory user digitisation = inl (KeyError "type")) ∧
  ("list_name" ∈ columns user →
   NAME_COLUMN ∉ columns mandatory ++ columns user ++ columns digitisation →
   merge_dataframes meta mandatory user digitisation = inl (KeyError "name")).
Proof.
  split; [|split].
  - intros Hl%has_column_false Hmiss. unfold merge_dataframes. rewrite Hl.
    destruct (apply_normalize_with_meta user meta) as [err|user'] eqn:Hu.
    { rewrite apply_normalize_with_meta_eq in Hu. destruct (Pd.empty user); [done|].
      destruct (Pd.has_column TYPE_COLUMN meta); [|injection Hu as <-; eauto].
      destruct (Pd.has_column TYPE_COLUMN user); [done|injection Hu as <-; eauto]. }
    destruct (Pd.has_column NAME_COLUMN user'); [|eauto].
    destruct (Pd.has_column NAME_COLUMN mandatory) eqn:Em; [|eauto].
    destruct (Pd.has_column NAME_COLUMN digitisation) eqn:Ed; [|eauto].
    destruct (Pd.has_column "type" user') eqn:Et; [|eauto]. exfalso.
    apply has_column_true in Em, Ed, Et.
    destruct Hmiss as [Hmiss|[?|?]]; [|done..]. apply Hmiss.
    rewrite apply_normalize_with_meta_eq in Hu. destruct (Pd.empty user); [by injection Hu as <-|].
    destruct (Pd.has_column TYPE_COLUMN meta); [|done].
    destruct (Pd.has_column TYPE_COLUMN user) eqn:E; [|done]. by apply has_column_true.
  - intros Hl%has_column_false He Ht%has_column_false. unfold merge_dataframes. rewrite Hl.
    rewrite apply_normalize_with_meta_eq. rewrite He, Ht.
    by destruct (Pd.has_column TYPE_COLUMN meta).
  - intros Hl Hn. unfold merge_dataframes.
    rewrite (proj2 (has_column_true _ _) Hl). unfold Pd.drop_duplicates.
    rewrite (proj2 (has_column_true "list_name" _)).
    2:{ apply elem_of_concat_columns. exists user. split; [|done]. right. left. }
    rewrite (proj2 (has_column_false NAME_COLUMN _)); [done|].
    intros (df & Hdf & Hc)%elem_of_concat_columns. apply Hn. rewrite !elem_of_app.
    rewrite !elem_of_cons in Hdf. destruct Hdf as [->|[->|[->|?%elem_of_nil]]]; tauto.
Qed.

Lemma merge_key_errors_witness :
  ("list_name" ∉ columns SampleMerge.header_line ∧
   (TYPE_COLUMN ∉ columns SampleMerge.header_line ∨ NAME_COLUMN ∉ columns Sample.survey
    ∨ NAME_COLUMN ∉ columns Sample.digitisation) ∧
   "list_name" ∉ columns blank_name ∧ Pd.empty raw_headers = false ∧
   "list_name" ∉ columns raw_headers ∧ TYPE_COLUMN ∉ columns raw_headers ∧
   "list_name" ∈ columns SampleMerge.nameless_choices ∧
   NAME_COLUMN ∉ columns Sample.entities ++ columns SampleMerge.nameless_choices
                 ++ columns Sample.entities) ∧
  (∃ k, merge_dataframes Sample.meta Sample.survey SampleMerge.header_line Sample.digitisation
        = inl (KeyError k) ∧ (k = "type" ∨ k = "name")) ∧
  merge_dataframes Sample.meta Sample.survey raw_headers Sample.digitisation
  = inl (KeyError "type") ∧
  merge_dataframes Sample.meta Sample.entities SampleMerge.nameless_choices Sample.entities
  = inl (KeyError "name").
Proof.
  assert (H1 : "list_name" ∉ columns SampleMerge.header_line)
    by (apply (bool_decide_unpack _); vm_compute; exact I).
  assert (H2 : TYPE_COLUMN ∉ columns SampleMerge.header_line)
    by (apply (bool_decide_unpack _); vm_compute; exact I).
  assert (H3 : "list_name" ∉ columns blank_name)
    by (apply (bool_decide_unpack _); vm_compute; exact I).
  assert (H4 : Pd.empty raw_headers = false) by reflexivity.
  assert (H5 : "list_name" ∉ columns raw_headers)
    by (apply (bool_decide_unpack _); vm_compute; exact I).
  assert (H6 : TYPE_COLUMN ∉ columns raw_headers)
    by (apply (bool_decide_unpack _); vm_compute; exact I).
  assert (H7 : "list_name" ∈ columns SampleMerge.nameless_choices)
    by (apply (bool_decide_unpack _); vm_compute; exact I).
  assert (H8 : NAME_COLUMN ∉ columns Sample.entities ++ columns SampleMerge.nameless_choices
                             ++ columns Sample.entities)
    by (apply (bool_decide_unpack _); vm_compute; exact I).
  split; [exact (conj H1 (conj (or_introl H2) (conj H3 (conj H4 (conj H5 (conj H6
                   (conj H7 H8)))))))|].
  split; [exact (proj1 (merge_key_errors Sample.meta Sample.survey SampleMerge.header_line
                          Sample.digitisation) H1 (or_introl H2))|].
  split; [exact (proj1 (proj2 (merge_key_errors Sample.meta Sample.survey raw_headers
                                 Sample.digitisation)) H5 H4 H6)|].
  exact (proj2 (proj2 (merge_key_errors Sample.meta Sample.entities
                         SampleMerge.nameless_choices Sample.entities)) H7 H8).
Defined.


(** ** The metadata substitution *)

Lemma filter_first {A} (p : A → bool) (l : list A) i x :
  l !! i = Some x → p x = true →
  (∀ j y, j < i → l !! j = Some y → p y = false) →
  ∃ tl, List.filter p l = x :: tl.
Proof.
  revert i. induction l as [|a l IH]; intros i Hi Hp Hlt; [done|].
  destruct i as [|i]; cbn in *.
  - injection Hi as ->. rewrite Hp. eauto.
  - rewrite (Hlt 0 a) by (done || lia). apply (IH i); [done..|].
    intros j y ? ?. apply (Hlt (S j)); [lia|done].
Qed.

Lemma filter_none {A} (p : A → bool) (l : list A) :
  Forall (λ x, p x = false) l → List.filter p l = [].
Proof. induction 1 as [|x l Hx _ IH]; cbn; [done|]. by rewrite Hx. Qed.

Lemma substitute_lookup (m0 : row) (cols : list string) : ∀ (r : row) c,
  foldl (λ (r : row) col, match m0 !! col with
                          | Some v => <[col := v]> r
                          | None => delete col r
                          end) r cols !! c
  = if decide (c ∈ cols) then m0 !! c else r !! c.
Proof.
  induction cols as [|col cols IH]; intros r c; cbn [foldl].
  - by rewrite decide_False by apply not_elem_of_nil.
  - rewrite IH. destruct (decide (c ∈ cols)) as [Hin|Hnin].
    + by rewrite decide_True by (by right).
    + destruct (decide (c = col)) as [->|Hne].
      * rewrite decide_True by left.
        destruct (m0 !! col) eqn:E; [by rewrite lookup_insert_eq|by rewrite lookup_delete_eq].
      * rewrite decide_False by (intros [?|?]%elem_of_cons; done).
        destruct (m0 !! col); [by rewrite lookup_insert_ne|by rewrite lookup_delete_ne].
Qed.

(** X5.  [normalize_with_meta] raises [KeyError] on ["type"] when the
    metadata frame has no [type] column and when the row has no [type]
    label.  Otherwise it returns: the row as it is when no metadata row has
    its type; else it takes the first metadata row of that type and
    overwrites, in the user row, every column of the metadata frame with
    the cell of that metadata row, a missing cell included, so that the
    name the user gave is replaced by the metadata name.  The columns the
    metadata frame does not have keep the user's cells. *)
Theorem normalize_with_meta_substitutes (index : list string) (r : row) meta :
  (TYPE_COLUMN ∉ columns meta ∨ TYPE_COLUMN ∉ index →
   normalize_with_meta index r meta = inl (KeyError "type")) ∧
  (TYPE_COLUMN ∈ columns meta → TYPE_COLUMN ∈ index →
   ∃ r', normalize_with_meta index r meta = inr r' ∧
     (Forall (λ m, same_type r m = false) (rows meta) → r' = r) ∧
     (∀ i m0,
        rows meta !! i = Some m0 → same_type r m0 = true →
        (∀ j m, j < i → rows meta !! j = Some m → same_type r m = false) →
        ∀ c, r' !! c = if decide (c ∈ columns meta) then m0 !! c else r !! c)).
Proof.
  split.
  - intros H. unfold normalize_with_meta.
    change (Pd.has_column "type" meta) with (Pd.has_column TYPE_COLUMN meta).
    destruct (Pd.has_column TYPE_COLUMN meta) eqn:Hm; [|done]. cbn [negb].
    destruct H as [H|H]; [by apply has_column_false in H; congruence|].
    by rewrite (bool_decide_eq_false_2 _ H).
  - intros Hm Hi. exists (meta_substitute r meta).
    split; [by apply normalize_with_meta_returns|].
    unfold meta_substitute. split.
    + intros H. by rewrite filter_none.
    + intros i m0 Hi0 Hs Hlt c.
      destruct (filter_first (same_type r) (rows meta) i m0 Hi0 Hs Hlt) as [tl ->].
      apply substitute_lookup.
Qed.

Lemma normalize_with_meta_substitutes_witness :
  ((TYPE_COLUMN ∉ columns Sample.entities ∨ TYPE_COLUMN ∉ ["type"; "name"]) ∧
   TYPE_COLUMN ∈ columns Sample.meta ∧ TYPE_COLUMN ∈ ["type"; "name"; "hint"] ∧
   rows Sample.meta !! 0 = Some (list_to_map [("type", CStr "start"); ("name", CStr "start")]) ∧
   same_type renamed_start (list_to_map [("type", CStr "start"); ("name", CStr "start")]) = true) ∧
  normalize_with_meta ["type"; "name"] renamed_start Sample.entities = inl (KeyError "type") ∧
  ∃ r', normalize_with_meta ["type"; "name"; "hint"] renamed_start Sample.meta = inr r' ∧
        r' !! "name" = Some (CStr "start") ∧ r' !! "hint" = Some (CStr "mine").
Proof.
  assert (H0 : TYPE_COLUMN ∉ columns Sample.entities ∨ TYPE_COLUMN ∉ ["type"; "name"])
    by (left; apply (bool_decide_unpack _); vm_compute; exact I).
  assert (Hm : TYPE_COLUMN ∈ columns Sample.meta)
    by (apply (bool_decide_unpack _); vm_compute; exact I).
  assert (Hi : TYPE_COLUMN ∈ ["type"; "name"; "hint"])
    by (apply (bool_decide_unpack _); vm_compute; exact I).
  assert (H1 : rows Sample.meta !! 0
               = Some (list_to_map [("type", CStr "start"); ("name", CStr "start")]))
    by reflexivity.
  assert (H2 : same_type renamed_start
                 (list_to_map [("type", CStr "start"); ("name", CStr "start")]) = true)
    by reflexivity.
  assert (H4 : ∀ j m, j < 0 → rows Sample.meta !! j = Some m → same_type renamed_start m = false)
    by (intros j m Hj; lia).
  split; [exact (conj H0 (conj Hm (conj Hi (conj H1 H2))))|].
  split; [exact (proj1 (normalize_with_meta_substitutes ["type"; "name"] renamed_start
                           Sample.entities) H0)|].
  destruct (proj2 (normalize_with_meta_substitutes ["type"; "name"; "hint"] renamed_start
                     Sample.meta) Hm Hi) as (r' & Hr & _ & Hsub).
  exists r'. split; [exact Hr|]. split.
  - exact (Hsub 0 _ H1 H2 H4 "name").
  - exact (Hsub 0 _ H1 H2 H4 "hint").
Defined.

(** ** The assembler: errors, output sheets, identifiers *)

Lemma add_entities_store names : ∀ (d : dict sheet) σ, (add_entities names d σ).2 = σ.
Proof.
  induction names as [|en names IH]; intros d σ; [done|].
  cbn [add_entities]. unfold mbind at 1, M_bind at 1. unfold getitem.
  destruct (dict_get "survey" d) as [[df|t]|]; cbn [deref]; [| |done].
  - unfold mret at 1, M_ret at 1. unfold mbind at 1, M_bind at 1. unfold lift at 1.
    destruct (append_select_one_from_file_row df en); [done|]. apply IH.
  - unfold read at 1. unfold mbind at 1, M_bind at 1. unfold lift at 1.
    destruct (append_select_one_from_file_row (load σ t) en); [done|]. apply IH.
Qed.

Lemma add_entities_keys names : ∀ (d d' : dict sheet) σ σ1,
  add_entities names d σ = (inr d', σ1) →
  ∀ k, k ≠ "survey" → dict_get k d' = dict_get k d.
Proof.
  induction names as [|en names IH]; intros d d' σ σ1; [by intros [= <- _]|].
  cbn [add_entities]. unfold mbind at 1, M_bind at 1.
  destruct (getitem "survey" d σ) as [[err|df] σ0]; [done|].
  unfold mbind at 1, M_bind at 1. unfold lift at 1.
  destruct (append_select_one_from_file_row df en) as [|df']; [done|].
  intros H k Hk. rewrite (IH _ _ _ _ H k Hk). by apply dict_get_set_ne.
Qed.

(** X6.  The assembler raises before it has written anything: without a
    survey sheet it raises the [ValueError] of the required sheet, and an
    error of the survey merge or of the choices merge is passed on; in all
    three cases every template, the settings template included, is as it
    was. *)
Theorem assembler_raises_before_stamping e custom_form form_category additional_entities
    existing_id σ :
  let run := append_mandatory_fields e custom_form form_category additional_entities
               existing_id σ in
  (dict_get "survey" custom_form = None →
   run = (inl (ValueError "Survey sheet is required in XLSForm!"), σ)) ∧
  (∀ user err,
     dict_get "survey" custom_form = Some user →
     merge_dataframes (load σ meta_df) (load σ survey_df) (standardize_sheet user)
                      (load σ digitisation_df) = inl err →
     run = (inl err, σ)) ∧
  (∀ user merged err,
     dict_get "survey" custom_form = Some user →
     merge_dataframes (load σ meta_df) (load σ survey_df) (standardize_sheet user)
                      (load σ digitisation_df) = inr merged →
     merge_dataframes (load σ meta_df) (load σ choices_df) (user_choices_of custom_form)
                      (load σ digitisation_choices_df) = inl err →
     run = (inl err, σ)).
Proof.
  intros run. subst run. split; [|split].
  - apply append_mandatory_fields_no_survey.
  - intros user err Hu Hm. by rewrite (append_mandatory_fields_run _ _ _ _ _ _ user Hu), Hm.
  - intros user merged err Hu Hm Hc.
    by rewrite (append_mandatory_fields_run _ _ _ _ _ _ user Hu), Hm, Hc.
Qed.

Lemma assembler_raises_before_stamping_witness :
  (dict_get "survey" [("choices", Sample.user_choices)] = None ∧
   dict_get "survey" [("survey", raw_headers)] = Some raw_headers ∧
   merge_dataframes (load Sample.templates meta_df) (load Sample.templates survey_df)
     (standardize_sheet raw_headers) (load Sample.templates digitisation_df)
   = inl (KeyError "type")) ∧
  append_mandatory_fields Sample.e [("choices", Sample.user_choices)] "buildings" None None
    Sample.templates
  = (inl (ValueError "Survey sheet is required in XLSForm!"), Sample.templates) ∧
  append_mandatory_fields Sample.e [("survey", raw_headers)] "buildings" None None
    Sample.templates
  = (inl (KeyError "type"), Sample.templates).
Proof.
  assert (H1 : dict_get "survey" [("choices", Sample.user_choices)] = None) by reflexivity.
  assert (H2 : dict_get "survey" [("survey", raw_headers)] = Some raw_headers) by reflexivity.
  assert (H3 : merge_dataframes (load Sample.templates meta_df)
                 (load Sample.templates survey_df) (standardize_sheet raw_headers)
                 (load Sample.templates digitisation_df) = inl (KeyError "type"))
    by (vm_compute; reflexivity).
  split; [exact (conj H1 (conj H2 H3))|]. split.
  - exact (proj1 (assembler_raises_before_stamping Sample.e [("choices", Sample.user_choices)]
                    "buildings" None None Sample.templates) H1).
  - exact (proj1 (proj2 (assembler_raises_before_stamping Sample.e [("survey", raw_headers)]
                           "buildings" None None Sample.templates))
             raw_headers (KeyError "type") H2 H3).
Defined.

Lemma assemble_tail_other_sheets e custom_form form_category additional_entities existing_id
    σ merged choices r σ1 k :
  assemble_tail e custom_form form_category additional_entities existing_id σ merged choices
  = (inr r, σ1) →
  k ∉ ["survey"; "choices"; "entities"; "settings"] →
  dict_get k r.2 = standardize_sheet <$> dict_get k custom_form.
Proof.
  intros Hrun Hk. unfold assemble_tail in Hrun.
  set (σ' := store_set settings_df _ σ) in *.
  set (sheets := final_sheets custom_form _ choices) in *.
  assert (Hne : k ≠ "survey" ∧ k ≠ "choices" ∧ k ≠ "entities" ∧ k ≠ "settings").
  { rewrite !not_elem_of_cons in Hk. naive_solver. }
  destruct Hne as (H1 & H2 & H3 & H4).
  assert (Hs : dict_get k sheets = Own <$> (standardize_sheet <$> dict_get k custom_form)).
  { unfold sheets, final_sheets. rewrite !dict_get_set_ne by done.
    unfold standardize_xlsform_sheets. by rewrite !dict_get_fmap. }
  assert (Hd : ∀ d σ2, dict_get k d = dict_get k sheets →
            dict_get k (view σ2 d) = standardize_sheet <$> dict_get k custom_form).
  { intros d σ2 Hdk. rewrite dict_get_view, Hdk, Hs.
    by destruct (dict_get k custom_form). }
  destruct additional_entities as [[|en names]|].
  - injection Hrun as <- _. by apply Hd.
  - destruct (add_entities (en :: names) sheets σ') as [[err|d] σ''] eqn:Hadd; [done|].
    injection Hrun as <- _. apply Hd. by eapply add_entities_keys.
  - injection Hrun as <- _. by apply Hd.
Qed.

(** X7.  The output of a returning run has the sheets [survey], [choices],
    [entities] and [settings]: the entities sheet is the entities template,
    whatever the upload had under that name, the choices sheet is the
    result of the choices merge, and every other sheet of the upload is
    passed on normalised. *)
Theorem output_sheets e custom_form form_category additional_entities existing_id σ r :
  (append_mandatory_fields e custom_form form_category additional_entities existing_id σ).1
  = inr r →
  dict_get "entities" r.2 = Some (load σ entities_df) ∧
  (∃ choices,
     merge_dataframes (load σ meta_df) (load σ choices_df) (user_choices_of custom_form)
                      (load σ digitisation_choices_df) = inr choices ∧
     dict_get "choices" r.2 = Some choices) ∧
  is_Some (dict_get "survey" r.2) ∧
  is_Some (dict_get "settings" r.2) ∧
  (∀ k, k ∉ ["survey"; "choices"; "entities"; "settings"] →
        dict_get k r.2 = standardize_sheet <$> dict_get k custom_form).
Proof.
  destruct (append_mandatory_fields _ _ _ _ _ σ) as [res σ1] eqn:Hrun.
  cbn [fst]. intros ->.
  apply append_mandatory_fields_returns in Hrun as (user & merged & choices & _ & _ & Hc & Ht).
  destruct (assemble_tail_returns _ _ _ _ _ _ _ _ _ _ Ht)
    as (_ & _ & Hs & He & Hch & survey & Hsv & _).
  split; [done|]. split; [by exists choices|]. split; [by eexists|]. split; [by eexists|].
  intros k Hk. by eapply assemble_tail_other_sheets.
Qed.

Lemma output_sheets_witness :
  (append_mandatory_fields Sample.e Sample.form "buildings" None None Sample.templates).1
  = inr SampleRun.plain ∧
  dict_get "entities" SampleRun.plain.2 = Some (load Sample.templates entities_df) ∧
  (∃ choices,
     merge_dataframes (load Sample.templates meta_df) (load Sample.templates choices_df)
       (user_choices_of Sample.form) (load Sample.templates digitisation_choices_df)
     = inr choices ∧
     dict_get "choices" SampleRun.plain.2 = Some choices) ∧
  is_Some (dict_get "survey" SampleRun.plain.2) ∧
  is_Some (dict_get "settings" SampleRun.plain.2) ∧
  (∀ k, k ∉ ["survey"; "choices"; "entities"; "settings"] →
        dict_get k SampleRun.plain.2 = standardize_sheet <$> dict_get k Sample.form).
Proof.
  assert (Hr : (append_mandatory_fields Sample.e Sample.form "buildings" None None
                  Sample.templates).1 = inr SampleRun.plain) by (vm_compute; reflexivity).
  split; [exact Hr|].
  exact (output_sheets Sample.e Sample.form "buildings" None None Sample.templates
           SampleRun.plain Hr).
Defined.

(** X8.  A returning run returns [existing_id] as the form identifier when
    one is given and is not the empty string, and the fresh [uuid4()]
    otherwise.  Its settings sheet has every row of the settings template
    with [version] set to the timestamp, [form_id] to the identifier and
    [form_title] to the category without a trailing "s", the other cells
    as they were; its columns are those of the template and these three. *)
Theorem settings_stamps e custom_form form_category additional_entities existing_id σ r :
  (append_mandatory_fields e custom_form form_category additional_entities existing_id σ).1
  = inr r →
  r.1 = match existing_id with
        | Some i => if decide (i = "") then uuid4 e else i
        | None => uuid4 e
        end ∧
  ∃ settings,
    dict_get "settings" r.2 = Some settings ∧
    rows settings
    = (λ x : row, <["form_title" := CStr (singular form_category)]>
                    (<["form_id" := CStr r.1]> (<["version" := CStr (now e)]> x)))
      <$> rows (load σ settings_df) ∧
    (∀ c, c ∈ columns settings ↔
          c ∈ columns (load σ settings_df) ∨ c ∈ ["version"; "form_id"; "form_title"]).
Proof.
  destruct (append_mandatory_fields _ _ _ _ _ σ) as [res σ1] eqn:Hrun.
  cbn [fst]. intros ->.
  apply append_mandatory_fields_returns in Hrun as (user & merged & choices & _ & _ & _ & Ht).
  destruct (assemble_tail_returns _ _ _ _ _ _ _ _ _ _ Ht) as (-> & Hid & Hs & _).
  split; [exact Hid|]. rewrite load_set_eq in Hs. eexists. split; [exact Hs|]. split.
  - unfold stamp_settings, Pd.set_column. cbn [rows]. rewrite Hid.
    rewrite <- !list_fmap_compose. done.
  - intros c. unfold stamp_settings, Pd.set_column. cbn [columns].
    repeat case_decide; set_solver.
Qed.

Lemma settings_stamps_witness :
  (append_mandatory_fields Sample.e Sample.form "buildings" None (Some "my-form")
     Sample.templates).1
  = inr ("my-form", (SampleRun.result_of
                       (append_mandatory_fields Sample.e Sample.form "buildings" None
                          (Some "my-form") Sample.templates).1).2) ∧
  ∃ settings,
    dict_get "settings"
      (SampleRun.result_of
         (append_mandatory_fields Sample.e Sample.form "buildings" None
            (Some "my-form") Sample.templates).1).2 = Some settings ∧
    rows settings
    = (λ x : row, <["form_title" := CStr (singular "buildings")]>
                    (<["form_id" := CStr "my-form"]>
                       (<["version" := CStr (now Sample.e)]> x)))
      <$> rows (load Sample.templates settings_df).
Proof.
  assert (Hr : (append_mandatory_fields Sample.e Sample.form "buildings" None (Some "my-form")
                  Sample.templates).1
               = inr ("my-form", (SampleRun.result_of
                       (append_mandatory_fields Sample.e Sample.form "buildings" None
                          (Some "my-form") Sample.templates).1).2))
    by (vm_compute; reflexivity).
  split; [exact Hr|].
  destruct (settings_stamps Sample.e Sample.form "buildings" None (Some "my-form")
              Sample.templates _ Hr) as (_ & settings & Hs & Hrows & _).
  exists settings. split; [exact Hs|exact Hrows].
Defined.

(** ** Invocations one after another *)

Lemma stamp_settings_overwrites v1 i1 t1 v2 i2 t2 df :
  stamp_settings v2 i2 t2 (stamp_settings v1 i1 t1 df) = stamp_settings v2 i2 t2 df.
Proof.
  unfold stamp_settings, Pd.set_column. cbn [columns rows]. f_equal.
  - repeat case_decide; try done; exfalso; set_solver.
  - rewrite <- !list_fmap_compose. apply list_fmap_ext. intros _ x _. cbn.
    apply map_eq. intros k. rewrite !lookup_insert. by repeat case_decide.
Qed.

(** The store a run leaves behind: the store it found, or that store with
    the settings template stamped. *)
Lemma run_final_store e custom_form form_category additional_entities existing_id σ :
  let σ1 := (append_mandatory_fields e custom_form form_category additional_entities
               existing_id σ).2 in
  σ1 = σ ∨ ∃ v i t, σ1 = store_set settings_df (stamp_settings v i t (load σ settings_df)) σ.
Proof.
  cbv zeta. destruct (dict_get "survey" custom_form) as [user|] eqn:Hu.
  - rewrite (append_mandatory_fields_run _ _ _ _ _ _ user Hu).
    destruct (merge_dataframes _ _ (standardize_sheet user) _) as [|merged]; [by left|].
    destruct (merge_dataframes _ _ (user_choices_of custom_form) _) as [|choices]; [by left|].
    right. do 3 eexists. unfold assemble_tail.
    destruct additional_entities as [[|en names]|]; [done| |done].
    match goal with |- context [add_entities ?n ?d ?s] =>
      pose proof (add_entities_store n d s) as Hst;
      destruct (add_entities n d s) as [[err|d'] σ''] end.
    + cbn [snd] in *. by subst.
    + cbn [snd] in *. by subst.
  - left. by rewrite append_mandatory_fields_no_survey.
Qed.

Lemma run_on_stamped_store e custom_form form_category additional_entities existing_id σ v i t :
  let σ1 := store_set settings_df (stamp_settings v i t (load σ settings_df)) σ in
  let run := append_mandatory_fields e custom_form form_category additional_entities
               existing_id in
  (run σ1).1 = (run σ).1 ∧ (∀ r, (run σ).1 = inr r → (run σ1).2 = (run σ).2).
Proof.
  intros σ1 run. subst run.
  destruct (dict_get "survey" custom_form) as [user|] eqn:Hu.
  - rewrite !(append_mandatory_fields_run _ _ _ _ _ _ user Hu).
    unfold σ1. rewrite !load_set_ne by done. fold σ1.
    destruct (merge_dataframes _ _ (standardize_sheet user) _) as [|merged]; [done|].
    destruct (merge_dataframes _ _ (user_choices_of custom_form) _) as [|choices]; [done|].
    assert (Heq : assemble_tail e custom_form form_category additional_entities existing_id
                    σ1 merged choices
                  = assemble_tail e custom_form form_category additional_entities existing_id
                      σ merged choices).
    { unfold assemble_tail, σ1.
      by rewrite load_set_eq, store_set_set, stamp_settings_overwrites. }
    by rewrite Heq.
  - rewrite !append_mandatory_fields_no_survey by done. done.
Qed.

(** X9.  What an invocation returns does not depend on the invocations
    before it: run after any other invocation, returning or raising, the
    assembler gives the result it gives on the untouched templates, and
    when it returns it leaves the templates in the same state.  The stamps
    an earlier run wrote into the settings template are overwritten. *)
Theorem earlier_runs_are_not_seen
    e1 form1 category1 entities1 id1 e2 form2 category2 entities2 id2 σ :
  let σ1 := (append_mandatory_fields e1 form1 category1 entities1 id1 σ).2 in
  let run := append_mandatory_fields e2 form2 category2 entities2 id2 in
  (run σ1).1 = (run σ).1 ∧ (∀ r, (run σ).1 = inr r → (run σ1).2 = (run σ).2).
Proof.
  intros σ1 run.
  destruct (run_final_store e1 form1 category1 entities1 id1 σ) as [H|(v & i & t & H)];
    fold σ1 in H; rewrite H.
  - done.
  - apply run_on_stamped_store.
Qed.

Lemma earlier_runs_are_not_seen_witness :
  (append_mandatory_fields Sample.e Sample.form "buildings" None None Sample.templates).1
  = inr SampleRun.plain ∧
  (append_mandatory_fields Sample.e Sample.form "buildings" None None
     (append_mandatory_fields (mkEnv "uuid-0" "2023-12-31 23:59:59") Sample.form "roads"
        (Some ["roads"]) (Some "old") Sample.templates).2).1
  = inr SampleRun.plain ∧
  (append_mandatory_fields Sample.e Sample.form "buildings" None None
     (append_mandatory_fields (mkEnv "uuid-0" "2023-12-31 23:59:59") Sample.form "roads"
        (Some ["roads"]) (Some "old") Sample.templates).2).2
  = (append_mandatory_fields Sample.e Sample.form "buildings" None None Sample.templates).2.
Proof.
  assert (Hr : (append_mandatory_fields Sample.e Sample.form "buildings" None None
                  Sample.templates).1 = inr SampleRun.plain) by (vm_compute; reflexivity).
  pose proof (earlier_runs_are_not_seen (mkEnv "uuid-0" "2023-12-31 23:59:59") Sample.form
                "roads" (Some ["roads"]) (Some "old")
                Sample.e Sample.form "buildings" None None Sample.templates) as [H1 H2].
  split; [exact Hr|]. split.
  - exact (eq_trans H1 Hr).
  - exact (H2 SampleRun.plain Hr).
Defined.

(** X10.  When the merged survey sheet has no row named [feature] and an
    additional entity is asked for, the assembler raises the [ValueError]
    of the missing anchor, for the first entity already, and it raises it
    after the stamps: the settings template has the [version], [form_id]
    and [form_title] of the failed run. *)
Theorem entity_loop_fails_after_stamps e custom_form form_category entity_name names
    existing_id σ user merged choices :
  dict_get "survey" custom_form = Some user →
  merge_dataframes (load σ meta_df) (load σ survey_df) (standardize_sheet user)
                   (load σ digitisation_df) = inr merged →
  merge_dataframes (load σ meta_df) (load σ choices_df) (user_choices_of custom_form)
                   (load σ digitisation_choices_df) = inr choices →
  Forall (λ x : row, x !! NAME_COLUMN ≠ Some (CStr FEATURE_COLUMN)) (rows merged) →
  append_mandatory_fields e custom_form form_category (Some (entity_name :: names))
    existing_id σ
  = (inl (ValueError ANCHOR_MSG),
     store_set settings_df
       (stamp_settings (now e) (xform_id_of e existing_id) (singular form_category)
          (load σ settings_df)) σ).
Proof.
  intros Hu Hm Hc Hno.
  rewrite (append_mandatory_fields_run _ _ _ _ _ _ user Hu), Hm, Hc.
  unfold assemble_tail.
  set (stamped := stamp_category (singular form_category) merged).
  set (σ' := store_set settings_df _ σ).
  pose proof (merge_dataframes_name _ _ _ _ _ Hm) as Hn.
  assert (Happ : append_select_one_from_file_row stamped entity_name
                 = inl (ValueError ANCHOR_MSG)).
  { unfold append_select_one_from_file_row.
    rewrite (proj2 (has_column_true NAME_COLUMN stamped))
      by (by apply stamp_category_columns).
    cbn [negb].
    assert (Hnil : feature_indices 0 (rows stamped) = []); [|by rewrite Hnil].
    apply feature_indices_nil. intros x Hx. unfold stamped in Hx.
    rewrite stamp_category_rows in Hx by done.
    apply list_elem_of_fmap in Hx as (x0 & -> & Hx0).
    rewrite Forall_forall in Hno. specialize (Hno x0 Hx0).
    unfold is_feature. apply bool_decide_eq_false.
    destruct (is_form_category x0); [by rewrite lookup_insert_ne|done]. }
  cbn [add_entities]. unfold mbind at 1, M_bind at 1.
  rewrite (getitem_own _ _ stamped) by apply final_sheets_survey.
  unfold mbind at 1, M_bind at 1. unfold lift at 1. by rewrite Happ.
Qed.

Lemma entity_loop_fails_after_stamps_witness :
  (dict_get "survey" NoAnchor.form = Some blank_name ∧
   merge_dataframes (load NoAnchor.templates meta_df) (load NoAnchor.templates survey_df)
     (standardize_sheet blank_name) (load NoAnchor.templates digitisation_df)
   = inr NoAnchor.merged ∧
   merge_dataframes (load NoAnchor.templates meta_df) (load NoAnchor.templates choices_df)
     (user_choices_of NoAnchor.form) (load NoAnchor.templates digitisation_choices_df)
   = inr NoAnchor.choices ∧
   Forall (λ x : row, x !! NAME_COLUMN ≠ Some (CStr FEATURE_COLUMN)) (rows NoAnchor.merged)) ∧
  append_mandatory_fields Sample.e NoAnchor.form "buildings" (Some ["roads"]) None
    NoAnchor.templates
  = (inl (ValueError ANCHOR_MSG),
     store_set settings_df
       (stamp_settings (now Sample.e) (xform_id_of Sample.e None) (singular "buildings")
          (load NoAnchor.templates settings_df)) NoAnchor.templates).
Proof.
  assert (H1 : dict_get "survey" NoAnchor.form = Some blank_name) by reflexivity.
  assert (H2 : merge_dataframes (load NoAnchor.templates meta_df)
                 (load NoAnchor.templates survey_df) (standardize_sheet blank_name)
                 (load NoAnchor.templates digitisation_df) = inr NoAnchor.merged)
    by (vm_compute; reflexivity).
  assert (H3 : merge_dataframes (load NoAnchor.templates meta_df)
                 (load NoAnchor.templates choices_df) (user_choices_of NoAnchor.form)
                 (load NoAnchor.templates digitisation_choices_df) = inr NoAnchor.choices)
    by (vm_compute; reflexivity).
  assert (H4 : Forall (λ x : row, x !! NAME_COLUMN ≠ Some (CStr FEATURE_COLUMN))
                 (rows NoAnchor.merged))
    by (apply (bool_decide_unpack _); vm_compute; exact I).
  split; [exact (conj H1 (conj H2 (conj H3 H4)))|].
  exact (entity_loop_fails_after_stamps Sample.e NoAnchor.form "buildings" "roads" [] None
           NoAnchor.templates blank_name NoAnchor.merged NoAnchor.choices H1 H2 H3 H4).
Defined.

(** ** The normaliser, once more *)

Lemma chr_byte a : PyStr.chr (PyStr.byte a) = a.
Proof. unfold PyStr.chr, PyStr.byte. by rewrite Nat2Z.id, ascii_nat_embedding. Qed.

Lemma decode_ascii_cons a s :
  (PyStr.byte a <? 128)%Z = true →
  PyStr.decode (String a s) = PyStr.byte a :: PyStr.decode s.
Proof. intros H. unfold PyStr.decode. cbn [PyStr.decode_from]. by rewrite H. Qed.

Lemma encode_ascii_cons c l :
  (c <? 128)%Z = true → PyStr.encode (c :: l) = String (PyStr.chr c) (PyStr.encode l).
Proof. intros H. cbn [PyStr.encode]. unfold PyStr.encode_point. by rewrite H. Qed.

(** [str.lower] on an ASCII character: the result is an ASCII character
    that [str.lower] leaves alone. *)
Lemma lower_point_ascii a :
  (PyStr.byte a <? 128)%Z = true →
  ((PyStr.byte a =? 931) || (PyStr.byte a =? 304))%Z = false ∧
  (PyStr.lower_point (PyStr.byte a) <? 128)%Z = true ∧
  PyStr.byte (PyStr.chr (PyStr.lower_point (PyStr.byte a))) = PyStr.lower_point (PyStr.byte a) ∧
  PyStr.lower_point (PyStr.lower_point (PyStr.byte a)) = PyStr.lower_point (PyStr.byte a).
Proof.
  destruct a as [[] [] [] [] [] [] [] []]; intros H; vm_compute in H; try discriminate H;
    vm_compute; done.
Qed.

Lemma lower_points_ascii s : ∀ before,
  ascii_only s = true →
  let s' := PyStr.encode (PyStr.lower_points before (PyStr.decode s)) in
  ascii_only s' = true ∧
  ∀ before', PyStr.encode (PyStr.lower_points before' (PyStr.decode s')) = s'.
Proof.
  induction s as [|a s IH]; intros before Hs; [done|].
  cbn [ascii_only] in Hs. apply andb_true_iff in Hs as [Ha Hs].
  destruct (lower_point_ascii a Ha) as (Hne & Hlt & Hb & Hidem).
  apply orb_false_iff in Hne as [Hne1 Hne2].
  rewrite decode_ascii_cons by done. cbn [PyStr.lower_points]. rewrite Hne1, Hne2.
  cbn [app]. rewrite encode_ascii_cons by done.
  destruct (IH (PyStr.byte a :: before) Hs) as [IH1 IH2]. cbv zeta. split.
  - cbn [ascii_only]. by rewrite Hb, Hlt, IH1.
  - intros before'. rewrite decode_ascii_cons by (by rewrite Hb).
    rewrite Hb. cbn [PyStr.lower_points].
    assert (Hne' : ((PyStr.lower_point (PyStr.byte a) =? 931)
                    || (PyStr.lower_point (PyStr.byte a) =? 304))%Z = false).
    { clear -Ha. destruct a as [[] [] [] [] [] [] [] []]; vm_compute in Ha; try discriminate Ha;
        vm_compute; done. }
    apply orb_false_iff in Hne' as [-> ->]. cbn [app].
    rewrite Hidem, encode_ascii_cons by done. by rewrite IH2.
Qed.

Lemma lower_ascii_only s : ascii_only s = true → ascii_only (PyStr.lower s) = true.
Proof. intros H. apply (lower_points_ascii s [] H). Qed.

Lemma lower_idem s : ascii_only s = true → PyStr.lower (PyStr.lower s) = PyStr.lower s.
Proof. intros H. apply (lower_points_ascii s [] H). Qed.

Lemma standard_names_lower :
  Forall (λ v, PyStr.lower v = v ∧ ascii_only v = true) standard_names.
Proof. apply (bool_decide_unpack _). vm_compute. exact I. Qed.

Lemma lower_std_name c :
  ascii_only c = true →
  PyStr.lower (std_name (PyStr.lower c)) = std_name (PyStr.lower c).
Proof.
  intros Hc.
  destruct (std_name_cases (PyStr.lower c)) as [[Hs _]|(base & v & Hb & Hf & ->)].
  - rewrite Hs. by apply lower_idem.
  - pose proof standard_names_lower as H. rewrite Forall_forall in H.
    apply H. by eapply fires_values.
Qed.

(** X11.  On a sheet with ASCII headers the header normalisation reaches
    its result in one pass: the columns of the sheet normalised twice are
    those of the sheet normalised once, and every column of a normalised
    sheet that was not empty is in lower case. *)
Theorem headers_normalised_once df :
  Forall (λ c, ascii_only c = true) (columns df) →
  columns (standardize_sheet (standardize_sheet df)) = columns (standardize_sheet df) ∧
  (Pd.empty df = false → Forall (λ c, PyStr.lower c = c) (columns (standardize_sheet df))).
Proof.
  intros Hascii. rewrite Forall_forall in Hascii.
  assert (Hcols : Pd.empty df = false →
            columns (standardize_sheet df) = (λ c, std_name (PyStr.lower c)) <$> columns df).
  { intros He. unfold standardize_sheet.
    by rewrite He, filter_df_empty_rows_columns, standardize_language_columns_columns. }
  split.
  - destruct (Pd.empty df) eqn:He.
    { unfold standardize_sheet at 2 3. rewrite He. unfold standardize_sheet. by rewrite He. }
    set (once := standardize_sheet df).
    destruct (Pd.empty once) eqn:He'.
    { unfold standardize_sheet. by rewrite He'. }
    unfold standardize_sheet at 1. rewrite He'.
    rewrite filter_df_empty_rows_columns, standardize_language_columns_columns.
    unfold once. rewrite Hcols by done. rewrite <- list_fmap_compose.
    apply list_fmap_ext. intros i c Hc. unfold compose. cbv beta.
    rewrite lower_std_name, std_name_idem; [done|].
    apply Hascii. by eapply list_elem_of_lookup_2.
  - intros He. rewrite Hcols by done. apply Forall_fmap, Forall_forall.
    intros c Hc. apply lower_std_name. by apply Hascii.
Qed.

Lemma headers_normalised_once_witness :
  (Forall (λ c, ascii_only c = true) (columns raw_headers) ∧ Pd.empty raw_headers = false) ∧
  columns (standardize_sheet (standardize_sheet raw_headers))
  = columns (standardize_sheet raw_headers) ∧
  Forall (λ c, PyStr.lower c = c) (columns (standardize_sheet raw_headers)).
Proof.
  assert (Ha : Forall (λ c, ascii_only c = true) (columns raw_headers))
    by (apply (bool_decide_unpack _); vm_compute; exact I).
  assert (He : Pd.empty raw_headers = false) by reflexivity.
  split; [exact (conj Ha He)|]. split.
  - exact (proj1 (headers_normalised_once raw_headers Ha)).
  - exact (proj2 (headers_normalised_once raw_headers Ha) He).
Defined.

Lemma filter_idem {A} (p : A → bool) (l : list A) :
  List.filter p (List.filter p l) = List.filter p l.
Proof.
  induction l as [|x l IH]; [done|]. cbn. destruct (p x) eqn:E; [|done].
  cbn. by rewrite E, IH.
Qed.

Lemma filter_all {A} (p : A → bool) (l : list A) :
  Forall (λ x, p x = true) l → List.filter p l = l.
Proof. induction 1 as [|x l Hx _ IH]; cbn; [done|]. by rewrite Hx, IH. Qed.

(** X12.  The row filter, for whatever column it is asked: filtering a
    second time removes nothing more; it never adds a row; and a frame in
    which every row has a cell in that column is returned with all its
    rows. *)
Theorem filter_df_empty_rows_stable df column :
  filter_df_empty_rows (filter_df_empty_rows df column) column
  = filter_df_empty_rows df column ∧
  length (rows (filter_df_empty_rows df column)) ≤ length (rows df) ∧
  (Forall (λ x : row, is_Some (x !! column)) (rows df) →
   filter_df_empty_rows df column = df).
Proof.
  unfold filter_df_empty_rows.
  destruct (Pd.has_column column df) eqn:Ec; [|by rewrite Ec].
  destruct (Pd.has_column "type" df) eqn:Et.
  - change (Pd.has_column column (Pd.select ?p df)) with (Pd.has_column column df).
    change (Pd.has_column "type" (Pd.select ?p df)) with (Pd.has_column "type" df).
    rewrite Ec, Et. split; [|split].
    + unfold Pd.select. cbn [rows columns]. by rewrite filter_idem.
    + apply sublist_length, select_sublist.
    + intros Hall. unfold Pd.select. destruct df as [cols rs]. cbn [rows columns] in *.
      f_equal. apply filter_all. eapply Forall_impl; [exact Hall|].
      intros x [v ->]. done.
  - change (Pd.has_column column (Pd.select ?p df)) with (Pd.has_column column df).
    change (Pd.has_column "type" (Pd.select ?p df)) with (Pd.has_column "type" df).
    rewrite Ec, Et. split; [|split].
    + unfold Pd.select. cbn [rows columns]. by rewrite filter_idem.
    + apply sublist_length, select_sublist.
    + intros Hall. unfold Pd.select. destruct df as [cols rs]. cbn [rows columns] in *.
      f_equal. apply filter_all. eapply Forall_impl; [exact Hall|].
      intros x [v ->]. done.
Qed.

Lemma filter_df_empty_rows_stable_witness :
  Forall (λ x : row, is_Some (x !! NAME_COLUMN)) (rows Sample.survey) ∧
  filter_df_empty_rows Sample.survey NAME_COLUMN = Sample.survey.
Proof.
  assert (H : Forall (λ x : row, is_Some (x !! NAME_COLUMN)) (rows Sample.survey))
    by (apply (bool_decide_unpack _); vm_compute; exact I).
  split; [exact H|].
  exact (proj2 (proj2 (filter_df_empty_rows_stable Sample.survey NAME_COLUMN)) H).
Defined.

(** ** One insertion *)

Lemma union_columns_nil (b : list string) : Pd.union_columns [] b = b.
Proof.
  unfold Pd.union_columns. cbn [app]. induction b as [|c b IH]; [done|].
  rewrite filter_cons_True by apply not_elem_of_nil. by rewrite IH.
Qed.

(** X13.  One call of the inserter on a frame with a [name] column and an
    anchor: the result has two more rows; the rows up to the anchor, the
    anchor included, are where they were; the question row and the
    calculation row follow the anchor; every row behind the anchor has
    moved down by two; the first anchor is still at its place, so the call
    can be repeated; and the columns are those of the frame, in their
    order, followed by the columns of the new rows the frame did not have. *)
Theorem insertion_postcondition df entity_name n tl :
  NAME_COLUMN ∈ columns df →
  feature_indices 0 (rows df) = n :: tl →
  ∃ df' question calculation,
    append_select_one_from_file_row df entity_name = inr df' ∧
    entity_rows entity_name = [question; calculation] ∧
    length (rows df') = length (rows df) + 2 ∧
    (∀ i, i ≤ n → rows df' !! i = rows df !! i) ∧
    rows df' !! (n + 1) = Some question ∧
    rows df' !! (n + 2) = Some calculation ∧
    (∀ i, n < i → rows df' !! (i + 2) = rows df !! i) ∧
    (∃ tl', feature_indices 0 (rows df') = n :: tl') ∧
    columns df `prefix_of` columns df' ∧
    (∀ c, c ∈ columns df' ↔
          c ∈ columns df ∨ c ∈ columns (additional_row entity_name)
          ∨ c ∈ columns (coordinates_row entity_name)).
Proof.
  intros Hc Hf. pose proof (feature_indices_head _ _ _ Hf) as Hn.
  destruct (append_select_one_from_file_row_rows df entity_name n Hc Hn) as (df' & E & R & _).
  assert (Hlen : n < length (rows df))
    by (destruct Hn as [(? & ? & _) _]; by eapply lookup_lt_Some).
  assert (Htake : length (take (S n) (rows df)) = S n) by (rewrite length_take; lia).
  destruct (entity_rows entity_name) as [|q [|c [|]]] eqn:Er; try discriminate Er.
  exists df', q, c. split; [done|]. split; [done|]. split; [|split; [|split; [|split; [|split]]]].
  - rewrite R, !length_app. cbn [length].
    rewrite <- (take_drop (S n) (rows df)) at 3. rewrite length_app. lia.
  - intros i Hi. rewrite R, lookup_app_l by lia. apply lookup_take_lt. lia.
  - rewrite R, lookup_app_r by lia. rewrite Htake. by replace (n + 1 - S n) with 0 by lia.
  - rewrite R, lookup_app_r by lia. rewrite Htake. by replace (n + 2 - S n) with 1 by lia.
  - intros i Hi. rewrite R, lookup_app_r by lia. rewrite Htake.
    replace (i + 2 - S n) with (S (S (i - S n))) by lia.
    change (([q; c] ++ ?l) !! S (S ?k)) with (l !! k).
    rewrite lookup_drop. f_equal. lia.
  - split; [|split].
    + apply (feature_indices_first 0). rewrite R. by apply first_feature_insert.
    + unfold append_select_one_from_file_row in E.
      rewrite (proj2 (has_column_true _ _) Hc), Hf in E. cbn [negb] in E.
      injection E as <-. unfold Pd.concat. cbn [columns fmap list_fmap foldl].
      rewrite union_columns_nil. unfold Pd.union_columns at 1 2 3.
      rewrite <- !app_assoc. by apply prefix_app_r.
    + intros x. unfold append_select_one_from_file_row in E.
      rewrite (proj2 (has_column_true _ _) Hc), Hf in E. cbn [negb] in E.
      injection E as <-. rewrite elem_of_concat_columns. split.
      * intros (d & Hd & Hx). rewrite !elem_of_cons in Hd.
        destruct Hd as [->|[->|[->|[->|?%elem_of_nil]]]]; tauto.
      * intros [Hx|[Hx|Hx]].
        -- eexists. split; [left|]. exact Hx.
        -- exists (additional_row entity_name). split; [right; left|done].
        -- exists (coordinates_row entity_name). split; [right; right; left|done].
Qed.

Lemma insertion_postcondition_witness :
  (NAME_COLUMN ∈ columns Sample.survey ∧ feature_indices 0 (rows Sample.survey) = 2 :: []) ∧
  ∃ df' question calculation,
    append_select_one_from_file_row Sample.survey "road" = inr df' ∧
    entity_rows "road" = [question; calculation] ∧
    length (rows df') = length (rows Sample.survey) + 2 ∧
    (∀ i, i ≤ 2 → rows df' !! i = rows Sample.survey !! i) ∧
    rows df' !! (2 + 1) = Some question ∧
    rows df' !! (2 + 2) = Some calculation ∧
    (∀ i, 2 < i → rows df' !! (i + 2) = rows Sample.survey !! i) ∧
    (∃ tl', feature_indices 0 (rows df') = 2 :: tl') ∧
    columns Sample.survey `prefix_of` columns df' ∧
    (∀ c, c ∈ columns df' ↔
          c ∈ columns Sample.survey ∨ c ∈ columns (additional_row "road")
          ∨ c ∈ columns (coordinates_row "road")).
Proof.
  assert (H1 : NAME_COLUMN ∈ columns Sample.survey)
    by (apply (bool_decide_unpack _); vm_compute; exact I).
  assert (H2 : feature_indices 0 (rows Sample.survey) = 2 :: []) by (vm_compute; reflexivity).
  split; [exact (conj H1 H2)|].
  exact (insertion_postcondition Sample.survey "road" 2 [] H1 H2).
Defined.

(** ** Strings *)

Lemma endswith_s_plural base : PyStr.endswith_s (base +:+ "s") = true.
Proof.
  induction base as [|a b IH]; [done|].
  change (String a b +:+ "s") with (String a (b +:+ "s")).
  destruct (b +:+ "s") as [|a' t] eqn:E; [by destruct b|]. exact IH.
Qed.

Lemma endswith_s_drop_last s : PyStr.endswith_s s = true → s = PyStr.drop_last s +:+ "s".
Proof.
  induction s as [|a s IH]; [done|]. destruct s as [|a' t].
  - cbn. by intros ->%bool_decide_eq_true.
  - intros H. change (String a (String a' t) = String a (PyStr.drop_last (String a' t) +:+ "s")).
    f_equal. by apply IH.
Qed.

(** X14.  The singular of a category: a category that ends in "s" loses
    exactly that one character, whatever stands before it, and every
    other category is left as it is. *)
Theorem singular_strips_one_s s :
  (∃ base, s = base +:+ "s" ∧ singular s = base) ∨
  ((∀ base, s ≠ base +:+ "s") ∧ singular s = s).
Proof.
  destruct (PyStr.endswith_s s) eqn:E.
  - left. exists (PyStr.drop_last s). split; [by apply endswith_s_drop_last|].
    unfold singular. by rewrite E.
  - right. split.
    + intros base ->. by rewrite endswith_s_plural in E.
    + unfold singular. by rewrite E.
Qed.

Lemma append_cons_str (x : ascii) (a b : string) : String x a +:+ b = String x (a +:+ b).
Proof. reflexivity. Qed.

Lemma append_assoc_str (a b c : string) : (a +:+ b) +:+ c = a +:+ b +:+ c.
Proof. induction a as [|x a IH]; [done|]. by rewrite !append_cons_str, IH. Qed.

Lemma append_nil_r_str (a : string) : a +:+ "" = a.
Proof. induction a as [|x a IH]; [done|]. by rewrite append_cons_str, IH. Qed.

Lemma startswith_app p x : PyStr.startswith p (p +:+ x) = true.
Proof.
  induction p as [|a p IH]; [done|]. rewrite append_cons_str.
  cbn [PyStr.startswith]. by rewrite decide_True.
Qed.

Lemma skip_app p x : PyStr.skip (String.length p) (p +:+ x) = x.
Proof. induction p as [|a p IH]; [done|]. exact IH. Qed.

Lemma length_app_colons base : String.length (base +:+ "::") = String.length base + 2.
Proof.
  induction base as [|a b IH]; [done|]. rewrite append_cons_str.
  cbn [String.length]. by rewrite IH.
Qed.

Lemma take_word_app w rest :
  ascii_word w = true → PyStr.take_word (w +:+ rest) = w +:+ PyStr.take_word rest.
Proof.
  unfold PyStr.take_word. induction w as [|a w IH]; [done|].
  cbn [ascii_word]. intros [[Ha Hw]%andb_true_iff Hrest]%andb_true_iff.
  rewrite !append_cons_str, decode_ascii_cons by done.
  cbn [PyStr.word_prefix]. rewrite Hw, encode_ascii_cons, chr_byte by done.
  by rewrite IH.
Qed.

Lemma default_language_word lang code :
  DEFAULT_LANGUAGES !! lang = Some code → ascii_word lang = true ∧ lang ≠ "".
Proof.
  intros E%elem_of_list_to_map_2.
  repeat (apply elem_of_cons in E as [[= -> ->]|E]); try (by apply elem_of_nil in E);
    (split; [vm_compute; reflexivity|done]).
Qed.

(** The match of the regular expression on a column of a known language. *)
Lemma re_match_lang_known base lang code rest :
  DEFAULT_LANGUAGES !! lang = Some code → PyStr.take_word rest = "" →
  PyStr.re_match_lang base (base +:+ "::" +:+ lang +:+ rest) = Some lang.
Proof.
  intros [Hw Hne]%default_language_word Hrest. unfold PyStr.re_match_lang.
  rewrite <- (append_assoc_str base "::" (lang +:+ rest)).
  rewrite startswith_app, <- length_app_colons, skip_app.
  rewrite take_word_app, Hrest, append_nil_r_str by done.
  by rewrite decide_False.
Qed.

(** X15.  In a translation column of a recognised language, whatever
    follows the language word, a code in other brackets or in capitals, a
    blank, a region, is dropped: the column [<base>::<language><rest>]
    becomes [<base>::<language>(<code>)] as soon as [rest] does not go on
    with a letter, a digit or an underscore. *)
Theorem text_after_language_is_dropped df i c base lang code rest :
  Pd.empty df = false →
  columns df !! i = Some c →
  base ∈ base_columns →
  DEFAULT_LANGUAGES !! lang = Some code →
  PyStr.lower c = base +:+ "::" +:+ lang +:+ rest →
  PyStr.take_word rest = "" →
  columns (standardize_sheet df) !! i
  = Some (base +:+ "::" +:+ lang +:+ "(" +:+ code +:+ ")").
Proof.
  intros He Hc Hb Hl Hlow Hrest.
  unfold standardize_sheet. rewrite He, filter_df_empty_rows_columns,
    standardize_language_columns_columns, list_lookup_fmap, Hc. cbn [fmap option_fmap option_map].
  f_equal. apply (std_name_fires base); [done|].
  unfold fires. rewrite Hlow.
  rewrite <- (append_assoc_str base "::" (lang +:+ rest)), startswith_app.
  rewrite (append_assoc_str base "::" (lang +:+ rest)).
  rewrite (re_match_lang_known _ _ code) by done.
  cbn [mbind option_bind]. by rewrite Hl.
Qed.

(** A sheet whose label column has the code in capitals and a blank. *)
Lemma text_after_language_is_dropped_witness :
  (Pd.empty (Sample.frame ["name"; "Label::French (FR)"] [[("name", CStr "q1")]]) = false ∧
   columns (Sample.frame ["name"; "Label::French (FR)"] [[("name", CStr "q1")]]) !! 1
   = Some "Label::French (FR)" ∧
   "label" ∈ base_columns ∧
   DEFAULT_LANGUAGES !! "french" = Some "fr" ∧
   PyStr.lower "Label::French (FR)" = "label" +:+ "::" +:+ "french" +:+ " (fr)" ∧
   PyStr.take_word " (fr)" = "") ∧
  columns (standardize_sheet
             (Sample.frame ["name"; "Label::French (FR)"] [[("name", CStr "q1")]])) !! 1
  = Some "label::french(fr)".
Proof.
  assert (H1 : Pd.empty (Sample.frame ["name"; "Label::French (FR)"] [[("name", CStr "q1")]])
               = false) by reflexivity.
  assert (H2 : columns (Sample.frame ["name"; "Label::French (FR)"] [[("name", CStr "q1")]]) !! 1
               = Some "Label::French (FR)") by reflexivity.
  assert (H3 : "label" ∈ base_columns) by (apply (bool_decide_unpack _); vm_compute; exact I).
  assert (H4 : DEFAULT_LANGUAGES !! "french" = Some "fr") by reflexivity.
  assert (H5 : PyStr.lower "Label::French (FR)" = "label" +:+ "::" +:+ "french" +:+ " (fr)")
    by (vm_compute; reflexivity).
  assert (H6 : PyStr.take_word " (fr)" = "") by (vm_compute; reflexivity).
  split; [exact (conj H1 (conj H2 (conj H3 (conj H4 (conj H5 H6)))))|].
  exact (text_after_language_is_dropped _ 1 "Label::French (FR)" "label" "french" "fr" " (fr)"
           H1 H2 H3 H4 H5 H6).
Defined.


(** ** The choices sheet of the upload *)

(** X16.  Without a choices sheet in the upload the choices merge cannot
    fail: the assembler puts an empty sheet with the columns [list_name],
    [name] and [label::english(en)] in its place, the merge runs in choice
    mode, and its rows are the mandatory and the supplementary choices
    without the repeated pairs. *)
Theorem choices_without_upload meta mandatory digitisation (custom_form : dict DataFrame) :
  dict_get "choices" custom_form = None →
  ∃ choices,
    merge_dataframes meta mandatory (user_choices_of custom_form) digitisation = inr choices ∧
    rows choices
    = Pd.drop_dups "list_name" NAME_COLUMN [] (rows mandatory ++ rows digitisation) ∧
    (∀ c, c ∈ columns choices ↔
          c ∈ columns mandatory ∨ c ∈ ["list_name"; "name"; "label::english(en)"]
          ∨ c ∈ columns digitisation).
Proof.
  intros Hn. unfold user_choices_of. rewrite Hn. unfold merge_dataframes.
  change (Pd.has_column "list_name" empty_choices) with true. cbv iota.
  set (cat := Pd.concat [mandatory; empty_choices; digitisation]).
  assert (Hc : ∀ c, c ∈ columns cat ↔
            c ∈ columns mandatory ∨ c ∈ ["list_name"; "name"; "label::english(en)"]
            ∨ c ∈ columns digitisation).
  { intros c. unfold cat. rewrite elem_of_concat_columns. split.
    - intros (df & Hdf & ?). rewrite !elem_of_cons in Hdf.
      destruct Hdf as [->|[->|[->|?%elem_of_nil]]]; tauto.
    - intros [?|[?|?]]; [exists mandatory|exists empty_choices|exists digitisation];
        (split; [|done]); rewrite !elem_of_cons; tauto. }
  unfold Pd.drop_duplicates.
  rewrite (proj2 (has_column_true "list_name" cat)) by (apply Hc; right; left; left).
  rewrite (proj2 (has_column_true NAME_COLUMN cat)) by (apply Hc; right; left; right; left).
  cbn [negb]. eexists. split; [done|]. split; [|done].
  cbn [rows]. unfold cat, Pd.concat. cbn [rows].
  change (mjoin (rows <$> [mandatory; empty_choices; digitisation]))
    with (rows mandatory ++ [] ++ rows digitisation ++ []).
  by rewrite app_nil_r.
Qed.

Lemma choices_without_upload_witness :
  dict_get "choices" NoAnchor.form = None ∧
  ∃ choices,
    merge_dataframes Sample.meta Sample.choices (user_choices_of NoAnchor.form)
      Sample.digitisation_choices = inr choices ∧
    rows choices
    = Pd.drop_dups "list_name" NAME_COLUMN []
        (rows Sample.choices ++ rows Sample.digitisation_choices) ∧
    (∀ c, c ∈ columns choices ↔
          c ∈ columns Sample.choices ∨ c ∈ ["list_name"; "name"; "label::english(en)"]
          ∨ c ∈ columns Sample.digitisation_choices).
Proof.
  assert (H : dict_get "choices" NoAnchor.form = None) by reflexivity.
  split; [exact H|].
  exact (choices_without_upload Sample.meta Sample.choices Sample.digitisation_choices
           NoAnchor.form H).
Defined.

(** X17.  A choices sheet without a [list_name] column is merged like a
    survey sheet: the choices sheet of a returning run then holds the
    mandatory choices, the begin-group row of [survey_questions], user
    rows, the end-group row and the supplementary choices. *)
Theorem choices_without_list_name e custom_form form_category additional_entities
    existing_id σ r :
  (append_mandatory_fields e custom_form form_category additional_entities existing_id σ).1
  = inr r →
  "list_name" ∉ columns (user_choices_of custom_form) →
  ∃ choices kept,
    dict_get "choices" r.2 = Some choices ∧
    rows choices = rows (load σ choices_df) ++ rows (begin_group SURVEY_GROUP_NAME) ++ kept
                   ++ rows end_group ++ rows (load σ digitisation_choices_df).
Proof.
  destruct (append_mandatory_fields _ _ _ _ _ σ) as [res σ1] eqn:Hrun.
  cbn [fst]. intros -> Hl%has_column_false.
  apply append_mandatory_fields_returns in Hrun as (user & merged & choices & _ & _ & Hc & Ht).
  destruct (assemble_tail_returns _ _ _ _ _ _ _ _ _ _ Ht) as (_ & _ & _ & _ & Hch & _).
  destruct (survey_merge_rows _ _ _ _ _ Hl Hc) as (u & kept & _ & _ & Hrows & _).
  by exists choices, kept.
Qed.

Lemma choices_without_list_name_witness :
  ((append_mandatory_fields Sample.e BadChoices.form "buildings" None None
      Sample.templates).1 = inr BadChoices.result ∧
   "list_name" ∉ columns (user_choices_of BadChoices.form)) ∧
  ∃ choices kept,
    dict_get "choices" BadChoices.result.2 = Some choices ∧
    rows choices = rows (load Sample.templates choices_df)
                   ++ rows (begin_group SURVEY_GROUP_NAME) ++ kept
                   ++ rows end_group ++ rows (load Sample.templates digitisation_choices_df).
Proof.
  assert (H1 : (append_mandatory_fields Sample.e BadChoices.form "buildings" None None
                  Sample.templates).1 = inr BadChoices.result) by (vm_compute; reflexivity).
  assert (H2 : "list_name" ∉ columns (user_choices_of BadChoices.form))
    by (apply (bool_decide_unpack _); vm_compute; exact I).
  split; [exact (conj H1 H2)|].
  exact (choices_without_list_name Sample.e BadChoices.form "buildings" None None
           Sample.templates BadChoices.result H1 H2).
Defined.

(** ** The survey sheet without a category row *)

(** X18.  When both merges return and no additional entity is asked for
    ([None] or the empty list), the assembler returns; and when the merged
    survey sheet has no row named [form_category], its survey sheet is the
    merge result as it is: nothing is stamped and no [calculation] column
    is added. *)
Theorem survey_without_category_row e custom_form form_category additional_entities
    existing_id σ user merged choices :
  dict_get "survey" custom_form = Some user →
  merge_dataframes (load σ meta_df) (load σ survey_df) (standardize_sheet user)
                   (load σ digitisation_df) = inr merged →
  merge_dataframes (load σ meta_df) (load σ choices_df) (user_choices_of custom_form)
                   (load σ digitisation_choices_df) = inr choices →
  additional_entities = None ∨ additional_entities = Some [] →
  ∃ r σ1,
    append_mandatory_fields e custom_form form_category additional_entities existing_id σ
    = (inr r, σ1) ∧
    (Forall (λ x : row, x !! "name" ≠ Some (CStr "form_category")) (rows merged) →
     dict_get "survey" r.2 = Some merged).
Proof.
  intros Hu Hm Hc Hnone.
  rewrite (append_mandatory_fields_run _ _ _ _ _ _ user Hu), Hm, Hc.
  unfold assemble_tail.
  assert (Hsurvey : Forall (λ x : row, x !! "name" ≠ Some (CStr "form_category")) (rows merged) →
            stamp_category (singular form_category) merged = merged).
  { intros Hno. unfold stamp_category.
    assert (Hf : List.filter is_form_category (rows merged) = []).
    { apply filter_none. eapply Forall_impl; [exact Hno|].
      intros x Hx. unfold is_form_category. by apply bool_decide_eq_false. }
    unfold Pd.empty. cbn [Pd.select rows columns]. by rewrite Hf. }
  destruct Hnone as [-> | ->]; (do 2 eexists; split; [done|]); intros Hno; cbn [snd];
    rewrite dict_get_view, final_sheets_survey; cbn [fmap option_fmap option_map];
    by rewrite Hsurvey.
Qed.

Lemma survey_without_category_row_witness :
  (dict_get "survey" Sample.form = Some Sample.user_survey ∧
   merge_dataframes (load NoCategory.templates meta_df) (load NoCategory.templates survey_df)
     (standardize_sheet Sample.user_survey) (load NoCategory.templates digitisation_df)
   = inr NoCategory.merged ∧
   merge_dataframes (load NoCategory.templates meta_df) (load NoCategory.templates choices_df)
     (user_choices_of Sample.form) (load NoCategory.templates digitisation_choices_df)
   = inr NoCategory.choices ∧
   (Some (@nil string) = None ∨ Some (@nil string) = Some []) ∧
   Forall (λ x : row, x !! "name" ≠ Some (CStr "form_category")) (rows NoCategory.merged)) ∧
  ∃ r σ1,
    append_mandatory_fields Sample.e Sample.form "buildings" (Some []) None
      NoCategory.templates = (inr r, σ1) ∧
    dict_get "survey" r.2 = Some NoCategory.merged.
Proof.
  assert (H1 : dict_get "survey" Sample.form = Some Sample.user_survey) by reflexivity.
  assert (H2 : merge_dataframes (load NoCategory.templates meta_df)
                 (load NoCategory.templates survey_df) (standardize_sheet Sample.user_survey)
                 (load NoCategory.templates digitisation_df) = inr NoCategory.merged)
    by (vm_compute; reflexivity).
  assert (H3 : merge_dataframes (load NoCategory.templates meta_df)
                 (load NoCategory.templates choices_df) (user_choices_of Sample.form)
                 (load NoCategory.templates digitisation_choices_df) = inr NoCategory.choices)
    by (vm_compute; reflexivity).
  assert (H4 : Forall (λ x : row, x !! "name" ≠ Some (CStr "form_category"))
                 (rows NoCategory.merged))
    by (apply (bool_decide_unpack _); vm_compute; exact I).
  assert (H5 : Some (@nil string) = None ∨ Some (@nil string) = Some []) by (by right).
  split; [exact (conj H1 (conj H2 (conj H3 (conj H5 H4))))|].
  destruct (survey_without_category_row Sample.e Sample.form "buildings" (Some []) None
              NoCategory.templates Sample.user_survey NoCategory.merged NoCategory.choices
              H1 H2 H3 H5) as (r & σ1 & Hr & Hs).
  exists r, σ1. split; [exact Hr|exact (Hs H4)].
Defined.
